(** * Philippine tax rules engine: a shallow embedding of the rule pipeline

    The development follows the TypeScript sources of the rules engine:
    the type definitions and configuration tables of [rules-engine/types],
    the five rule classes ([RegimeDeterminationRule], [TaxComputationRule],
    [FilingObligationsRule], [DeadlineCalculationRule], [RiskAssessmentRule])
    and the orchestrating [RulesEngineService].

    Conventions of the embedding.
    - A JavaScript [number] that holds an amount is a rational [Q]: finite
      values are kept exactly, so binary64 rounding is not part of the model.
      The two places where the sources meet a non-finite value are written
      out: the [Infinity] bound of the last tax bracket ([Bound]) and the
      unguarded quotient of the recommendation policy ([Js.div_gt]).
      Module [Binary64] repeats the arithmetic core of the tax computation
      on IEEE binary64 numbers, to evaluate it at the concrete amounts the
      results below rest on.
    - Integers that are counts, years, months and days are [nat] or [Z].
    - A [Date] built by [new Date(y, m, d)] is the number of its local
      calendar day (days from 1970-01-01); the host's zone offset, which
      [toISOString] applies, is a field of [HostEnv], as are the host's
      number formatters [toLocaleString] and [toFixed].
    - Counters captured by the [nextId] closures are threaded explicitly. *)

From Stdlib Require Import ZArith QArith Qround Qminmax List String Ascii Bool Lia Lqa.
From Stdlib Require Import DecimalString DecimalNat PrimFloat Permutation Sorted.
Import ListNotations.

Open Scope string_scope.
Open Scope Q_scope.

(** ** JavaScript primitives used by the sources *)

Module Js.

Definition number := Q.

(** [a <= b], [a < b], [a > b], [a >= b] on finite numbers. *)
Definition leb (a b : number) : bool := Qle_bool a b.
Definition ltb (a b : number) : bool := negb (Qle_bool b a).
Definition gtb (a b : number) : bool := ltb b a.
Definition geb (a b : number) : bool := leb b a.
Definition eqb (a b : number) : bool := Qeq_bool a b.

(** [Math.max(a, b)] and [Math.min(a, b)]. *)
Definition Math_max (a b : number) : number := if leb a b then b else a.
Definition Math_min (a b : number) : number := if leb a b then a else b.

(** [Math.round(x)]: the nearest integer, halves rounded up. *)
Definition Math_round (x : number) : number := inject_Z (Qfloor (x + (1 # 2))).

(** [a / b > c].  For [b = 0] the quotient is [Infinity] when [a > 0]
      (greater than every finite [c]), [NaN] when [a = 0] and [-Infinity]
      when [a < 0] (both comparisons are false).  Sums start from [+0], so a
      zero denominator is a positive zero.  The quotient is compared
      exactly; binary64 compares the rounded quotient, which can decide
      otherwise only when the exact quotient is within rounding of [c]. *)
Definition div_gt (a b c : number) : bool :=
    if eqb b 0 then gtb a 0 else gtb (a / b) c.

(** Truthiness of an optional number: [undefined] and [0] are falsy. *)
Definition truthy (x : option number) : bool :=
    match x with
    | Some v => negb (eqb v 0)
    | None => false
    end.

(** [x || 0] on an optional number. *)
Definition or0 (x : option number) : number :=
    match x with
    | Some v => if eqb v 0 then 0 else v
    | None => 0
    end.

(** [reduce((sum, e) => sum + f(e), 0)]: the terms are added in the order
      of the list, exactly; the rounding binary64 applies after each
      addition is not part of the model. *)
Definition sum {A : Type} (f : A -> number) (l : list A) : number :=
    fold_left (fun acc e => acc + f e) l 0.

(** [Array.prototype.some]. *)
Definition some {A : Type} (p : A -> bool) (l : list A) : bool := existsb p l.

(** Decimal text of an integer, as a template literal prints it. *)
Definition string_of_nat (n : nat) : string :=
    NilZero.string_of_uint (Nat.to_uint n).
Definition string_of_Z (z : Z) : string :=
    NilZero.string_of_int (Z.to_int z).

Definition dq : string := String (ascii_of_nat 34) EmptyString.
Definition nl : string := String (ascii_of_nat 10) EmptyString.

(** The parts of a template literal glued together. *)
Definition cat (parts : list string) : string := String.concat "" parts.

(** Values stored in the [Record<string, any>] digests of a reasoning step. *)
Inductive value : Type :=
  | VUndefined
  | VNumber (q : number)
  | VBoolean (b : bool)
  | VString (s : string)
  | VStrings (l : list string).

End Js.

(** The host on which the engine runs: the zone offset of local time in
    minutes east of UTC (taken constant over the year) and the two number
    formatters of the runtime. *)
Record HostEnv : Type := {
  tzOffsetMinutes : Z;
  toLocaleString : Q -> string;
  toFixed : nat -> Q -> string
}.

(** ** rules-engine/types *)

Inductive UserType := FREELANCER | SELF_EMPLOYED | MICRO_SMALL_BUSINESS | MIXED_INCOME.

Inductive RegistrationStatus :=
  NOT_REGISTERED | PENDING_REGISTRATION | REGISTERED | NEEDS_UPDATE.

Inductive TaxRegime := GRADUATED_RATES | EIGHT_PERCENT_FLAT | UNDETERMINED.

Inductive IncomeType :=
  FREELANCE_SERVICE | BUSINESS_SALES | EMPLOYMENT | RENTAL | ROYALTIES | OTHER.

Inductive IncomeFrequency := ONE_TIME | MONTHLY | QUARTERLY | ANNUAL | IRREGULAR.

Inductive ExpenseCategory :=
  RENT | UTILITIES | SUPPLIES | PROFESSIONAL_FEES | TRANSPORTATION | COMMUNICATION
| DEPRECIATION | SALARIES_WAGES | TAXES_LICENSES | INSURANCE | INTEREST_EXPENSE
| REPAIRS_MAINTENANCE | ADVERTISING | BAD_DEBTS | OTHER_DEDUCTIBLE.

Inductive RiskLevel := NONE | INFO | WARNING | CPA_REVIEW_REQUIRED.

(** The string value of each enum member, as a digest or a template shows it. *)
Definition UserType_value (u : UserType) : string :=
  match u with
  | FREELANCER => "FREELANCER"
  | SELF_EMPLOYED => "SELF_EMPLOYED"
  | MICRO_SMALL_BUSINESS => "MICRO_SMALL_BUSINESS"
  | MIXED_INCOME => "MIXED_INCOME"
  end.

Definition RegistrationStatus_value (r : RegistrationStatus) : string :=
  match r with
  | NOT_REGISTERED => "NOT_REGISTERED"
  | PENDING_REGISTRATION => "PENDING_REGISTRATION"
  | REGISTERED => "REGISTERED"
  | NEEDS_UPDATE => "NEEDS_UPDATE"
  end.

Definition TaxRegime_value (r : TaxRegime) : string :=
  match r with
  | GRADUATED_RATES => "GRADUATED_RATES"
  | EIGHT_PERCENT_FLAT => "EIGHT_PERCENT_FLAT"
  | UNDETERMINED => "UNDETERMINED"
  end.

Definition UserType_eqb (a b : UserType) : bool :=
  match a, b with
  | FREELANCER, FREELANCER | SELF_EMPLOYED, SELF_EMPLOYED
  | MICRO_SMALL_BUSINESS, MICRO_SMALL_BUSINESS | MIXED_INCOME, MIXED_INCOME => true
  | _, _ => false
  end.

Definition TaxRegime_eqb (a b : TaxRegime) : bool :=
  match a, b with
  | GRADUATED_RATES, GRADUATED_RATES | EIGHT_PERCENT_FLAT, EIGHT_PERCENT_FLAT
  | UNDETERMINED, UNDETERMINED => true
  | _, _ => false
  end.

Definition RegistrationStatus_eqb (a b : RegistrationStatus) : bool :=
  match a, b with
  | NOT_REGISTERED, NOT_REGISTERED | PENDING_REGISTRATION, PENDING_REGISTRATION
  | REGISTERED, REGISTERED | NEEDS_UPDATE, NEEDS_UPDATE => true
  | _, _ => false
  end.

Definition isEmployment (t : IncomeType) : bool :=
  match t with EMPLOYMENT => true | _ => false end.

(** [input.selectedRegime === r] on the optional field. *)
Definition regimeIs (sel : option TaxRegime) (r : TaxRegime) : bool :=
  match sel with
  | Some s => TaxRegime_eqb s r
  | None => false
  end.

(** [types.includes(u)]. *)
Definition includes (types : list UserType) (u : UserType) : bool :=
  existsb (UserType_eqb u) types.

Module IncomeStreamData.
Record t : Type := mk {
    id : string;
    incomeType : IncomeType;
    grossAmount : Q;
    frequency : IncomeFrequency;
    hasWithholding : bool;
    withheldAmount : option Q;
    withholdingRate : option Q;
    form2307Received : bool
  }.
End IncomeStreamData.

Module ExpenseData.
Record t : Type := mk {
    id : string;
    category : ExpenseCategory;
    amount : Q;
    isDeductible : bool
  }.
End ExpenseData.

Module RuleInput.
Record t : Type := mk {
    taxYear : Z;
    userType : UserType;
    registrationStatus : RegistrationStatus;
    hasEmploymentIncome : bool;
    incomeStreams : list IncomeStreamData.t;
    expenses : list ExpenseData.t;
    selectedRegime : option TaxRegime;
    tin : option string
  }.

(** [{ ...input, selectedRegime: r }]. *)
Definition withSelectedRegime (input : t) (r : option TaxRegime) : t :=
    mk (taxYear input) (userType input) (registrationStatus input)
       (hasEmploymentIncome input) (incomeStreams input) (expenses input)
       r (tin input).
End RuleInput.

Module RegimeEstimate.
Record t : Type := mk {
  estimatedTax : Q;
  effectiveRate : Q;
  pros : list string;
  cons : list string
}.
End RegimeEstimate.

Module Comparison.
Record t : Type := mk {
  eightPercent : RegimeEstimate.t;
  graduatedRates : RegimeEstimate.t
}.
End Comparison.

Module RegimeComparisonResult.
Record t : Type := mk {
  eligible8Percent : bool;
  eligibilityReason : string;
  comparison : Comparison.t;
  recommendation : TaxRegime;
  recommendationReason : string;
  ruleModuleId : string
}.
End RegimeComparisonResult.

Module QuarterlyPayments.
Record t : Type := mk { q1 : Q; q2 : Q; q3 : Q; annual : Q }.
End QuarterlyPayments.

Module ComputedValues.
Record t : Type := mk {
  grossIncome : Q;
  businessIncome : Q;
  employmentIncome : Q;
  totalDeductions : Q;
  taxableIncome : Q;
  estimatedTax : Q;
  creditsApplied : Q;
  netTaxPayable : Q;
  quarterlyPayments : QuarterlyPayments.t
}.
End ComputedValues.

(** ['monthly' | 'quarterly' | 'annual']. *)
Inductive Frequency := monthly | quarterly | annual.

Module Obligation.
Record t : Type := mk {
  id : string;
  formCode : string;
  formName : string;
  description : string;
  frequency : Frequency;
  isApplicable : bool;
  ruleModuleId : string;
  notes : string
}.
End Obligation.

(** The [dueDate] string of a deadline: the sentinel ['ASAP'] or the date
    part of an ISO timestamp, kept as its year, month and day. *)
Inductive DueDate :=
| ASAP
| IsoDate (year month day : Z).

Module Deadline.
Record t : Type := mk {
  id : string;
  obligationId : string;
  formCode : string;
  description : string;
  dueDate : DueDate;
  period : string;
  reminderDays : list nat;
  penaltyInfo : string
}.
End Deadline.

Module RiskFlag.
Record t : Type := mk {
  id : string;
  level : RiskLevel;
  code : string;
  title : string;
  description : string;
  ruleModuleId : string;
  recommendedAction : string;
  affectedFields : list string
}.
End RiskFlag.

Module ReasoningStep.
Record t : Type := mk {
  stepNumber : nat;
  ruleModuleId : string;
  ruleModuleVersion : string;
  input : list (string * Js.value);
  output : list (string * Js.value);
  explanation : string
}.
End ReasoningStep.

Module Completeness.
Record t : Type := mk {
  score : Q;
  missingFields : list string;
  warnings : list string
}.
End Completeness.

Module ReasoningReceipt.
Record t : Type := mk {
  steps : list ReasoningStep.t;
  explanationIds : list string;
  completeness : Completeness.t
}.
End ReasoningReceipt.

Module AssessmentOutput.
Record t : Type := mk {
  recommendedRegime : option TaxRegime;
  regimeComparison : RegimeComparisonResult.t;
  computedValues : ComputedValues.t;
  obligations : list Obligation.t;
  deadlines : list Deadline.t;
  riskFlags : list RiskFlag.t;
  reasoningReceipt : ReasoningReceipt.t;
  rulesEngineVersion : string
}.
End AssessmentOutput.

(** *** Thresholds, brackets and deadline tables *)

Module TAX_THRESHOLDS.
Definition VAT_THRESHOLD : Q := 3000000.
Definition EIGHT_PERCENT_GROSS_LIMIT : Q := 3000000.
Definition PERSONAL_EXEMPTION_THRESHOLD : Q := 250000.
Definition EIGHT_PERCENT_RATE : Q := 0.08.
Definition OSD_RATE : Q := 0.40.
End TAX_THRESHOLDS.

(** The upper bound of a bracket: a finite amount or [Infinity]. *)
Inductive Bound :=
| Finite (q : Q)
| Infinity.

(** [x <= b] for a finite [x]. *)
Definition leb_bound (x : Q) (b : Bound) : bool :=
  match b with
  | Finite q => Js.leb x q
  | Infinity => true
  end.

Module TaxBracket.
Record t : Type := mk { min : Q; max : Bound; rate : Q; baseTax : Q }.
End TaxBracket.

Definition GRADUATED_TAX_BRACKETS_2023 : list TaxBracket.t :=
  [ TaxBracket.mk 0 (Finite 250000) 0 0;
    TaxBracket.mk 250001 (Finite 400000) 0.15 0;
    TaxBracket.mk 400001 (Finite 800000) 0.20 22500;
    TaxBracket.mk 800001 (Finite 2000000) 0.25 102500;
    TaxBracket.mk 2000001 (Finite 8000000) 0.30 402500;
    TaxBracket.mk 8000001 Infinity 0.35 2202500 ].

Module MonthDay.
Record t : Type := mk { month : Z; day : Z }.
End MonthDay.

Module QuarterDeadlines.
Record t : Type := mk {
  Q1 : MonthDay.t;
  Q2 : MonthDay.t;
  Q3 : MonthDay.t;
  Q4 : option MonthDay.t
}.
End QuarterDeadlines.

Module DeadlineConfig.
Record t : Type := mk {
  formCode : string;
  quarterDeadlines : QuarterDeadlines.t;
  annualDeadline : option MonthDay.t;
  description : string
}.
End DeadlineConfig.

(** The entries of the [FILING_DEADLINES] record, in source order. *)
Definition FILING_DEADLINES_entries : list (string * DeadlineConfig.t) :=
  [ ("1701Q",
     DeadlineConfig.mk "1701Q"
       (QuarterDeadlines.mk (MonthDay.mk 5 15) (MonthDay.mk 8 15) (MonthDay.mk 11 15) None)
       None
       "Quarterly Income Tax Return for Self-Employed Individuals, Estates and Trusts");
    ("1701",
     DeadlineConfig.mk "1701"
       (QuarterDeadlines.mk (MonthDay.mk 4 15) (MonthDay.mk 4 15) (MonthDay.mk 4 15) None)
       (Some (MonthDay.mk 4 15))
       "Annual Income Tax Return for Individuals (including Mixed Income)");
    ("2551Q",
     DeadlineConfig.mk "2551Q"
       (QuarterDeadlines.mk (MonthDay.mk 4 25) (MonthDay.mk 7 25) (MonthDay.mk 10 25)
          (Some (MonthDay.mk 1 25)))
       None
       "Quarterly Percentage Tax Return") ].

(** [table[key]] on the own keys of a record literal.  A key that names a
    member every object inherits (['constructor'], ['toString'], ...) is
    outside the model: none of the form codes of the engine is one. *)
Fixpoint lookup {A : Type} (table : list (string * A)) (key : string) : option A :=
  match table with
  | [] => None
  | (k, v) :: rest => if String.eqb k key then Some v else lookup rest key
  end.

Definition FILING_DEADLINES (formCode : string) : option DeadlineConfig.t :=
  lookup FILING_DEADLINES_entries formCode.

(** ** rules/tax-computation.rule *)

Module TaxComputationRule.

Definition id : string := "TAX_COMPUTATION".
Definition code : string := "TAX_COMPUTE".
Definition version : string := "1.0.0".
Definition title : string := "Tax Computation Engine".

Definition calculateGrossIncome (input : RuleInput.t) : Q :=
  Js.sum IncomeStreamData.grossAmount (RuleInput.incomeStreams input).

Definition calculateBusinessIncome (input : RuleInput.t) : Q :=
  Js.sum IncomeStreamData.grossAmount
    (filter (fun stream => negb (isEmployment (IncomeStreamData.incomeType stream)))
       (RuleInput.incomeStreams input)).

Definition calculateEmploymentIncome (input : RuleInput.t) : Q :=
  Js.sum IncomeStreamData.grossAmount
    (filter (fun stream => isEmployment (IncomeStreamData.incomeType stream))
       (RuleInput.incomeStreams input)).

Definition calculateTotalDeductions (input : RuleInput.t) : Q :=
  Js.sum ExpenseData.amount
    (filter ExpenseData.isDeductible (RuleInput.expenses input)).

Definition calculateWithholdingCredits (input : RuleInput.t) : Q :=
  Js.sum (fun stream => Js.or0 (IncomeStreamData.withheldAmount stream))
    (filter (fun stream => IncomeStreamData.hasWithholding stream
                           && Js.truthy (IncomeStreamData.withheldAmount stream))
       (RuleInput.incomeStreams input)).

(** Result [{ tax, taxableAmount }]. *)
Definition compute8PercentTax (businessIncome : Q) : Q * Q :=
  let taxableAmount :=
    Js.Math_max 0 (businessIncome - TAX_THRESHOLDS.PERSONAL_EXEMPTION_THRESHOLD) in
  let tax := taxableAmount * TAX_THRESHOLDS.EIGHT_PERCENT_RATE in
  (tax, taxableAmount).

(** The [for ... of] loop over the bracket table; [lastBracket] is the
    entry used when the loop ends without returning. *)
Fixpoint applyBrackets (brackets : list TaxBracket.t) (lastBracket : TaxBracket.t)
    (taxableIncome : Q) : Q :=
  match brackets with
  | bracket :: rest =>
      if leb_bound taxableIncome (TaxBracket.max bracket) then
        let excessAmount := Js.Math_max 0 (taxableIncome - TaxBracket.min bracket) in
        TaxBracket.baseTax bracket + excessAmount * TaxBracket.rate bracket
      else applyBrackets rest lastBracket taxableIncome
  | [] =>
      let excessAmount := taxableIncome - TaxBracket.min lastBracket in
      TaxBracket.baseTax lastBracket + excessAmount * TaxBracket.rate lastBracket
  end.

Definition applyGraduatedRates (taxableIncome : Q) : Q :=
  applyBrackets GRADUATED_TAX_BRACKETS_2023
    (last GRADUATED_TAX_BRACKETS_2023 (TaxBracket.mk 0 Infinity 0 0))
    taxableIncome.

(** Result [{ tax, taxableIncome, deductionMethod }]. *)
Definition computeGraduatedTax (businessIncome actualDeductions employmentIncome : Q)
    : Q * Q * string :=
  let osd := businessIncome * TAX_THRESHOLDS.OSD_RATE in
  let useOSD := Js.geb osd actualDeductions in
  let deduction := if useOSD then osd else actualDeductions in
  let deductionMethod :=
    if useOSD then "Optional Standard Deduction (40%)" else "Itemized Deductions" in
  let taxableBusinessIncome := Js.Math_max 0 (businessIncome - deduction) in
  let totalTaxableIncome := taxableBusinessIncome in
  let tax := applyGraduatedRates totalTaxableIncome in
  (tax, totalTaxableIncome, deductionMethod).

(** In exact arithmetic the true-up [annualTax - quarterlyAmount * 3] is the
    quarter again.  On binary64 the product is rounded, and the true-up can
    come out a centavo below the quarterly payment:
    [Binary64.calculateQuarterlyPayments] carries out the same operations
    on binary64 numbers. *)
Definition calculateQuarterlyPayments (annualTax : Q) (regime : option TaxRegime)
    : QuarterlyPayments.t :=
  let quarterlyAmount := annualTax / 4 in
  QuarterlyPayments.mk
    (Js.Math_round (quarterlyAmount * 100) / 100)
    (Js.Math_round (quarterlyAmount * 100) / 100)
    (Js.Math_round (quarterlyAmount * 100) / 100)
    (Js.Math_round ((annualTax - quarterlyAmount * 3) * 100) / 100).

Definition execute (input : RuleInput.t) : ComputedValues.t :=
  let grossIncome := calculateGrossIncome input in
  let businessIncome := calculateBusinessIncome input in
  let employmentIncome := calculateEmploymentIncome input in
  let totalDeductions := calculateTotalDeductions input in
  let creditsApplied := calculateWithholdingCredits input in
  let '(estimatedTax, taxableIncome) :=
    if regimeIs (RuleInput.selectedRegime input) EIGHT_PERCENT_FLAT then
      compute8PercentTax businessIncome
    else
      let '(tax, taxable, _) :=
        computeGraduatedTax businessIncome totalDeductions employmentIncome in
      (tax, taxable) in
  let netTaxPayable := Js.Math_max 0 (estimatedTax - creditsApplied) in
  let quarterlyPayments :=
    calculateQuarterlyPayments netTaxPayable (RuleInput.selectedRegime input) in
  ComputedValues.mk grossIncome businessIncome employmentIncome totalDeductions
    taxableIncome estimatedTax creditsApplied netTaxPayable quarterlyPayments.

End TaxComputationRule.

(** ** rules/regime-determination.rule *)

Module RegimeDeterminationRule.

Definition id : string := "REGIME_DETERMINATION".
Definition code : string := "REGIME_8PCT_ELIGIBILITY".
Definition version : string := "1.0.0".
Definition title : string := "8% Flat Tax Eligibility Determination".

Definition calculateBusinessIncome (input : RuleInput.t) : Q :=
  Js.sum IncomeStreamData.grossAmount
    (filter (fun stream => negb (isEmployment (IncomeStreamData.incomeType stream)))
       (RuleInput.incomeStreams input)).

Definition calculateTotalDeductions (input : RuleInput.t) : Q :=
  Js.sum ExpenseData.amount
    (filter ExpenseData.isDeductible (RuleInput.expenses input)).

(** Result [{ isEligible, reason }]. *)
Definition checkEligibility (env : HostEnv) (input : RuleInput.t) : bool * string :=
  let businessIncome := calculateBusinessIncome input in
  let eligibleUserTypes := [FREELANCER; SELF_EMPLOYED; MICRO_SMALL_BUSINESS] in
  if negb (includes eligibleUserTypes (RuleInput.userType input)) then
    (false,
     "Only self-employed individuals, freelancers, and sole proprietors can elect 8% tax.")
  else if Js.gtb businessIncome TAX_THRESHOLDS.VAT_THRESHOLD then
    (false,
     Js.cat ["Gross receipts/sales exceed ₱";
             toLocaleString env TAX_THRESHOLDS.VAT_THRESHOLD;
             ". You are VAT-registered and cannot use 8% flat tax."])
  else if UserType_eqb (RuleInput.userType input) MIXED_INCOME
          || RuleInput.hasEmploymentIncome input then
    (true,
     "Eligible for 8% flat tax on business/professional income. Employment income will be taxed separately through withholding.")
  else
    (true, "You meet all requirements for 8% flat tax on gross sales/receipts.").

Definition calculate8PercentTax (businessIncome : Q) : Q :=
  let taxableAmount :=
    Js.Math_max 0 (businessIncome - TAX_THRESHOLDS.PERSONAL_EXEMPTION_THRESHOLD) in
  taxableAmount * TAX_THRESHOLDS.EIGHT_PERCENT_RATE.

Fixpoint applyBrackets (brackets : list TaxBracket.t) (lastBracket : TaxBracket.t)
    (taxableIncome : Q) : Q :=
  match brackets with
  | bracket :: rest =>
      if leb_bound taxableIncome (TaxBracket.max bracket) then
        let excessAmount := Js.Math_max 0 (taxableIncome - TaxBracket.min bracket) in
        TaxBracket.baseTax bracket + excessAmount * TaxBracket.rate bracket
      else applyBrackets rest lastBracket taxableIncome
  | [] =>
      let excessAmount := taxableIncome - TaxBracket.min lastBracket in
      TaxBracket.baseTax lastBracket + excessAmount * TaxBracket.rate lastBracket
  end.

Definition applyGraduatedRates (taxableIncome : Q) : Q :=
  applyBrackets GRADUATED_TAX_BRACKETS_2023
    (last GRADUATED_TAX_BRACKETS_2023 (TaxBracket.mk 0 Infinity 0 0))
    taxableIncome.

Definition calculateGraduatedTax (businessIncome actualDeductions : Q) : Q :=
  let osd := businessIncome * TAX_THRESHOLDS.OSD_RATE in
  let bestDeduction := Js.Math_max actualDeductions osd in
  let taxableIncome := Js.Math_max 0 (businessIncome - bestDeduction) in
  applyGraduatedRates taxableIncome.

Definition eightPercentPros : list string :=
  [ "Simpler computation - just 8% of gross receipts above ₱250,000";
    "No need to track itemized deductions";
    "Less bookkeeping requirements";
    "Replaces percentage tax and income tax" ].

Definition eightPercentCons : list string :=
  [ "Cannot claim business expenses as deductions";
    "May pay more tax if expenses are high (above 40% of gross)";
    "Fixed rate regardless of actual profitability";
    "Not available if gross exceeds ₱3,000,000" ].

Definition graduatedPros : list string :=
  [ "Can deduct actual business expenses";
    "May result in lower tax if expenses are high";
    "Progressive rates favor lower income";
    "More accurate reflection of actual profit" ].

Definition graduatedCons : list string :=
  [ "Requires detailed expense tracking with receipts";
    "More complex tax computation";
    "Subject to both income tax AND percentage tax (3%)";
    "Higher compliance burden" ].

Definition execute (env : HostEnv) (input : RuleInput.t) : RegimeComparisonResult.t :=
  let eligible8Percent := checkEligibility env input in
  let businessIncome := calculateBusinessIncome input in
  let totalDeductions := calculateTotalDeductions input in
  let eightPercentTax := calculate8PercentTax businessIncome in
  let graduatedTax := calculateGraduatedTax businessIncome totalDeductions in
  let comparison :=
    Comparison.mk
      (RegimeEstimate.mk
         (if fst eligible8Percent then eightPercentTax else 0)
         (if Js.gtb businessIncome 0 then eightPercentTax / businessIncome else 0)
         eightPercentPros eightPercentCons)
      (RegimeEstimate.mk
         graduatedTax
         (if Js.gtb businessIncome 0 then graduatedTax / businessIncome else 0)
         graduatedPros graduatedCons) in
  let '(recommendation, recommendationReason) :=
    if negb (fst eligible8Percent) then
      (GRADUATED_RATES,
       Js.cat ["8% option not available: "; snd eligible8Percent])
    else if Js.div_gt totalDeductions businessIncome 0.4 then
      (GRADUATED_RATES,
       "Your expenses appear high relative to income. Graduated rates with itemized deductions may result in lower tax.")
    else if Js.ltb eightPercentTax graduatedTax then
      (EIGHT_PERCENT_FLAT,
       "Based on your income and expenses, 8% flat tax would result in lower tax liability with simpler compliance.")
    else
      (GRADUATED_RATES,
       "Based on your income and deductible expenses, graduated rates would result in lower tax liability.") in
  RegimeComparisonResult.mk (fst eligible8Percent) (snd eligible8Percent) comparison
    recommendation recommendationReason id.

End RegimeDeterminationRule.

(** ** rules/filing-obligations.rule *)

Module FilingObligationsRule.

Definition id : string := "FILING_OBLIGATIONS".
Definition code : string := "FILING_OBLIGATIONS_DETERMINATION".
Definition version : string := "1.0.0".
Definition title : string := "Tax Filing Obligations Determination".

(** The [obligations] array and the [obligationCounter] of one call. *)
Definition State : Type := list Obligation.t * nat.

(** [obligations.push({ id: nextId(), ... })]. *)
Definition push (st : State) (rest : string -> Obligation.t) : State :=
  (app (fst st) [rest (Js.cat ["OBL-"; Js.string_of_nat (snd st)])], S (snd st)).

Definition requiresQuarterlyIncomeTax (input : RuleInput.t) : bool :=
  let selfEmployedTypes :=
    [FREELANCER; SELF_EMPLOYED; MICRO_SMALL_BUSINESS; MIXED_INCOME] in
  includes selfEmployedTypes (RuleInput.userType input).

Definition requiresPercentageTax (input : RuleInput.t) : bool :=
  if regimeIs (RuleInput.selectedRegime input) EIGHT_PERCENT_FLAT then false
  else
    includes [FREELANCER; SELF_EMPLOYED; MICRO_SMALL_BUSINESS] (RuleInput.userType input)
    && regimeIs (RuleInput.selectedRegime input) GRADUATED_RATES.

Definition getAnnualReturnNotes (input : RuleInput.t) : string :=
  if RuleInput.hasEmploymentIncome input then
    "As a mixed-income earner, you must file Form 1701 combining employment and business income. Attach Form 2316 from your employer."
  else if regimeIs (RuleInput.selectedRegime input) EIGHT_PERCENT_FLAT then
    "File annual return reporting total gross receipts. Final tax computation using 8% rate on amounts exceeding ₱250,000."
  else
    "File annual return with final tax computation. Report all income and claim applicable deductions.".

(** Income tax obligations: Forms 1701Q and 1701. *)
Definition incomeTaxObligations (input : RuleInput.t) (st : State) : State :=
  let st :=
    if requiresQuarterlyIncomeTax input then
      push st (fun i =>
        Obligation.mk i "1701Q" "Quarterly Income Tax Return"
          "For self-employed individuals, estates, and trusts"
          quarterly true id
          (if regimeIs (RuleInput.selectedRegime input) EIGHT_PERCENT_FLAT
           then "File quarterly even under 8% regime. Report gross receipts and compute tax at 8%."
           else "Report income and compute tax using graduated rates with deductions."))
    else st in
  push st (fun i =>
    Obligation.mk i "1701" "Annual Income Tax Return"
      "Annual income tax return for individuals"
      annual true id (getAnnualReturnNotes input)).

(** Percentage tax obligations: Form 2551Q. *)
Definition percentageTaxObligations (input : RuleInput.t) (st : State) : State :=
  if requiresPercentageTax input then
    push st (fun i =>
      Obligation.mk i "2551Q" "Quarterly Percentage Tax Return"
        "3% percentage tax on gross sales/receipts (non-VAT)"
        quarterly true id
        "3% of gross sales/receipts. Required for non-VAT registered taxpayers using graduated rates. NOT required if using 8% flat tax option.")
  else if regimeIs (RuleInput.selectedRegime input) EIGHT_PERCENT_FLAT then
    push st (fun i =>
      Obligation.mk i "2551Q" "Quarterly Percentage Tax Return"
        "3% percentage tax on gross sales/receipts (non-VAT)"
        quarterly false id
        "Not required because you elected 8% flat tax, which replaces percentage tax.")
  else st.

(** Registration obligations: Forms 1901 and 0605. *)
Definition registrationObligations (input : RuleInput.t) (st : State) : State :=
  let st :=
    if RegistrationStatus_eqb (RuleInput.registrationStatus input) NOT_REGISTERED then
      push st (fun i =>
        Obligation.mk i "1901" "Application for Registration (Self-Employed)"
          "Initial BIR registration for self-employed individuals"
          annual true id
          "IMPORTANT: You must register with the BIR before starting business activities. This should be done within 30 days of starting business.")
    else st in
  if RegistrationStatus_eqb (RuleInput.registrationStatus input) REGISTERED then
    push st (fun i =>
      Obligation.mk i "0605" "Payment Form (Annual Registration Fee)"
        "Annual registration fee of ₱500"
        annual true id
        "₱500 annual registration fee, due on or before January 31 each year.")
  else st.

(** Withholding tax obligations: Form 2307. *)
Definition withholdingObligations (input : RuleInput.t) (st : State) : State :=
  let hasWithholding :=
    Js.some IncomeStreamData.hasWithholding (RuleInput.incomeStreams input) in
  if hasWithholding then
    push st (fun i =>
      Obligation.mk i "2307" "Certificate of Creditable Tax Withheld at Source"
        "Certificate received from clients who withheld taxes"
        quarterly true id
        "You should receive Form 2307 from clients who withhold taxes from your payments. These are CREDITS that reduce your tax due. Keep all 2307s for filing.")
  else st.

(** Employment income: Form 2316 from the employer. *)
Definition employmentObligations (input : RuleInput.t) (st : State) : State :=
  if RuleInput.hasEmploymentIncome input then
    push st (fun i =>
      Obligation.mk i "2316" "Certificate of Compensation Payment/Tax Withheld"
        "Annual certificate from employer"
        annual true id
        "Your employer should provide this by January 31. You need this to file Form 1701 for mixed income.")
  else st.

(** Books of accounts. *)
Definition booksObligations (input : RuleInput.t) (st : State) : State :=
  if negb (UserType_eqb (RuleInput.userType input) MIXED_INCOME)
     || Js.some (fun s => negb (isEmployment (IncomeStreamData.incomeType s)))
          (RuleInput.incomeStreams input) then
    push st (fun i =>
      Obligation.mk i "BOOKS" "Books of Accounts"
        "Required record-keeping for business/professional income"
        annual true id
        (if regimeIs (RuleInput.selectedRegime input) EIGHT_PERCENT_FLAT
         then "Under 8% regime, you may use simplified books (journal and ledger). Must be registered with BIR."
         else "Must maintain books of accounts (journal, ledger, cash receipts/disbursements). Required for itemized deductions."))
  else st.

(** The sections of [execute], in source order. *)
Definition execute (input : RuleInput.t) : list Obligation.t :=
  let st : State := ([], 1%nat) in
  let st := incomeTaxObligations input st in
  let st := percentageTaxObligations input st in
  let st := registrationObligations input st in
  let st := withholdingObligations input st in
  let st := employmentObligations input st in
  let st := booksObligations input st in
  fst st.

End FilingObligationsRule.

(** ** The [Date] operations the deadline rule calls *)

Module JsDate.

Local Open Scope Z_scope.

(** Day number (days from 1970-01-01) of a proleptic Gregorian date,
    [month] in 1..12. *)
Definition days_from_civil (year month day : Z) : Z :=
  let y := if month <=? 2 then year - 1 else year in
  let era := y / 400 in
  let yoe := y - era * 400 in
  let mp := (month + 9) mod 12 in
  let doy := (153 * mp + 2) / 5 + day - 1 in
  let doe := yoe * 365 + yoe / 4 - yoe / 100 + doy in
  era * 146097 + doe - 719468.

(** The date (year, month in 1..12, day) of a day number. *)
Definition civil_from_days (days : Z) : Z * Z * Z :=
  let z := days + 719468 in
  let era := z / 146097 in
  let doe := z - era * 146097 in
  let yoe := (doe - doe / 1460 + doe / 36524 - doe / 146096) / 365 in
  let y := yoe + era * 400 in
  let doy := doe - (365 * yoe + yoe / 4 - yoe / 100) in
  let mp := (5 * doy + 2) / 153 in
  let d := doy - (153 * mp + 2) / 5 + 1 in
  let m := if mp <? 10 then mp + 3 else mp - 9 in
  (if m <=? 2 then y + 1 else y, m, d).

(** [new Date(year, monthIndex, day)]: local midnight of that day.  Years
    0..99 mean 1900..1999; a month index outside 0..11 and a day outside the
    month carry over.  Years are taken within the span a [Date] can hold. *)
Definition make (year monthIndex day : Z) : Z :=
  let year := if (0 <=? year) && (year <=? 99) then 1900 + year else year in
  let y := year + monthIndex / 12 in
  let m := monthIndex mod 12 in
  days_from_civil y (m + 1) 1 + day - 1.

(** [date.getDay()]: 0 is Sunday, 6 is Saturday. *)
Definition getDay (date : Z) : Z := (date + 4) mod 7.

(** [date.setDate(date.getDate() + n)]. *)
Definition addDays (date n : Z) : Z := date + n.

(** [date.toISOString().split('T')[0]]: the UTC date of local midnight. *)
Definition isoDate (env : HostEnv) (date : Z) : DueDate :=
  let utcDay := (date * 1440 - tzOffsetMinutes env) / 1440 in
  let '(y, m, d) := civil_from_days utcDay in
  IsoDate y m d.

(** [new Date(dueDate).getTime()] of a date-only ISO string: UTC midnight,
    in milliseconds.  The sentinel does not parse; the comparator never
    asks for its time. *)
Definition getTime (due : DueDate) : Z :=
  match due with
  | IsoDate y m d => days_from_civil y m d * 86400000
  | ASAP => 0
  end.

End JsDate.

(** ** rules/deadline-calculation.rule *)

Module DeadlineCalculationRule.

Definition id : string := "DEADLINE_CALCULATION".
Definition code : string := "DEADLINE_CALC".
Definition version : string := "1.0.0".
Definition title : string := "Tax Filing Deadline Calculator".

(** The [deadlines] array and the [deadlineCounter] of one call. *)
Definition State : Type := list Deadline.t * nat.

Definition push (st : State) (rest : string -> Deadline.t) : State :=
  (app (fst st) [rest (Js.cat ["DL-"; Js.string_of_nat (snd st)])], S (snd st)).

Definition adjustForWeekend (date : Z) : Z :=
  let dayOfWeek := JsDate.getDay date in
  if (dayOfWeek =? 0)%Z then JsDate.addDays date 1
  else if (dayOfWeek =? 6)%Z then JsDate.addDays date 2
  else date.

Definition calculateDueDate (year month day : Z) (period : string) : Z :=
  let dueDate := JsDate.make year (month - 1) day in
  let dueDate :=
    if String.eqb period "Q4" then JsDate.make (year + 1) (month - 1) day
    else dueDate in
  adjustForWeekend dueDate.

Definition basePenalty : string :=
  Js.cat [ "Late filing penalties:"; Js.nl;
           "• 25% surcharge on tax due (for late filing)"; Js.nl;
           "• 12% annual interest on unpaid tax"; Js.nl;
           "• Compromise penalty (varies by amount)"; Js.nl; Js.nl;
           "Note: Penalties compound, so file and pay on time to avoid additional charges." ].

Definition formSpecificNotes : list (string * string) :=
  [ ("1701Q", Js.cat [basePenalty; Js.nl; Js.nl;
       "Quarterly returns help spread your tax payments throughout the year."]);
    ("1701", Js.cat [basePenalty; Js.nl; Js.nl;
       "Annual return reconciles all quarterly payments. Any underpayment is due with this return."]);
    ("2551Q", Js.cat [basePenalty; Js.nl; Js.nl;
       "Percentage tax (3%) is separate from income tax."]);
    ("0605", "Late payment of registration fee may result in penalties and difficulty in processing future transactions with the BIR.") ].

Definition getPenaltyInfo (formCode : string) : string :=
  match lookup formSpecificNotes formCode with
  | Some note => note
  | None => basePenalty
  end.

(** [config.quarterDeadlines[quarter]]. *)
Definition quarterDeadline (qd : QuarterDeadlines.t) (quarter : string)
    : option MonthDay.t :=
  if String.eqb quarter "Q1" then Some (QuarterDeadlines.Q1 qd)
  else if String.eqb quarter "Q2" then Some (QuarterDeadlines.Q2 qd)
  else if String.eqb quarter "Q3" then Some (QuarterDeadlines.Q3 qd)
  else if String.eqb quarter "Q4" then QuarterDeadlines.Q4 qd
  else None.

(** The body of the loop over the quarters of one obligation. *)
Definition quarterStep (env : HostEnv) (input : RuleInput.t) (obligation : Obligation.t)
    (config : DeadlineConfig.t) (st : State) (quarter : string) : State :=
  match quarterDeadline (DeadlineConfig.quarterDeadlines config) quarter with
  | None => st
  | Some deadlineConfig =>
      let dueDate :=
        calculateDueDate (RuleInput.taxYear input)
          (MonthDay.month deadlineConfig) (MonthDay.day deadlineConfig) quarter in
      push st (fun i =>
        Deadline.mk i (Obligation.id obligation) (Obligation.formCode obligation)
          (Js.cat [Obligation.formName obligation; " - "; quarter; " ";
                   Js.string_of_Z (RuleInput.taxYear input)])
          (JsDate.isoDate env dueDate)
          (Js.cat [quarter; " "; Js.string_of_Z (RuleInput.taxYear input)])
          [30; 14; 7; 3; 1]%nat
          (getPenaltyInfo (Obligation.formCode obligation)))
  end.

(** The quarterly branch of the loop body. *)
Definition quarterlyBranch (env : HostEnv) (input : RuleInput.t) (obligation : Obligation.t)
    (config : option DeadlineConfig.t) (st : State) : State :=
  match Obligation.frequency obligation, config with
  | quarterly, Some cfg =>
      fold_left (quarterStep env input obligation cfg) ["Q1"; "Q2"; "Q3"] st
  | _, _ => st
  end.

(** The annual branch of the loop body: [config?.annualDeadline], or April 15
    by default, of the following year. *)
Definition annualBranch (env : HostEnv) (input : RuleInput.t) (obligation : Obligation.t)
    (config : option DeadlineConfig.t) (st : State) : State :=
  let taxYear := Js.string_of_Z (RuleInput.taxYear input) in
  let configAnnual :=
    match config with
    | Some cfg => DeadlineConfig.annualDeadline cfg
    | None => None
    end in
  let isAnnual :=
    match Obligation.frequency obligation with annual => true | _ => false end in
  if isAnnual || (match configAnnual with Some _ => true | None => false end) then
    let annualConfig :=
      match configAnnual with
      | Some md => md
      | None => MonthDay.mk 4 15
      end in
    let dueDate :=
      calculateDueDate (RuleInput.taxYear input + 1)
        (MonthDay.month annualConfig) (MonthDay.day annualConfig) "ANNUAL" in
    push st (fun i =>
      Deadline.mk i (Obligation.id obligation) (Obligation.formCode obligation)
        (Js.cat [Obligation.formName obligation; " - Tax Year "; taxYear])
        (JsDate.isoDate env dueDate)
        (Js.cat ["Annual "; taxYear])
        [60; 30; 14; 7; 3; 1]%nat
        (getPenaltyInfo (Obligation.formCode obligation)))
  else st.

(** Special handling for the registration fee (Form 0605). *)
Definition registrationFeeBranch (env : HostEnv) (input : RuleInput.t)
    (obligation : Obligation.t) (st : State) : State :=
  let taxYear := Js.string_of_Z (RuleInput.taxYear input) in
  if String.eqb (Obligation.formCode obligation) "0605" then
    let dueDate := JsDate.make (RuleInput.taxYear input) 0 31 in
    push st (fun i =>
      Deadline.mk i (Obligation.id obligation) "0605"
        (Js.cat ["Annual Registration Fee - "; taxYear])
        (JsDate.isoDate env (adjustForWeekend dueDate))
        taxYear
        [30; 14; 7]%nat
        "Late registration may result in penalties and surcharges.")
  else st.

(** Special handling for the registration (Form 1901). *)
Definition registrationBranch (obligation : Obligation.t) (st : State) : State :=
  if String.eqb (Obligation.formCode obligation) "1901" then
    push st (fun i =>
      Deadline.mk i (Obligation.id obligation) "1901"
        "BIR Registration - Within 30 days of starting business"
        ASAP
        "Before business starts"
        []
        "Operating without BIR registration may result in penalties, surcharges, and possible criminal liability.")
  else st.

(** The body of the loop over the applicable obligations. *)
Definition obligationStep (env : HostEnv) (input : RuleInput.t) (st : State)
    (obligation : Obligation.t) : State :=
  let config := FILING_DEADLINES (Obligation.formCode obligation) in
  let st := quarterlyBranch env input obligation config st in
  let st := annualBranch env input obligation config st in
  let st := registrationFeeBranch env input obligation st in
  let st := registrationBranch obligation st in
  st.

(** The comparator handed to [sort]. *)
Definition compareDeadlines (a b : Deadline.t) : Z :=
  match Deadline.dueDate a, Deadline.dueDate b with
  | ASAP, _ => (-1)%Z
  | _, ASAP => 1%Z
  | da, db => (JsDate.getTime da - JsDate.getTime db)%Z
  end.

(** [Array.prototype.sort] as a stable insertion sort: an element goes in
    front of the first already placed element that the comparator orders
    after it.  The comparator orders two ['ASAP'] entries both ways, so the
    place of such entries among themselves is this model's choice. *)
Fixpoint insertDeadline (x : Deadline.t) (sorted : list Deadline.t) : list Deadline.t :=
  match sorted with
  | [] => [x]
  | y :: rest =>
      if (compareDeadlines x y <? 0)%Z then x :: y :: rest
      else y :: insertDeadline x rest
  end.

Definition sortDeadlines (l : list Deadline.t) : list Deadline.t :=
  fold_left (fun sorted x => insertDeadline x sorted) l [].

(** The deadlines in emission order, before the final sort. *)
Definition emitted (env : HostEnv) (input : RuleInput.t) (obligations : list Obligation.t)
    : list Deadline.t :=
  fst (fold_left (obligationStep env input)
         (filter Obligation.isApplicable obligations) ([], 1%nat)).

Definition execute (env : HostEnv) (input : RuleInput.t) (obligations : list Obligation.t)
    : list Deadline.t :=
  sortDeadlines (emitted env input obligations).

End DeadlineCalculationRule.

(** ** rules/risk-assessment.rule *)

Module RiskAssessmentRule.

Definition id : string := "RISK_ASSESSMENT".
Definition code : string := "RISK_ASSESS".
Definition version : string := "1.0.0".
Definition title : string := "Tax Risk Assessment".

(** The [flags] array and the [flagCounter] of one call. *)
Definition State : Type := list RiskFlag.t * nat.

Definition push (st : State) (rest : string -> RiskFlag.t) : State :=
  (app (fst st) [rest (Js.cat ["RISK-"; Js.string_of_nat (snd st)])], S (snd st)).

Definition nonEmployment (s : IncomeStreamData.t) : bool :=
  negb (isEmployment (IncomeStreamData.incomeType s)).

(** Registration status risks. *)
Definition registrationRisks (env : HostEnv) (input : RuleInput.t) (st : State) : State :=
  let st :=
    if RegistrationStatus_eqb (RuleInput.registrationStatus input) NOT_REGISTERED then
      let businessIncome :=
        Js.sum IncomeStreamData.grossAmount
          (filter nonEmployment (RuleInput.incomeStreams input)) in
      if Js.gtb businessIncome 0 then
        push st (fun i =>
          RiskFlag.mk i CPA_REVIEW_REQUIRED "UNREG_WITH_INCOME"
            "Operating Without BIR Registration"
            (Js.cat ["You have reported business/professional income of ₱";
                     toLocaleString env businessIncome;
                     " but are not registered with the BIR. This may have legal and tax implications."])
            id
            "Register with the BIR immediately. Consult a CPA to assess any back taxes, penalties, or amnesty programs that may apply to your situation."
            ["registrationStatus"; "tin"])
      else st
    else st in
  if RegistrationStatus_eqb (RuleInput.registrationStatus input) NEEDS_UPDATE then
    push st (fun i =>
      RiskFlag.mk i WARNING "REG_NEEDS_UPDATE"
        "BIR Registration Needs Updating"
        "Your BIR registration may need updating. This could affect your tax filing requirements."
        id
        "Visit your RDO to update your registration. Common updates include: change of address, change of line of business, or updating from employee to self-employed status."
        ["registrationStatus"; "rdo"])
  else st.

(** Income threshold risks. *)
Definition thresholdRisks (env : HostEnv) (totalGrossReceipts : Q) (st : State) : State :=
  let st :=
    if Js.geb totalGrossReceipts (TAX_THRESHOLDS.VAT_THRESHOLD * 0.8)
       && Js.ltb totalGrossReceipts TAX_THRESHOLDS.VAT_THRESHOLD then
      push st (fun i =>
        RiskFlag.mk i WARNING "APPROACHING_VAT_THRESHOLD"
          "Approaching VAT Registration Threshold"
          (Js.cat ["Your gross receipts (₱"; toLocaleString env totalGrossReceipts;
                   ") are approaching the ₱3,000,000 VAT threshold. Once exceeded, you must register for VAT."])
          id
          "Monitor your income closely. If you expect to exceed ₱3M, consult a CPA about VAT registration requirements and timing."
          ["incomeStreams"])
    else st in
  if Js.gtb totalGrossReceipts TAX_THRESHOLDS.VAT_THRESHOLD then
    push st (fun i =>
      RiskFlag.mk i CPA_REVIEW_REQUIRED "EXCEEDS_VAT_THRESHOLD"
        "Gross Receipts Exceed VAT Threshold"
        (Js.cat ["Your gross receipts (₱"; toLocaleString env totalGrossReceipts;
                 ") exceed the ₱3,000,000 VAT threshold. This app currently does not support VAT workflows."])
        id
        "IMPORTANT: You are required to register for VAT. Consult a CPA immediately for proper VAT compliance, which includes different filing requirements and rates."
        ["incomeStreams"; "selectedRegime"])
  else st.

(** Withholding tax risks. *)
Definition withholdingRisks (env : HostEnv) (input : RuleInput.t) (totalGrossReceipts : Q)
    (st : State) : State :=
  let streamsWithWithholding :=
    filter IncomeStreamData.hasWithholding (RuleInput.incomeStreams input) in
  let streamsWithout2307 :=
    filter (fun s => negb (IncomeStreamData.form2307Received s)) streamsWithWithholding in
  let st :=
    if (0 <? List.length streamsWithout2307)%nat then
      let totalWithheld :=
        Js.sum (fun s => Js.or0 (IncomeStreamData.withheldAmount s)) streamsWithout2307 in
      push st (fun i =>
        RiskFlag.mk i WARNING "MISSING_2307"
          "Missing Form 2307 Certificates"
          (Js.cat ["You have "; Js.string_of_nat (List.length streamsWithout2307);
                   " income source(s) with withholding taxes (₱";
                   toLocaleString env totalWithheld;
                   ") but no Form 2307 received. Without 2307, you cannot claim these as tax credits."])
          id
          "Request Form 2307 certificates from your clients/payors. These are usually issued within the month following payment. Keep them for filing and audit purposes."
          ["incomeStreams"])
    else st in
  let totalWithheld :=
    Js.sum (fun s => Js.or0 (IncomeStreamData.withheldAmount s)) streamsWithWithholding in
  let effectiveWithholdingRate :=
    if Js.gtb totalGrossReceipts 0 then totalWithheld / totalGrossReceipts else 0 in
  if Js.gtb effectiveWithholdingRate 0.15 && Js.gtb totalWithheld 50000 then
    push st (fun i =>
      RiskFlag.mk i INFO "HIGH_WITHHOLDING"
        "High Withholding Tax Rate"
        (Js.cat ["Your effective withholding rate is ";
                 toFixed env 1 (effectiveWithholdingRate * 100);
                 "%. This may result in a tax refund or credit."])
        id
        "Verify that clients are using the correct withholding rate for your income type. You may be entitled to a refund if overwithholding occurred."
        ["incomeStreams"])
  else st.

(** Regime selection risks. *)
Definition regimeRisks (env : HostEnv) (input : RuleInput.t) (totalGrossReceipts : Q)
    (st : State) : State :=
  let st :=
    if regimeIs (RuleInput.selectedRegime input) UNDETERMINED then
      push st (fun i =>
        RiskFlag.mk i WARNING "REGIME_NOT_SELECTED"
          "Tax Regime Not Yet Selected"
          "You have not selected between 8% flat tax and graduated rates. This selection affects your tax computation and filing obligations."
          id
          "Review the regime comparison and select your preferred option. Once selected and filed, this cannot be changed for the tax year."
          ["selectedRegime"])
    else st in
  if regimeIs (RuleInput.selectedRegime input) EIGHT_PERCENT_FLAT then
    let totalDeductions :=
      Js.sum ExpenseData.amount
        (filter ExpenseData.isDeductible (RuleInput.expenses input)) in
    let expenseRatio :=
      if Js.gtb totalGrossReceipts 0 then totalDeductions / totalGrossReceipts else 0 in
    if Js.gtb expenseRatio 0.5 then
      push st (fun i =>
        RiskFlag.mk i INFO "8PCT_HIGH_EXPENSES"
          "High Expenses with 8% Flat Tax"
          (Js.cat ["Your expenses are "; toFixed env 0 (expenseRatio * 100);
                   "% of gross receipts. With the 8% flat tax, you cannot deduct these expenses. Graduated rates might result in lower tax."])
          id
          "Review the regime comparison. If you have not yet filed your first quarterly return for the year, you may still switch to graduated rates."
          ["selectedRegime"; "expenses"])
    else st
  else st.

(** Data quality risks. *)
Definition dataQualityRisks (input : RuleInput.t) (totalGrossReceipts : Q) (st : State)
    : State :=
  let st :=
    if (List.length (RuleInput.incomeStreams input) =? 0)%nat then
      push st (fun i =>
        RiskFlag.mk i WARNING "NO_INCOME_RECORDED"
          "No Income Streams Recorded"
          "No income has been recorded for this tax year. Add your income sources to generate an accurate assessment."
          id
          "Add your income streams, including amounts and whether withholding tax was deducted."
          ["incomeStreams"])
    else st in
  let st :=
    if UserType_eqb (RuleInput.userType input) MIXED_INCOME
       && negb (RuleInput.hasEmploymentIncome input)
       && negb (Js.some (fun s => isEmployment (IncomeStreamData.incomeType s))
                  (RuleInput.incomeStreams input)) then
      push st (fun i =>
        RiskFlag.mk i WARNING "MIXED_NO_EMPLOYMENT"
          "Mixed Income Type Without Employment Income"
          (Js.cat ["You selected "; Js.dq; "Mixed Income"; Js.dq;
                   " as your user type but have not recorded any employment income."])
          id
          "Either add your employment income details or change your user type if you no longer have employment income."
          ["userType"; "hasEmploymentIncome"; "incomeStreams"])
    else st in
  if Js.gtb totalGrossReceipts 500000 then
    let hasAnyDocs :=
      Js.some (fun s => IncomeStreamData.form2307Received s
                        || IncomeStreamData.hasWithholding s)
        (RuleInput.incomeStreams input) in
    if negb hasAnyDocs then
      push st (fun i =>
        RiskFlag.mk i INFO "LARGE_INCOME_NO_DOCS"
          "Consider Documenting Income Sources"
          "Your income exceeds ₱500,000 with no withholding certificates indicated. Ensure you have proper documentation."
          id
          "Keep official receipts, invoices, and contracts for all income. These serve as evidence in case of BIR audit."
          ["incomeStreams"])
    else st
  else st.

(** Expense documentation risks. *)
Definition expenseRisks (input : RuleInput.t) (st : State) : State :=
  if regimeIs (RuleInput.selectedRegime input) GRADUATED_RATES
     && (0 <? List.length (RuleInput.expenses input))%nat then
    push st (fun i =>
      RiskFlag.mk i INFO "EXPENSE_DOCS_REMINDER"
        "Keep Expense Documentation"
        "You are using graduated rates with itemized deductions. All deductible expenses must be supported by official receipts."
        id
        "Ensure you have Official Receipts (OR) or Sales Invoices (SI) for all business expenses. The BIR may disallow deductions without proper documentation."
        ["expenses"])
  else st.

Definition execute (env : HostEnv) (input : RuleInput.t) : list RiskFlag.t :=
  let st : State := ([], 1%nat) in
  let st := registrationRisks env input st in
  let totalGrossReceipts :=
    Js.sum IncomeStreamData.grossAmount
      (filter nonEmployment (RuleInput.incomeStreams input)) in
  let st := thresholdRisks env totalGrossReceipts st in
  let st := withholdingRisks env input totalGrossReceipts st in
  let st := regimeRisks env input totalGrossReceipts st in
  let st := dataQualityRisks input totalGrossReceipts st in
  let st := expenseRisks input st in
  fst st.

End RiskAssessmentRule.

(** ** rules-engine.service *)

Module RulesEngineService.

Definition VERSION : string := "1.0.0".

Inductive LogLevel := LOG | DEBUG.

(** The service instance.  Its rule objects and version are constants; what
    a call adds to is the output of its logger. *)
Record t : Type := mk { logged : list (LogLevel * string) }.

(** [this.logger.log(message)] and [this.logger.debug(message)]. *)
Definition log (self : t) (message : string) : t :=
  mk (app (logged self) [(LOG, message)]).

Definition debug (self : t) (message : string) : t :=
  mk (app (logged self) [(DEBUG, message)]).

(** [`${regime}`] of the optional regime. *)
Definition regimeText (r : option TaxRegime) : string :=
  match r with
  | Some v => TaxRegime_value v
  | None => "undefined"
  end.

Definition regimeValue (r : option TaxRegime) : Js.value :=
  match r with
  | Some v => Js.VString (TaxRegime_value v)
  | None => Js.VUndefined
  end.

(** [s.padStart(width, '0')]. *)
Definition padStart (width : nat) (s : string) : string :=
  Js.cat (app (repeat "0" (width - String.length s)) [s]).

(** The text of a [dueDate]; years outside 0..9999 take the expanded form. *)
Definition dueDateText (due : DueDate) : string :=
  match due with
  | ASAP => "ASAP"
  | IsoDate y m d =>
      let year :=
        if ((0 <=? y) && (y <=? 9999))%Z then padStart 4 (Js.string_of_Z y)
        else Js.cat [if (y <? 0)%Z then "-" else "+";
                     padStart 6 (Js.string_of_Z (Z.abs y))] in
      Js.cat [year; "-"; padStart 2 (Js.string_of_Z m); "-"; padStart 2 (Js.string_of_Z d)]
  end.

Definition applicableForms (obligations : list Obligation.t) : list string :=
  map Obligation.formCode (filter Obligation.isApplicable obligations).

Definition levelIs (l : RiskLevel) (f : RiskFlag.t) : bool :=
  match RiskFlag.level f, l with
  | NONE, NONE | INFO, INFO | WARNING, WARNING
  | CPA_REVIEW_REQUIRED, CPA_REVIEW_REQUIRED => true
  | _, _ => false
  end.

Definition assessCompleteness (input : RuleInput.t) : Completeness.t :=
  let missingFields : list string := [] in
  let warnings : list string := [] in
  let missingFields :=
    match RuleInput.tin input with
    | None | Some "" => app missingFields ["TIN (Tax Identification Number)"]
    | Some _ => missingFields
    end in
  let missingFields :=
    if (List.length (RuleInput.incomeStreams input) =? 0)%nat
    then app missingFields ["Income streams"] else missingFields in
  let warnings :=
    if regimeIs (RuleInput.selectedRegime input) UNDETERMINED
    then app warnings ["Tax regime not selected - using recommended regime"]
    else warnings in
  let hasWithholdingWithout2307 :=
    Js.some (fun s => IncomeStreamData.hasWithholding s
                      && negb (IncomeStreamData.form2307Received s))
      (RuleInput.incomeStreams input) in
  let warnings :=
    if hasWithholdingWithout2307
    then app warnings ["Some withholding taxes lack Form 2307 documentation"]
    else warnings in
  let totalChecks : Q := 10 in
  let passedChecks :=
    totalChecks - inject_Z (Z.of_nat (List.length missingFields))
    - inject_Z (Z.of_nat (List.length warnings)) * 0.5 in
  let score := Js.Math_max 0 (Js.Math_min 100 (passedChecks / totalChecks * 100)) in
  Completeness.mk (Js.Math_round score) missingFields warnings.

(** [effectiveRegime]: the selection unless it is [UNDETERMINED]. *)
Definition effectiveRegime (input : RuleInput.t) (regimeComparison : RegimeComparisonResult.t)
    : option TaxRegime :=
  if negb (regimeIs (RuleInput.selectedRegime input) UNDETERMINED)
  then RuleInput.selectedRegime input
  else Some (RegimeComparisonResult.recommendation regimeComparison).

Definition runAssessment (env : HostEnv) (self : t) (input : RuleInput.t)
    : t * AssessmentOutput.t :=
  let self :=
    log self (Js.cat ["Running assessment for tax year ";
                      Js.string_of_Z (RuleInput.taxYear input)]) in
  (* Step 1: Regime Determination *)
  let self := debug self "Step 1: Regime determination" in
  let regimeComparison := RegimeDeterminationRule.execute env input in
  let step1 :=
    ReasoningStep.mk 1
      RegimeDeterminationRule.id RegimeDeterminationRule.version
      [ ("userType", Js.VString (UserType_value (RuleInput.userType input)));
        ("grossIncome",
         Js.VNumber (Js.sum IncomeStreamData.grossAmount (RuleInput.incomeStreams input)));
        ("hasEmploymentIncome", Js.VBoolean (RuleInput.hasEmploymentIncome input)) ]
      [ ("eligible8Percent",
         Js.VBoolean (RegimeComparisonResult.eligible8Percent regimeComparison));
        ("recommendation",
         Js.VString (TaxRegime_value (RegimeComparisonResult.recommendation regimeComparison))) ]
      (RegimeComparisonResult.recommendationReason regimeComparison) in
  let effectiveRegime := effectiveRegime input regimeComparison in
  let effectiveInput := RuleInput.withSelectedRegime input effectiveRegime in
  (* Step 2: Tax Computation *)
  let self := debug self "Step 2: Tax computation" in
  let computedValues := TaxComputationRule.execute effectiveInput in
  let step2 :=
    ReasoningStep.mk 2
      TaxComputationRule.id TaxComputationRule.version
      [ ("regime", regimeValue effectiveRegime);
        ("grossIncome", Js.VNumber (ComputedValues.grossIncome computedValues));
        ("deductions", Js.VNumber (ComputedValues.totalDeductions computedValues)) ]
      [ ("taxableIncome", Js.VNumber (ComputedValues.taxableIncome computedValues));
        ("estimatedTax", Js.VNumber (ComputedValues.estimatedTax computedValues));
        ("netTaxPayable", Js.VNumber (ComputedValues.netTaxPayable computedValues)) ]
      (Js.cat ["Tax computed using ";
               if regimeIs effectiveRegime EIGHT_PERCENT_FLAT
               then "8% flat rate" else "graduated rates with deductions";
               "."]) in
  (* Step 3: Filing Obligations *)
  let self := debug self "Step 3: Filing obligations" in
  let obligations := FilingObligationsRule.execute effectiveInput in
  let step3 :=
    ReasoningStep.mk 3
      FilingObligationsRule.id FilingObligationsRule.version
      [ ("userType", Js.VString (UserType_value (RuleInput.userType input)));
        ("regime", regimeValue effectiveRegime);
        ("hasEmploymentIncome", Js.VBoolean (RuleInput.hasEmploymentIncome input)) ]
      [ ("applicableObligations", Js.VStrings (applicableForms obligations));
        ("totalObligations",
         Js.VNumber (inject_Z (Z.of_nat (List.length obligations)))) ]
      (Js.cat ["Identified ";
               Js.string_of_nat (List.length (filter Obligation.isApplicable obligations));
               " applicable filing obligations."]) in
  (* Step 4: Deadline Calculation *)
  let self := debug self "Step 4: Deadline calculation" in
  let deadlines := DeadlineCalculationRule.execute env effectiveInput obligations in
  let step4 :=
    ReasoningStep.mk 4
      DeadlineCalculationRule.id DeadlineCalculationRule.version
      [ ("taxYear", Js.VNumber (inject_Z (RuleInput.taxYear input)));
        ("obligations", Js.VStrings (applicableForms obligations)) ]
      [ ("totalDeadlines", Js.VNumber (inject_Z (Z.of_nat (List.length deadlines))));
        ("nextDeadline",
         Js.VString (match deadlines with
                     | first :: _ => dueDateText (Deadline.dueDate first)
                     | [] => "None"
                     end)) ]
      (Js.cat ["Calculated "; Js.string_of_nat (List.length deadlines);
               " filing deadlines for tax year ";
               Js.string_of_Z (RuleInput.taxYear input); "."]) in
  (* Step 5: Risk Assessment *)
  let self := debug self "Step 5: Risk assessment" in
  let riskFlags := RiskAssessmentRule.execute env effectiveInput in
  let criticalFlags := List.length (filter (levelIs CPA_REVIEW_REQUIRED) riskFlags) in
  let step5 :=
    ReasoningStep.mk 5
      RiskAssessmentRule.id RiskAssessmentRule.version
      [ ("registrationStatus",
         Js.VString (RegistrationStatus_value (RuleInput.registrationStatus input)));
        ("totalIncome", Js.VNumber (ComputedValues.grossIncome computedValues));
        ("hasWithholding",
         Js.VBoolean (Js.some IncomeStreamData.hasWithholding
                        (RuleInput.incomeStreams input))) ]
      [ ("totalFlags", Js.VNumber (inject_Z (Z.of_nat (List.length riskFlags))));
        ("criticalFlags", Js.VNumber (inject_Z (Z.of_nat criticalFlags)));
        ("warningFlags",
         Js.VNumber (inject_Z (Z.of_nat
           (List.length (filter (levelIs WARNING) riskFlags))))) ]
      (Js.cat ["Identified "; Js.string_of_nat (List.length riskFlags);
               " risk flags, including "; Js.string_of_nat criticalFlags;
               " requiring CPA review."]) in
  let reasoningSteps := [step1; step2; step3; step4; step5] in
  let reasoningReceipt :=
    ReasoningReceipt.mk
      reasoningSteps
      (map (fun s => Js.cat [ReasoningStep.ruleModuleId s; "_v";
                             ReasoningStep.ruleModuleVersion s]) reasoningSteps)
      (assessCompleteness input) in
  let output :=
    AssessmentOutput.mk effectiveRegime regimeComparison computedValues obligations
      deadlines riskFlags reasoningReceipt VERSION in
  let self :=
    log self
      (Js.cat ["Assessment complete: "; regimeText effectiveRegime;
               ", Tax: â‚±";
               toLocaleString env (ComputedValues.netTaxPayable computedValues);
               ", Obligations: ";
               Js.string_of_nat (List.length (filter Obligation.isApplicable obligations));
               ", Risks: "; Js.string_of_nat (List.length riskFlags)]) in
  (self, output).

End RulesEngineService.

(** ** The arithmetic core on IEEE binary64

    The same bracket loop, flat-rate formula and quarterly breakdown as in
    [TaxComputationRule], on the binary64 numbers a JavaScript engine
    computes with. *)

Module Binary64.

Local Open Scope float_scope.
Set Warnings "-inexact-float".

(** [Math.max(a, b)]: [NaN] if either is, and [+0] over [-0]. *)
Definition Math_max (a b : float) : float :=
  if is_nan a || is_nan b then nan
  else if a <? b then b
  else if b <? a then a
  else if 1 / a <? 0 then b else a.

Definition two52 : float := 4503599627370496.

(** The largest integer not above [x]. *)
Definition floor (x : float) : float :=
  if is_nan x || (two52 <=? abs x) then x
  else
    let t := if x <? 0 then (x - two52) + two52 else (x + two52) - two52 in
    if x <? t then t - 1 else t.

(** [Math.round(x)]: the nearest integer, halves rounded up. *)
Definition Math_round (x : float) : float :=
  let f := floor x in
  if 0.5 <=? x - f then f + 1 else f.

Record TaxBracket : Type := bracket { min : float; max : float; rate : float; baseTax : float }.

Definition GRADUATED_TAX_BRACKETS_2023 : list TaxBracket :=
  [ bracket 0 250000 0 0;
    bracket 250001 400000 0.15 0;
    bracket 400001 800000 0.20 22500;
    bracket 800001 2000000 0.25 102500;
    bracket 2000001 8000000 0.30 402500;
    bracket 8000001 infinity 0.35 2202500 ].

Fixpoint applyBrackets (brackets : list TaxBracket) (lastBracket : TaxBracket)
    (taxableIncome : float) : float :=
  match brackets with
  | b :: rest =>
      if taxableIncome <=? max b then
        let excessAmount := Math_max 0 (taxableIncome - min b) in
        baseTax b + excessAmount * rate b
      else applyBrackets rest lastBracket taxableIncome
  | [] =>
      let excessAmount := taxableIncome - min lastBracket in
      baseTax lastBracket + excessAmount * rate lastBracket
  end.

Definition applyGraduatedRates (taxableIncome : float) : float :=
  applyBrackets GRADUATED_TAX_BRACKETS_2023
    (last GRADUATED_TAX_BRACKETS_2023 (bracket 0 infinity 0 0))
    taxableIncome.

(** Result [{ tax, taxableAmount }]. *)
Definition compute8PercentTax (businessIncome : float) : float * float :=
  let taxableAmount := Math_max 0 (businessIncome - 250000) in
  let tax := taxableAmount * 0.08 in
  (tax, taxableAmount).

(** Result [[q1; q2; q3; annual]]. *)
Definition calculateQuarterlyPayments (annualTax : float) : list float :=
  let quarterlyAmount := annualTax / 4 in
  [ Math_round (quarterlyAmount * 100) / 100;
    Math_round (quarterlyAmount * 100) / 100;
    Math_round (quarterlyAmount * 100) / 100;
    Math_round ((annualTax - quarterlyAmount * 3) * 100) / 100 ].

Set Warnings "+inexact-float".

End Binary64.

(** * Statements: predicates and sample inputs *)

(** A rule input as the callers hand it over: every amount is non-negative. *)
Definition validStream (s : IncomeStreamData.t) : Prop :=
  0 <= IncomeStreamData.grossAmount s /\
  match IncomeStreamData.withheldAmount s with
  | Some w => 0 <= w
  | None => True
  end.

Definition validInput (input : RuleInput.t) : Prop :=
  Forall validStream (RuleInput.incomeStreams input) /\
  Forall (fun e => 0 <= ExpenseData.amount e) (RuleInput.expenses input).


(** A sample host for the worked examples: the UTC zone, with formatters
    that print the whole part of a number. *)
Definition utcHost : HostEnv :=
  {| tzOffsetMinutes := 0;
     toLocaleString := fun q => Js.string_of_Z (Qfloor q);
     toFixed := fun _ q => Js.string_of_Z (Qfloor q) |}.

(** The same host in the zone of Manila, eight hours east of UTC. *)
Definition manilaHost : HostEnv :=
  {| tzOffsetMinutes := 480;
     toLocaleString := toLocaleString utcHost;
     toFixed := toFixed utcHost |}.

(** An income stream with no withholding, as the test fixtures build it. *)
Definition plainStream (id : string) (incomeType : IncomeType) (grossAmount : Q)
    : IncomeStreamData.t :=
  IncomeStreamData.mk id incomeType grossAmount ONE_TIME false None None false.

(** The base input of the test suites: a registered freelancer, tax year 2024. *)
Definition baseInput (streams : list IncomeStreamData.t) (expenses : list ExpenseData.t)
    (regime : TaxRegime) : RuleInput.t :=
  RuleInput.mk 2024 FREELANCER REGISTERED false streams expenses (Some regime) None.

(** Freelancer with a single stream of 500,000 under the flat regime. *)
Definition flat500k : RuleInput.t :=
  baseInput [plainStream "1" FREELANCE_SERVICE 500000] [] EIGHT_PERCENT_FLAT.

(** Freelancer with gross 600,000, regime not yet selected. *)
Definition undetermined600k : RuleInput.t :=
  baseInput [plainStream "1" FREELANCE_SERVICE 600000] [] UNDETERMINED.

(** Gross 300,000 under the flat regime with 50,000 withheld. *)
Definition creditClamp : RuleInput.t :=
  baseInput
    [IncomeStreamData.mk "1" FREELANCE_SERVICE 300000 ONE_TIME true (Some 50000) None true]
    [] EIGHT_PERCENT_FLAT.

(** Gross 500,000 with 249,998 of deductible expenses under graduated rates:
    the taxable income is 250,002 and the tax 0.15. *)
Definition graduatedFifteenCentavos : RuleInput.t :=
  baseInput [plainStream "1" FREELANCE_SERVICE 500000]
    [ExpenseData.mk "1" RENT 249998 true] GRADUATED_RATES.

(** [round2] of the specification: a value rounded to the cent. *)
Definition round2 (x : Q) : Q := Js.Math_round (x * 100) / 100.

(** The quarterly breakdown as the specification words it: the true-up is
    what remains after three rounded quarterly payments. *)
Definition specQuarterlyPayments (netTaxPayable : Q) : QuarterlyPayments.t :=
  let quarterly := round2 (netTaxPayable / 4) in
  QuarterlyPayments.mk quarterly quarterly quarterly
    (round2 (netTaxPayable - quarterly * 3)).

Definition quarterlyTotal (p : QuarterlyPayments.t) : Q :=
  QuarterlyPayments.q1 p + QuarterlyPayments.q2 p + QuarterlyPayments.q3 p
  + QuarterlyPayments.annual p.

(** The mixed-income input of the regime test suite: an employee with
    300,000 of freelance income on the side. *)
Definition mixedIncomeTestInput : RuleInput.t :=
  RuleInput.mk 2024 MIXED_INCOME REGISTERED true
    [ IncomeStreamData.mk "1" EMPLOYMENT 500000 MONTHLY true (Some 50000) None false;
      IncomeStreamData.mk "2" FREELANCE_SERVICE 300000 ONE_TIME false None None false ]
    [] (Some UNDETERMINED) None.

(** A freelancer whose gross receipts of 3,500,000 exceed the VAT threshold. *)
Definition aboveVatThreshold : RuleInput.t :=
  baseInput [plainStream "1" FREELANCE_SERVICE 3500000] [] UNDETERMINED.

(** A mixed-income earner who selected graduated rates. *)
Definition mixedGraduated : RuleInput.t :=
  RuleInput.mk 2024 MIXED_INCOME REGISTERED true
    [ IncomeStreamData.mk "1" EMPLOYMENT 500000 MONTHLY true (Some 50000) None false;
      IncomeStreamData.mk "2" FREELANCE_SERVICE 300000 ONE_TIME false None None false ]
    [] (Some GRADUATED_RATES) None.

(** A registered freelancer with no income recorded yet, under each regime. *)
Definition freelancerFlat : RuleInput.t := baseInput [] [] EIGHT_PERCENT_FLAT.
Definition freelancerGraduated : RuleInput.t := baseInput [] [] GRADUATED_RATES.

(** An obligation record for the percentage-tax form with the given flag. *)
Definition percentageTaxRecord (applicable : bool) (o : Obligation.t) : Prop :=
  Obligation.formCode o = "2551Q" /\ Obligation.isApplicable o = applicable.

(** A section of [execute] only appends. *)
Definition appends (step : FilingObligationsRule.State -> FilingObligationsRule.State) : Prop :=
  forall st o, In o (fst st) -> In o (fst (step st)).

(** A section of [execute] emits no record for form 2551Q. *)
Definition emitsNo2551Q (step : FilingObligationsRule.State -> FilingObligationsRule.State)
    : Prop :=
  forall st o, In o (fst (step st)) -> In o (fst st) \/ Obligation.formCode o <> "2551Q".


(** A freelancer who has not registered yet. *)
Definition unregisteredFreelancer : RuleInput.t :=
  RuleInput.mk 2024 FREELANCER NOT_REGISTERED false [] [] (Some EIGHT_PERCENT_FLAT) None.

(** A section of [RiskAssessmentRule.execute] raises no flag with the given code. *)
Definition raisesNo (code : string)
    (step : RiskAssessmentRule.State -> RiskAssessmentRule.State) : Prop :=
  forall st f, In f (fst (step st)) -> In f (fst st) \/ RiskFlag.code f <> code.

(** A freelancer with gross receipts of 2,000,000, regime not yet selected. *)
Definition undetermined2M : RuleInput.t :=
  baseInput [plainStream "1" FREELANCE_SERVICE 2000000] [] UNDETERMINED.

(** The flat-regime and graduated estimates of a regime comparison. *)
Definition flatEstimate (rc : RegimeComparisonResult.t) : Q :=
  RegimeEstimate.estimatedTax (Comparison.eightPercent (RegimeComparisonResult.comparison rc)).

Definition graduatedEstimate (rc : RegimeComparisonResult.t) : Q :=
  RegimeEstimate.estimatedTax (Comparison.graduatedRates (RegimeComparisonResult.comparison rc)).

(** The effective rates of a regime comparison. *)
Definition flatRate (rc : RegimeComparisonResult.t) : Q :=
  RegimeEstimate.effectiveRate (Comparison.eightPercent (RegimeComparisonResult.comparison rc)).

Definition graduatedRate (rc : RegimeComparisonResult.t) : Q :=
  RegimeEstimate.effectiveRate (Comparison.graduatedRates (RegimeComparisonResult.comparison rc)).

(** A freelancer who selected the flat regime with gross receipts of
    3,500,000, above the VAT threshold. *)
Definition flatAboveVat : RuleInput.t :=
  baseInput [plainStream "1" FREELANCE_SERVICE 3500000] [] EIGHT_PERCENT_FLAT.

(** The day number (days from 1970-01-01) of a dated [dueDate]. *)
Definition dueDayNumber (due : DueDate) : option Z :=
  match due with
  | IsoDate y m d => Some (JsDate.days_from_civil y m d)
  | ASAP => None
  end.

(** A [dueDate] is the sentinel, or the ISO date of a local day that went
    through the weekend adjustment. *)
Definition fromAdjustedDay (env : HostEnv) (due : DueDate) : Prop :=
  due = ASAP \/
  exists local : Z, (1 <= JsDate.getDay local <= 5)%Z /\ due = JsDate.isoDate env local.

(** The 1701Q obligation record as the filing rule emits it. *)
Definition quarterlyReturn : Obligation.t :=
  Obligation.mk "OBL-1" "1701Q" "Quarterly Income Tax Return"
    "For self-employed individuals, estates, and trusts" quarterly true
    FilingObligationsRule.id
    "Report income and compute tax using graduated rates with deductions.".

(** A registered freelancer in tax year 2026, whose third-quarter date,
    November 15, is a Sunday. *)
Definition freelancer2026 : RuleInput.t :=
  RuleInput.mk 2026 FREELANCER REGISTERED false [] [] (Some GRADUATED_RATES) None.

(** [c ? [x] : []]. *)
Definition optional {A : Type} (c : bool) (x : A) : list A := if c then [x] else [].

(** The identifiers [prefix-start], [prefix-(start+1)], ... *)
Definition idsFrom (prefix : string) (start count : nat) : list string :=
  map (fun k => Js.cat [prefix; Js.string_of_nat k]) (seq start count).

(** The gross receipts the risk checks work with. *)
Definition grossReceipts (input : RuleInput.t) : Q :=
  Js.sum IncomeStreamData.grossAmount
    (filter RiskAssessmentRule.nonEmployment (RuleInput.incomeStreams input)).

(** The amount withheld over the streams with withholding, and the
    deductible expenses. *)
Definition withheldTotal (input : RuleInput.t) : Q :=
  Js.sum (fun s => Js.or0 (IncomeStreamData.withheldAmount s))
    (filter IncomeStreamData.hasWithholding (RuleInput.incomeStreams input)).

Definition deductibleTotal (input : RuleInput.t) : Q :=
  Js.sum ExpenseData.amount (filter ExpenseData.isDeductible (RuleInput.expenses input)).

(** The code and the severity of a flag. *)
Definition flagKind (f : RiskFlag.t) : string * RiskLevel :=
  (RiskFlag.code f, RiskFlag.level f).

(** The risk checks in source order: the trigger of each, its code and its
    severity. *)
Definition riskChecks (input : RuleInput.t) : list (bool * (string * RiskLevel)) :=
  let total := grossReceipts input in
  let streams := RuleInput.incomeStreams input in
  let sel := RuleInput.selectedRegime input in
  [ (RegistrationStatus_eqb (RuleInput.registrationStatus input) NOT_REGISTERED
     && Js.gtb total 0, ("UNREG_WITH_INCOME", CPA_REVIEW_REQUIRED));
    (RegistrationStatus_eqb (RuleInput.registrationStatus input) NEEDS_UPDATE,
     ("REG_NEEDS_UPDATE", WARNING));
    (Js.geb total (TAX_THRESHOLDS.VAT_THRESHOLD * 0.8)
     && Js.ltb total TAX_THRESHOLDS.VAT_THRESHOLD, ("APPROACHING_VAT_THRESHOLD", WARNING));
    (Js.gtb total TAX_THRESHOLDS.VAT_THRESHOLD, ("EXCEEDS_VAT_THRESHOLD", CPA_REVIEW_REQUIRED));
    ((0 <? List.length
             (filter (fun s => negb (IncomeStreamData.form2307Received s))
                (filter IncomeStreamData.hasWithholding streams)))%nat, ("MISSING_2307", WARNING));
    (Js.gtb (if Js.gtb total 0 then withheldTotal input / total else 0) 0.15
     && Js.gtb (withheldTotal input) 50000, ("HIGH_WITHHOLDING", INFO));
    (regimeIs sel UNDETERMINED, ("REGIME_NOT_SELECTED", WARNING));
    (regimeIs sel EIGHT_PERCENT_FLAT
     && Js.gtb (if Js.gtb total 0 then deductibleTotal input / total else 0) 0.5,
     ("8PCT_HIGH_EXPENSES", INFO));
    ((List.length streams =? 0)%nat, ("NO_INCOME_RECORDED", WARNING));
    (UserType_eqb (RuleInput.userType input) MIXED_INCOME
     && negb (RuleInput.hasEmploymentIncome input)
     && negb (Js.some (fun s => isEmployment (IncomeStreamData.incomeType s)) streams),
     ("MIXED_NO_EMPLOYMENT", WARNING));
    (Js.gtb total 500000
     && negb (Js.some (fun s => IncomeStreamData.form2307Received s
                                || IncomeStreamData.hasWithholding s) streams),
     ("LARGE_INCOME_NO_DOCS", INFO));
    (regimeIs sel GRADUATED_RATES && (0 <? List.length (RuleInput.expenses input))%nat,
     ("EXPENSE_DOCS_REMINDER", INFO)) ].

(** The entries of a table of checks whose trigger holds. *)
Definition triggered {A : Type} (checks : list (bool * A)) : list A :=
  map snd (filter fst checks).

(** One builder state continues another: it appends records whose
    identifiers count on from the counter. *)
Definition extendsNumbered {A : Type} (prefix : string) (idOf : A -> string)
    (st st' : list A * nat) : Prop :=
  exists added : list A,
    fst st' = app (fst st) added /\
    snd st' = (snd st + List.length added)%nat /\
    map idOf added = idsFrom prefix (snd st) (List.length added).

(** A freelancer with income on record who has not registered. *)
Definition unregisteredWithIncome : RuleInput.t :=
  RuleInput.mk 2024 FREELANCER NOT_REGISTERED false
    [plainStream "1" FREELANCE_SERVICE 500000] [] (Some EIGHT_PERCENT_FLAT) None.

(** The form, the frequency and the applicability flag of an obligation. *)
Definition obligationKind (o : Obligation.t) : string * Frequency * bool :=
  (Obligation.formCode o, Obligation.frequency o, Obligation.isApplicable o).

(** The obligation rules in source order: the condition of each and the
    kind of record it emits. *)
Definition obligationRules (input : RuleInput.t) : list (bool * (string * Frequency * bool)) :=
  let flat := regimeIs (RuleInput.selectedRegime input) EIGHT_PERCENT_FLAT in
  [ (FilingObligationsRule.requiresQuarterlyIncomeTax input, ("1701Q", quarterly, true));
    (true, ("1701", annual, true));
    (FilingObligationsRule.requiresPercentageTax input, ("2551Q", quarterly, true));
    (negb (FilingObligationsRule.requiresPercentageTax input) && flat,
     ("2551Q", quarterly, false));
    (RegistrationStatus_eqb (RuleInput.registrationStatus input) NOT_REGISTERED,
     ("1901", annual, true));
    (RegistrationStatus_eqb (RuleInput.registrationStatus input) REGISTERED,
     ("0605", annual, true));
    (Js.some IncomeStreamData.hasWithholding (RuleInput.incomeStreams input),
     ("2307", quarterly, true));
    (RuleInput.hasEmploymentIncome input, ("2316", annual, true));
    (negb (UserType_eqb (RuleInput.userType input) MIXED_INCOME)
     || Js.some (fun s => negb (isEmployment (IncomeStreamData.incomeType s)))
          (RuleInput.incomeStreams input),
     ("BOOKS", annual, true)) ].

(** Whether the loop body of the deadline rule has a branch for an
    obligation: the quarterly branch, the annual branch or one of the two
    special cases. *)
Definition hasDeadlineBranch (o : Obligation.t) : bool :=
  let config := FILING_DEADLINES (Obligation.formCode o) in
  (match Obligation.frequency o, config with
   | quarterly, Some _ => true
   | _, _ => false
   end)
  || (match Obligation.frequency o with annual => true | _ => false end)
  || (match config with
      | Some cfg => match DeadlineConfig.annualDeadline cfg with Some _ => true | None => false end
      | None => false
      end)
  || String.eqb (Obligation.formCode o) "0605"
  || String.eqb (Obligation.formCode o) "1901".

(** A deadline goes back to an applicable obligation of the list. *)
Definition originatesFrom (obligations : list Obligation.t) (d : Deadline.t) : Prop :=
  exists o, In o obligations /\
            Obligation.isApplicable o = true /\
            Deadline.obligationId d = Obligation.id o /\
            Deadline.formCode d = Obligation.formCode o /\
            hasDeadlineBranch o = true.

(** The order of the sorted deadlines: the sentinel before every date, and
    dates by their time. *)
Definition dueLe (a b : Deadline.t) : Prop :=
  match Deadline.dueDate a, Deadline.dueDate b with
  | ASAP, _ => True
  | _, ASAP => False
  | da, db => (JsDate.getTime da <= JsDate.getTime db)%Z
  end.

(** A freelancer under the flat regime with withholding on the only stream. *)
Definition flatWithWithholding : RuleInput.t :=
  baseInput
    [IncomeStreamData.mk "1" FREELANCE_SERVICE 300000 ONE_TIME true (Some 50000) None true]
    [] EIGHT_PERCENT_FLAT.

(** The registration obligation as the filing rule emits it. *)
Definition registrationObligation : Obligation.t :=
  Obligation.mk "OBL-3" "1901" "Application for Registration (Self-Employed)"
    "Initial BIR registration for self-employed individuals" annual true
    FilingObligationsRule.id
    "IMPORTANT: You must register with the BIR before starting business activities. This should be done within 30 days of starting business.".

(** The business income in the words of the specification: the gross
    amounts of the streams that are not employment income, added up in
    the order of the list. *)
Definition nonEmploymentGross (streams : list IncomeStreamData.t) : Q :=
  fold_left Qplus
    (map IncomeStreamData.grossAmount
       (filter (fun s => match IncomeStreamData.incomeType s with
                         | EMPLOYMENT => false
                         | _ => true
                         end) streams))
    0.

(** An employee with 500,000 of salary and 300,000 of freelance income who
    selected the flat regime. *)
Definition mixedFlat : RuleInput.t :=
  RuleInput.mk 2024 MIXED_INCOME REGISTERED true
    [ IncomeStreamData.mk "1" EMPLOYMENT 500000 MONTHLY true (Some 50000) None false;
      IncomeStreamData.mk "2" FREELANCE_SERVICE 300000 ONE_TIME false None None false ]
    [] (Some EIGHT_PERCENT_FLAT) None.

(** The form and the date of a deadline. *)
Definition deadlineDate (d : Deadline.t) : string * DueDate :=
  (Deadline.formCode d, Deadline.dueDate d).

(** [Number.MAX_SAFE_INTEGER], 2^53 - 1.  The bounds on rates below hold for
    the exact amounts of the model at every size; they are stated for
    amounts up to this one, where the rounding of binary64 arithmetic is
    many orders of magnitude below the slack the bounds leave. *)
Definition MAX_SAFE_INTEGER : Q := 9007199254740991.

(** Every gross amount is a whole number of pesos.  Whole amounts whose
    total does not exceed [MAX_SAFE_INTEGER] are added without rounding on
    binary64, too. *)
Definition wholePesos (input : RuleInput.t) : Prop :=
  Forall (fun s => exists z : Z, IncomeStreamData.grossAmount s == inject_Z z)
    (RuleInput.incomeStreams input).

(** * Properties *)

(** ** Facts about the JavaScript primitives *)

Lemma leb_le (a b : Q) : Js.leb a b = true <-> a <= b.
Proof. unfold Js.leb. apply Qle_bool_iff. Qed.

Lemma leb_gt (a b : Q) : Js.leb a b = false <-> b < a.
Proof.
  unfold Js.leb. split; intro H.
  - apply Qnot_le_lt. intro Hle. apply Qle_bool_iff in Hle. congruence.
  - destruct (Qle_bool a b) eqn:E; [|reflexivity].
    apply Qle_bool_iff in E. exfalso. apply (Qlt_not_le _ _ H E).
Qed.

Lemma ltb_lt (a b : Q) : Js.ltb a b = true <-> a < b.
Proof.
  unfold Js.ltb. rewrite negb_true_iff. apply leb_gt.
Qed.

Lemma gtb_lt (a b : Q) : Js.gtb a b = true <-> b < a.
Proof. unfold Js.gtb. apply ltb_lt. Qed.

Lemma Math_max_cases (a b : Q) :
  (a <= b /\ Js.Math_max a b = b) \/ (b < a /\ Js.Math_max a b = a).
Proof.
  unfold Js.Math_max. destruct (Js.leb a b) eqn:E.
  - left. split; [apply leb_le; exact E | reflexivity].
  - right. split; [apply leb_gt; exact E | reflexivity].
Qed.

Lemma Math_max_0_nonneg (x : Q) : 0 <= Js.Math_max 0 x.
Proof. destruct (Math_max_cases 0 x) as [[H ->] | [H ->]]; lra. Qed.

Lemma sum_acc_nonneg {A : Type} (f : A -> Q) (l : list A) :
  Forall (fun e => 0 <= f e) l ->
  forall acc, 0 <= acc -> 0 <= fold_left (fun a e => a + f e) l acc.
Proof.
  induction 1 as [| e l He _ IH]; intros acc Hacc; simpl.
  - exact Hacc.
  - apply IH. lra.
Qed.

Lemma sum_nonneg {A : Type} (f : A -> Q) (l : list A) :
  Forall (fun e => 0 <= f e) l -> 0 <= Js.sum f l.
Proof. intro H. unfold Js.sum. apply sum_acc_nonneg; [exact H | lra]. Qed.

Lemma or0_nonneg (x : option Q) :
  match x with Some w => 0 <= w | None => True end -> 0 <= Js.or0 x.
Proof.
  destruct x as [w|]; simpl; intro H; [|lra].
  destruct (Js.eqb w 0); [lra | exact H].
Qed.

(** ** The bracket table *)

Lemma applyGraduatedRates_nonneg (t : Q) : 0 <= TaxComputationRule.applyGraduatedRates t.
Proof.
  unfold TaxComputationRule.applyGraduatedRates, GRADUATED_TAX_BRACKETS_2023.
  simpl.
  repeat match goal with
  | |- context [Js.leb ?a ?b] => destruct (Js.leb a b)
  end;
  match goal with
  | |- context [Js.Math_max 0 ?x] => pose proof (Math_max_0_nonneg x)
  end; nra.
Qed.

(** ** Tax computation *)

Lemma withholdingCredits_nonneg (input : RuleInput.t) :
  validInput input -> 0 <= TaxComputationRule.calculateWithholdingCredits input.
Proof.
  intros [Hs _]. unfold TaxComputationRule.calculateWithholdingCredits.
  apply sum_nonneg.
  apply Forall_forall. intros s Hin. apply filter_In in Hin. destruct Hin as [Hin _].
  rewrite Forall_forall in Hs. destruct (Hs s Hin) as [_ Hw].
  apply or0_nonneg. exact Hw.
Qed.

Lemma estimatedTax_nonneg (input : RuleInput.t) :
  0 <= ComputedValues.estimatedTax (TaxComputationRule.execute input).
Proof.
  unfold TaxComputationRule.execute.
  destruct (regimeIs (RuleInput.selectedRegime input) EIGHT_PERCENT_FLAT); simpl.
  - unfold TAX_THRESHOLDS.EIGHT_PERCENT_RATE.
    match goal with
    | |- context [Js.Math_max 0 ?x] => pose proof (Math_max_0_nonneg x)
    end. nra.
  - apply applyGraduatedRates_nonneg.
Qed.

Lemma netTaxPayable_eq (input : RuleInput.t) :
  ComputedValues.netTaxPayable (TaxComputationRule.execute input) =
  Js.Math_max 0 (ComputedValues.estimatedTax (TaxComputationRule.execute input)
                 - TaxComputationRule.calculateWithholdingCredits input).
Proof.
  unfold TaxComputationRule.execute.
  destruct (regimeIs (RuleInput.selectedRegime input) EIGHT_PERCENT_FLAT); reflexivity.
Qed.

(** C1. For every rule input whose amounts are all non-negative, the values
    computed by [TaxComputationRule.execute] satisfy [estimatedTax >= 0],
    [netTaxPayable >= 0] and [netTaxPayable <= estimatedTax]. *)
Theorem execute_monetary_outputs_nonneg (input : RuleInput.t) :
  validInput input ->
  let cv := TaxComputationRule.execute input in
  0 <= ComputedValues.estimatedTax cv /\
  0 <= ComputedValues.netTaxPayable cv /\
  ComputedValues.netTaxPayable cv <= ComputedValues.estimatedTax cv.
Proof.
  intros Hvalid cv.
  pose proof (estimatedTax_nonneg input) as Hest.
  pose proof (withholdingCredits_nonneg input Hvalid) as Hcred.
  subst cv. rewrite netTaxPayable_eq.
  set (e := ComputedValues.estimatedTax (TaxComputationRule.execute input)) in *.
  set (c := TaxComputationRule.calculateWithholdingCredits input) in *.
  destruct (Math_max_cases 0 (e - c)) as [[H ->] | [H ->]]; repeat split; lra.
Qed.

Set Warnings "-inexact-float".

(** C2. The true-up is computed from the unrounded quarter, so the four
    payments do not add up to the net tax.  With a net tax of 0.15 (gross
    500,000, deductions 249,998, graduated rates) the rule returns four
    payments of 0.04, 0.16 in all, where the breakdown of the
    specification has a true-up of 0.03; binary64 arithmetic gives the same
    four payments.  With a net tax of 300.30 (gross 253,753.75 under the
    flat regime) binary64 arithmetic gives three payments of 75.08 and a
    true-up of 75.07, 300.31 in all. *)
Theorem quarterly_true_up_misses_net_tax :
  (let cv := TaxComputationRule.execute graduatedFifteenCentavos in
   let p := ComputedValues.quarterlyPayments cv in
   ComputedValues.netTaxPayable cv == 0.15 /\
   QuarterlyPayments.q1 p == 0.04 /\
   QuarterlyPayments.q2 p == 0.04 /\
   QuarterlyPayments.q3 p == 0.04 /\
   QuarterlyPayments.annual p == 0.04 /\
   QuarterlyPayments.annual (specQuarterlyPayments (ComputedValues.netTaxPayable cv))
   == 0.03 /\
   ~ quarterlyTotal p == ComputedValues.netTaxPayable cv) /\
  (Binary64.applyGraduatedRates 250002 = 0.15 /\
   Binary64.calculateQuarterlyPayments 0.15 = [0.04; 0.04; 0.04; 0.04] /\
   PrimFloat.eqb (0.04 + 0.04 + 0.04 + 0.04) 0.15 = false)%float /\
  (fst (Binary64.compute8PercentTax 253753.75) = 300.3 /\
   Binary64.calculateQuarterlyPayments 300.3 = [75.08; 75.08; 75.08; 75.07] /\
   75.08 + 75.08 + 75.08 + 75.07 = 300.31 /\
   PrimFloat.eqb 300.31 300.3 = false)%float.
Proof.
  split; [| split].
  - vm_compute. repeat split; intro H; discriminate H.
  - repeat split; vm_compute; reflexivity.
  - repeat split; vm_compute; reflexivity.
Qed.

Set Warnings "+inexact-float".

(** Witness of C1: the credit-clamp input (gross 300,000, flat regime,
    50,000 withheld). *)
Lemma execute_monetary_outputs_nonneg_witness :
  validInput creditClamp /\
  0 <= ComputedValues.estimatedTax (TaxComputationRule.execute creditClamp) /\
  0 <= ComputedValues.netTaxPayable (TaxComputationRule.execute creditClamp) /\
  ComputedValues.netTaxPayable (TaxComputationRule.execute creditClamp)
  <= ComputedValues.estimatedTax (TaxComputationRule.execute creditClamp).
Proof.
  assert (Hvalid : validInput creditClamp).
  { split; repeat constructor; simpl; lra. }
  split; [exact Hvalid | exact (execute_monetary_outputs_nonneg creditClamp Hvalid)].
Defined.

(** The two rule classes carry the same bracket loop. *)
Lemma applyGraduatedRates_shared (t : Q) :
  RegimeDeterminationRule.applyGraduatedRates t = TaxComputationRule.applyGraduatedRates t.
Proof. reflexivity. Qed.

(** C3. On a taxable income of exactly 250,000 the bracket loop returns 0.
    On exactly 400,000 it returns 22,499.85 in both rule classes, not the
    22,500 of the claim: the second bracket charges 15% on the excess over
    its [min] of 250,001. *)
Theorem bracket_boundaries :
  TaxComputationRule.applyGraduatedRates 250000 == 0 /\
  RegimeDeterminationRule.applyGraduatedRates 250000 == 0 /\
  TaxComputationRule.applyGraduatedRates 400000 == 22499.85 /\
  RegimeDeterminationRule.applyGraduatedRates 400000 == 22499.85 /\
  ~ TaxComputationRule.applyGraduatedRates 400000 == 22500.
Proof.
  vm_compute. repeat split; intro H; discriminate H.
Qed.

Lemma estimatedTax_flat (input : RuleInput.t) :
  RuleInput.selectedRegime input = Some EIGHT_PERCENT_FLAT ->
  ComputedValues.estimatedTax (TaxComputationRule.execute input)
  = Js.Math_max 0 (TaxComputationRule.calculateBusinessIncome input - 250000) * 0.08
  /\ ComputedValues.businessIncome (TaxComputationRule.execute input)
     = TaxComputationRule.calculateBusinessIncome input.
Proof.
  intro H. unfold TaxComputationRule.execute. rewrite H. split; reflexivity.
Qed.

Lemma nonEmploymentGross_eq (input : RuleInput.t) :
  TaxComputationRule.calculateBusinessIncome input
  = nonEmploymentGross (RuleInput.incomeStreams input).
Proof.
  unfold TaxComputationRule.calculateBusinessIncome, nonEmploymentGross, Js.sum.
  rewrite (filter_ext
             (fun stream => negb (isEmployment (IncomeStreamData.incomeType stream)))
             (fun s => match IncomeStreamData.incomeType s with
                       | EMPLOYMENT => false
                       | _ => true
                       end))
    by (intro s; destruct (IncomeStreamData.incomeType s); reflexivity).
  generalize 0.
  induction (filter _ (RuleInput.incomeStreams input)) as [| s rest IH]; intro acc; simpl.
  - reflexivity.
  - apply IH.
Qed.

(** C8. Under the flat regime the business income reported is the sum of
    the gross amounts of the streams that are not employment income, and
    [estimatedTax] is 8% of what that sum exceeds 250,000 by, 0 when it
    does not; a freelancer with one stream of 500,000 gets 20,000, and the
    regime comparison for a gross of 600,000 reports a flat-regime tax of
    28,000. *)
Theorem flat_regime_tax :
  (forall input : RuleInput.t,
     RuleInput.selectedRegime input = Some EIGHT_PERCENT_FLAT ->
     let cv := TaxComputationRule.execute input in
     let b := nonEmploymentGross (RuleInput.incomeStreams input) in
     ComputedValues.businessIncome cv = b /\
     ComputedValues.taxableIncome cv == Qmax 0 (b - 250000) /\
     ComputedValues.estimatedTax cv == Qmax 0 (b - 250000) * 0.08 /\
     (b <= 250000 -> ComputedValues.estimatedTax cv == 0) /\
     (250000 < b -> ComputedValues.estimatedTax cv == (b - 250000) * 0.08)) /\
  ComputedValues.estimatedTax (TaxComputationRule.execute flat500k) == 20000 /\
  (forall env : HostEnv,
     RegimeEstimate.estimatedTax
       (Comparison.eightPercent
          (RegimeComparisonResult.comparison
             (RegimeDeterminationRule.execute env undetermined600k))) == 28000).
Proof.
  split; [| split].
  - intros input Hflat cv b. subst cv b.
    rewrite <- nonEmploymentGross_eq.
    destruct (estimatedTax_flat input Hflat) as [Htax Hb].
    assert (Htaxable : ComputedValues.taxableIncome (TaxComputationRule.execute input)
                       = Js.Math_max 0 (TaxComputationRule.calculateBusinessIncome input
                                        - 250000)).
    { unfold TaxComputationRule.execute. rewrite Hflat. reflexivity. }
    rewrite Htax, Hb, Htaxable.
    set (bi := TaxComputationRule.calculateBusinessIncome input).
    split; [reflexivity |].
    destruct (Math_max_cases 0 (bi - 250000)) as [[Hle ->] | [Hlt ->]].
    + rewrite (Q.max_r 0 (bi - 250000)) by exact Hle. repeat split; intros; lra.
    + rewrite (Q.max_l 0 (bi - 250000)) by lra. repeat split; intros; lra.
  - vm_compute. reflexivity.
  - intro env. vm_compute. reflexivity.
Qed.

(** Witness of C8: the employee with 300,000 of freelance income under the
    flat regime pays 8% of the 50,000 by which the freelance income alone
    exceeds 250,000. *)
Lemma flat_regime_tax_witness :
  RuleInput.selectedRegime mixedFlat = Some EIGHT_PERCENT_FLAT /\
  nonEmploymentGross (RuleInput.incomeStreams mixedFlat) == 300000 /\
  ComputedValues.estimatedTax (TaxComputationRule.execute mixedFlat) == 4000.
Proof.
  assert (Hb : nonEmploymentGross (RuleInput.incomeStreams mixedFlat) == 300000).
  { vm_compute. reflexivity. }
  split; [reflexivity | split; [exact Hb |]].
  destruct flat_regime_tax as [Hgen _].
  destruct (Hgen mixedFlat eq_refl) as [_ [_ [_ [_ Hgt]]]].
  rewrite Hgt by (rewrite Hb; reflexivity).
  rewrite Hb. reflexivity.
Defined.

(** ** Regime determination *)

Lemma eligible8Percent_eq (env : HostEnv) (input : RuleInput.t) :
  RegimeComparisonResult.eligible8Percent (RegimeDeterminationRule.execute env input)
  = includes [FREELANCER; SELF_EMPLOYED; MICRO_SMALL_BUSINESS] (RuleInput.userType input)
    && negb (Js.gtb (RegimeDeterminationRule.calculateBusinessIncome input)
               TAX_THRESHOLDS.VAT_THRESHOLD).
Proof.
  unfold RegimeDeterminationRule.execute.
  set (e := RegimeDeterminationRule.checkEligibility env input).
  assert (He : fst e
    = includes [FREELANCER; SELF_EMPLOYED; MICRO_SMALL_BUSINESS] (RuleInput.userType input)
      && negb (Js.gtb (RegimeDeterminationRule.calculateBusinessIncome input)
                 TAX_THRESHOLDS.VAT_THRESHOLD)).
  { subst e. unfold RegimeDeterminationRule.checkEligibility.
    destruct (includes _ (RuleInput.userType input)); simpl; [|reflexivity].
    destruct (Js.gtb _ TAX_THRESHOLDS.VAT_THRESHOLD); simpl; [reflexivity|].
    destruct (UserType_eqb _ _ || _); reflexivity. }
  rewrite <- He.
  destruct (negb (fst e)); [reflexivity|].
  destruct (Js.div_gt _ _ _); [reflexivity|].
  destruct (Js.ltb _ _); reflexivity.
Qed.

Lemma recommendation_ineligible (env : HostEnv) (input : RuleInput.t) :
  RegimeComparisonResult.eligible8Percent (RegimeDeterminationRule.execute env input) = false ->
  RegimeComparisonResult.recommendation (RegimeDeterminationRule.execute env input)
  = GRADUATED_RATES.
Proof.
  unfold RegimeDeterminationRule.execute.
  set (e := RegimeDeterminationRule.checkEligibility env input).
  destruct (fst e) eqn:E; simpl.
  - destruct (Js.div_gt _ _ _); [simpl; discriminate|].
    destruct (Js.ltb _ _); simpl; discriminate.
  - reflexivity.
Qed.

(** C4. On the mixed-income input of the test suite (user type MixedIncome,
    business income 300,000, below the threshold of 3,000,000) the rule
    reports [eligible8Percent = false], where the claim has [true]: the list
    of eligible user types in [checkEligibility] leaves MixedIncome out. *)
Theorem mixed_income_reported_ineligible (env : HostEnv) :
  RuleInput.userType mixedIncomeTestInput = MIXED_INCOME /\
  RegimeDeterminationRule.calculateBusinessIncome mixedIncomeTestInput == 300000 /\
  RegimeComparisonResult.eligible8Percent
    (RegimeDeterminationRule.execute env mixedIncomeTestInput) = false.
Proof.
  split; [reflexivity | split; [vm_compute; reflexivity |]].
  rewrite eligible8Percent_eq. reflexivity.
Qed.

(** C5. Whenever the business income (the gross amounts of the
    non-employment streams added up) exceeds 3,000,000, the recommendation
    of [RegimeDeterminationRule.execute] is GraduatedRates. *)
Theorem no_flat_recommendation_above_vat_threshold (env : HostEnv) (input : RuleInput.t) :
  3000000 < RegimeDeterminationRule.calculateBusinessIncome input ->
  RegimeComparisonResult.recommendation (RegimeDeterminationRule.execute env input)
  = GRADUATED_RATES.
Proof.
  intro Habove. apply recommendation_ineligible.
  rewrite eligible8Percent_eq.
  assert (Hgt : Js.gtb (RegimeDeterminationRule.calculateBusinessIncome input)
                  TAX_THRESHOLDS.VAT_THRESHOLD = true).
  { apply gtb_lt. exact Habove. }
  rewrite Hgt. apply andb_false_r.
Qed.

(** Witness of C5: gross receipts of 3,500,000. *)
Lemma no_flat_recommendation_above_vat_threshold_witness :
  3000000 < RegimeDeterminationRule.calculateBusinessIncome aboveVatThreshold /\
  RegimeComparisonResult.recommendation
    (RegimeDeterminationRule.execute utcHost aboveVatThreshold) = GRADUATED_RATES.
Proof.
  assert (H : 3000000 < RegimeDeterminationRule.calculateBusinessIncome aboveVatThreshold).
  { vm_compute. reflexivity. }
  split; [exact H | exact (no_flat_recommendation_above_vat_threshold utcHost aboveVatThreshold H)].
Defined.

(** ** Filing obligations *)

Lemma obligations_push_old (st : FilingObligationsRule.State)
    (f : string -> Obligation.t) (o : Obligation.t) :
  In o (fst st) -> In o (fst (FilingObligationsRule.push st f)).
Proof. intro H. unfold FilingObligationsRule.push. simpl. apply in_or_app. left. exact H. Qed.

Lemma obligations_push_new (st : FilingObligationsRule.State) (f : string -> Obligation.t) :
  exists i, In (f i) (fst (FilingObligationsRule.push st f)).
Proof.
  eexists. unfold FilingObligationsRule.push. simpl. apply in_or_app. right. left. reflexivity.
Qed.

Lemma obligations_push_inv (st : FilingObligationsRule.State)
    (f : string -> Obligation.t) (o : Obligation.t) :
  In o (fst (FilingObligationsRule.push st f)) -> In o (fst st) \/ exists i, o = f i.
Proof.
  unfold FilingObligationsRule.push. simpl. intro H. apply in_app_or in H.
  destruct H as [H | [H | []]]; [left; exact H | right; eexists; symmetry; exact H].
Qed.

Ltac obligations_step :=
  repeat match goal with
  | |- context [if ?c then _ else _] => destruct c
  end.

Ltac appends_tac :=
  intros st o Hin; cbv zeta; obligations_step;
  repeat apply obligations_push_old; exact Hin.

Ltac emits_tac :=
  intros st o; cbv zeta; obligations_step; intro Hin;
  repeat match goal with
  | H : In _ (fst (FilingObligationsRule.push _ _)) |- _ =>
      apply obligations_push_inv in H; destruct H as [H | [i H]];
      [| right; rewrite H; simpl; discriminate]
  end; left; assumption.

Lemma incomeTax_appends input : appends (FilingObligationsRule.incomeTaxObligations input).
Proof. unfold FilingObligationsRule.incomeTaxObligations. appends_tac. Qed.

Lemma percentageTax_appends input :
  appends (FilingObligationsRule.percentageTaxObligations input).
Proof. unfold FilingObligationsRule.percentageTaxObligations. appends_tac. Qed.

Lemma registration_appends input :
  appends (FilingObligationsRule.registrationObligations input).
Proof. unfold FilingObligationsRule.registrationObligations. appends_tac. Qed.

Lemma withholding_appends input :
  appends (FilingObligationsRule.withholdingObligations input).
Proof. unfold FilingObligationsRule.withholdingObligations. appends_tac. Qed.

Lemma employment_appends input :
  appends (FilingObligationsRule.employmentObligations input).
Proof. unfold FilingObligationsRule.employmentObligations. appends_tac. Qed.

Lemma books_appends input : appends (FilingObligationsRule.booksObligations input).
Proof. unfold FilingObligationsRule.booksObligations. appends_tac. Qed.

Lemma incomeTax_no2551Q input :
  emitsNo2551Q (FilingObligationsRule.incomeTaxObligations input).
Proof. unfold FilingObligationsRule.incomeTaxObligations. emits_tac. Qed.

Lemma registration_no2551Q input :
  emitsNo2551Q (FilingObligationsRule.registrationObligations input).
Proof. unfold FilingObligationsRule.registrationObligations. emits_tac. Qed.

Lemma withholding_no2551Q input :
  emitsNo2551Q (FilingObligationsRule.withholdingObligations input).
Proof. unfold FilingObligationsRule.withholdingObligations. emits_tac. Qed.

Lemma employment_no2551Q input :
  emitsNo2551Q (FilingObligationsRule.employmentObligations input).
Proof. unfold FilingObligationsRule.employmentObligations. emits_tac. Qed.

Lemma books_no2551Q input :
  emitsNo2551Q (FilingObligationsRule.booksObligations input).
Proof. unfold FilingObligationsRule.booksObligations. emits_tac. Qed.

Lemma after_percentageTax (input : RuleInput.t) (st : FilingObligationsRule.State)
    (o : Obligation.t) :
  In o (fst (FilingObligationsRule.percentageTaxObligations input st)) ->
  In o (fst (FilingObligationsRule.booksObligations input
         (FilingObligationsRule.employmentObligations input
           (FilingObligationsRule.withholdingObligations input
             (FilingObligationsRule.registrationObligations input
               (FilingObligationsRule.percentageTaxObligations input st)))))).
Proof.
  intro H. apply books_appends, employment_appends, withholding_appends,
    registration_appends. exact H.
Qed.

Lemma around_percentageTax (input : RuleInput.t) (o : Obligation.t) :
  In o (FilingObligationsRule.execute input) ->
  Obligation.formCode o = "2551Q" ->
  exists st, In o (fst (FilingObligationsRule.percentageTaxObligations input st))
             /\ ~ In o (fst st).
Proof.
  unfold FilingObligationsRule.execute. cbv zeta. intros Hin Hcode.
  apply books_no2551Q in Hin. destruct Hin as [Hin | Hne]; [| contradiction].
  apply employment_no2551Q in Hin. destruct Hin as [Hin | Hne]; [| contradiction].
  apply withholding_no2551Q in Hin. destruct Hin as [Hin | Hne]; [| contradiction].
  apply registration_no2551Q in Hin. destruct Hin as [Hin | Hne]; [| contradiction].
  eexists. split; [exact Hin |].
  intro Hold. apply incomeTax_no2551Q in Hold.
  destruct Hold as [[] | Hne]. contradiction.
Qed.

Lemma requiresPercentageTax_graduated (input : RuleInput.t) :
  RuleInput.selectedRegime input = Some GRADUATED_RATES ->
  FilingObligationsRule.requiresPercentageTax input
  = negb (UserType_eqb (RuleInput.userType input) MIXED_INCOME).
Proof.
  intro H. unfold FilingObligationsRule.requiresPercentageTax. rewrite H. simpl.
  destruct (RuleInput.userType input); reflexivity.
Qed.

Lemma percentageTax_inv (input : RuleInput.t) (st : FilingObligationsRule.State)
    (o : Obligation.t) :
  In o (fst (FilingObligationsRule.percentageTaxObligations input st)) ->
  In o (fst st) \/
  (percentageTaxRecord (FilingObligationsRule.requiresPercentageTax input) o /\
   (FilingObligationsRule.requiresPercentageTax input = true \/
    regimeIs (RuleInput.selectedRegime input) EIGHT_PERCENT_FLAT = true)).
Proof.
  unfold FilingObligationsRule.percentageTaxObligations.
  destruct (FilingObligationsRule.requiresPercentageTax input);
    [| destruct (regimeIs (RuleInput.selectedRegime input) EIGHT_PERCENT_FLAT)];
    intro H; try (left; exact H);
    apply obligations_push_inv in H; destruct H as [H | [i H]];
    try (left; exact H); right; rewrite H; repeat split; auto.
Qed.

Lemma percentageTax_new (input : RuleInput.t) (st : FilingObligationsRule.State) :
  FilingObligationsRule.requiresPercentageTax input = true \/
  regimeIs (RuleInput.selectedRegime input) EIGHT_PERCENT_FLAT = true ->
  exists o, In o (fst (FilingObligationsRule.percentageTaxObligations input st))
            /\ percentageTaxRecord (FilingObligationsRule.requiresPercentageTax input) o.
Proof.
  unfold FilingObligationsRule.percentageTaxObligations.
  destruct (FilingObligationsRule.requiresPercentageTax input);
    [| destruct (regimeIs (RuleInput.selectedRegime input) EIGHT_PERCENT_FLAT)];
    intros [H | H]; try discriminate H;
    match goal with
    | |- context [FilingObligationsRule.push st ?f] =>
        destruct (obligations_push_new st f) as [i Hi];
        eexists; split; [exact Hi | split; reflexivity]
    end.
Qed.

Lemma requiresPercentageTax_flat (input : RuleInput.t) :
  RuleInput.selectedRegime input = Some EIGHT_PERCENT_FLAT ->
  FilingObligationsRule.requiresPercentageTax input = false.
Proof.
  intro H. unfold FilingObligationsRule.requiresPercentageTax. rewrite H. reflexivity.
Qed.

(** C6 (as stated, refuted). A mixed-income earner under graduated rates
    gets no applicable record for form 2551Q. *)
Lemma percentage_tax_record_counterexample :
  RuleInput.selectedRegime mixedGraduated = Some GRADUATED_RATES /\
  ~ exists o, In o (FilingObligationsRule.execute mixedGraduated)
              /\ percentageTaxRecord true o.
Proof.
  split; [reflexivity |].
  intros [o [Hin [Hcode _]]].
  vm_compute in Hin.
  repeat (destruct Hin as [Heq | Hin]; [subst o; discriminate Hcode |]).
  exact Hin.
Qed.

(** C6 (amended). Under the flat regime [FilingObligationsRule.execute]
    includes a record for form 2551Q with [isApplicable = false] and none
    with [isApplicable = true].  Under graduated rates it includes a record
    for form 2551Q with [isApplicable = true] when the user type is
    Freelancer, SelfEmployed or MicroSmallBusiness, and no record for that
    form when the user type is MixedIncome. *)
Theorem percentage_tax_record (input : RuleInput.t) :
  (RuleInput.selectedRegime input = Some EIGHT_PERCENT_FLAT ->
     (exists o, In o (FilingObligationsRule.execute input) /\ percentageTaxRecord false o) /\
     (forall o, In o (FilingObligationsRule.execute input) -> ~ percentageTaxRecord true o)) /\
  (RuleInput.selectedRegime input = Some GRADUATED_RATES ->
     RuleInput.userType input <> MIXED_INCOME ->
     exists o, In o (FilingObligationsRule.execute input) /\ percentageTaxRecord true o) /\
  (RuleInput.selectedRegime input = Some GRADUATED_RATES ->
     RuleInput.userType input = MIXED_INCOME ->
     forall o, In o (FilingObligationsRule.execute input) -> Obligation.formCode o <> "2551Q").
Proof.
  split; [| split].
  - intro Hflat.
    pose proof (requiresPercentageTax_flat input Hflat) as Hreq.
    assert (Hreg : regimeIs (RuleInput.selectedRegime input) EIGHT_PERCENT_FLAT = true)
      by (rewrite Hflat; reflexivity).
    split.
    + unfold FilingObligationsRule.execute. cbv zeta.
      set (st := FilingObligationsRule.incomeTaxObligations input _).
      destruct (percentageTax_new input st (or_intror Hreg)) as [o [Hin Hrec]].
      rewrite Hreq in Hrec. exists o. split; [| exact Hrec].
      apply after_percentageTax. exact Hin.
    + intros o Hin [Hcode Happ].
      destruct (around_percentageTax input o Hin Hcode) as [st [Hstep Hold]].
      apply percentageTax_inv in Hstep. destruct Hstep as [Hin' | [[_ Happ'] _]].
      * contradiction.
      * rewrite Hreq in Happ'. congruence.
  - intros Hgrad Hnot.
    assert (Hreq : FilingObligationsRule.requiresPercentageTax input = true).
    { rewrite (requiresPercentageTax_graduated input Hgrad).
      destruct (RuleInput.userType input); try reflexivity. contradiction. }
    unfold FilingObligationsRule.execute. cbv zeta.
    set (st := FilingObligationsRule.incomeTaxObligations input _).
    destruct (percentageTax_new input st (or_introl Hreq)) as [o [Hin Hrec]].
    rewrite Hreq in Hrec. exists o. split; [| exact Hrec].
    apply after_percentageTax. exact Hin.
  - intros Hgrad Hmixed o Hin Hcode.
    destruct (around_percentageTax input o Hin Hcode) as [st [Hstep Hold]].
    apply percentageTax_inv in Hstep. destruct Hstep as [Hin' | [_ [Hreq | Hreg]]].
    + contradiction.
    + rewrite (requiresPercentageTax_graduated input Hgrad), Hmixed in Hreq.
      discriminate Hreq.
    + rewrite Hgrad in Hreg. discriminate Hreg.
Qed.

(** Witness of C6: the freelancer fixtures of the obligations test suite
    under each regime, and the mixed-income earner under graduated rates. *)
Lemma percentage_tax_record_witness :
  (exists o, In o (FilingObligationsRule.execute freelancerFlat)
             /\ percentageTaxRecord false o) /\
  (exists o, In o (FilingObligationsRule.execute freelancerGraduated)
             /\ percentageTaxRecord true o) /\
  (forall o, In o (FilingObligationsRule.execute mixedGraduated) ->
             Obligation.formCode o <> "2551Q").
Proof.
  split; [| split].
  - destruct (percentage_tax_record freelancerFlat) as [Hflat _].
    destruct (Hflat eq_refl) as [Hex _]. exact Hex.
  - destruct (percentage_tax_record freelancerGraduated) as [_ [Hgrad _]].
    apply Hgrad; [reflexivity | discriminate].
  - destruct (percentage_tax_record mixedGraduated) as [_ [_ Hmixed]].
    apply Hmixed; reflexivity.
Defined.

(** ** Deadlines *)

Lemma deadlines_push_old (st : DeadlineCalculationRule.State)
    (f : string -> Deadline.t) (d : Deadline.t) :
  In d (fst st) -> In d (fst (DeadlineCalculationRule.push st f)).
Proof. intro H. unfold DeadlineCalculationRule.push. simpl. apply in_or_app. left. exact H. Qed.

Lemma deadlines_push_new (st : DeadlineCalculationRule.State) (f : string -> Deadline.t) :
  exists i, In (f i) (fst (DeadlineCalculationRule.push st f)).
Proof.
  eexists. unfold DeadlineCalculationRule.push. simpl. apply in_or_app. right. left. reflexivity.
Qed.

Lemma quarterStep_keeps env input o cfg st quarter (d : Deadline.t) :
  In d (fst st) -> In d (fst (DeadlineCalculationRule.quarterStep env input o cfg st quarter)).
Proof.
  intro H. unfold DeadlineCalculationRule.quarterStep.
  destruct (DeadlineCalculationRule.quarterDeadline _ quarter); [| exact H].
  apply deadlines_push_old. exact H.
Qed.

Lemma quarters_keep env input o cfg (quarters : list string) :
  forall st (d : Deadline.t),
  In d (fst st) ->
  In d (fst (fold_left (DeadlineCalculationRule.quarterStep env input o cfg) quarters st)).
Proof.
  induction quarters as [| q rest IH]; intros st d H; simpl; [exact H |].
  apply IH. apply quarterStep_keeps. exact H.
Qed.

Lemma isoDate_dated (env : HostEnv) (date : Z) : JsDate.isoDate env date <> ASAP.
Proof.
  unfold JsDate.isoDate. destruct (JsDate.civil_from_days _) as [[y m] d]. discriminate.
Qed.

(** What the annual branch pushes for an obligation whose frequency is
    ['annual']. *)
Lemma annualBranch_annual env input (o : Obligation.t) config st :
  Obligation.frequency o = annual ->
  exists d, In d (fst (DeadlineCalculationRule.annualBranch env input o config st)) /\
            Deadline.formCode d = Obligation.formCode o /\
            Deadline.dueDate d <> ASAP /\
            Deadline.reminderDays d = [60; 30; 14; 7; 3; 1]%nat.
Proof.
  intro Hfreq. unfold DeadlineCalculationRule.annualBranch. cbv zeta.
  rewrite Hfreq. simpl orb. cbv iota.
  match goal with
  | |- context [DeadlineCalculationRule.push ?s ?f] =>
      destruct (deadlines_push_new s f) as [i Hi]; exists (f i)
  end.
  split; [exact Hi | split; [reflexivity | split; [apply isoDate_dated | reflexivity]]].
Qed.

Lemma quarterlyBranch_keeps env input o config st (d : Deadline.t) :
  In d (fst st) -> In d (fst (DeadlineCalculationRule.quarterlyBranch env input o config st)).
Proof.
  intro H. unfold DeadlineCalculationRule.quarterlyBranch.
  destruct (Obligation.frequency o); try exact H.
  destruct config; [| exact H].
  apply quarters_keep. exact H.
Qed.

Lemma annualBranch_keeps env input o config st (d : Deadline.t) :
  In d (fst st) -> In d (fst (DeadlineCalculationRule.annualBranch env input o config st)).
Proof.
  intro H. unfold DeadlineCalculationRule.annualBranch. cbv zeta.
  destruct (_ || _); [apply deadlines_push_old |]; exact H.
Qed.

Lemma registrationFeeBranch_keeps env input o st (d : Deadline.t) :
  In d (fst st) -> In d (fst (DeadlineCalculationRule.registrationFeeBranch env input o st)).
Proof.
  intro H. unfold DeadlineCalculationRule.registrationFeeBranch. cbv zeta.
  destruct (String.eqb _ _); [apply deadlines_push_old |]; exact H.
Qed.

Lemma registrationBranch_keeps o st (d : Deadline.t) :
  In d (fst st) -> In d (fst (DeadlineCalculationRule.registrationBranch o st)).
Proof.
  intro H. unfold DeadlineCalculationRule.registrationBranch.
  destruct (String.eqb _ _); [apply deadlines_push_old |]; exact H.
Qed.

Lemma obligationStep_keeps env input st (o : Obligation.t) (d : Deadline.t) :
  In d (fst st) -> In d (fst (DeadlineCalculationRule.obligationStep env input st o)).
Proof.
  intro H. unfold DeadlineCalculationRule.obligationStep. cbv zeta.
  apply registrationBranch_keeps, registrationFeeBranch_keeps, annualBranch_keeps,
    quarterlyBranch_keeps. exact H.
Qed.

Lemma obligationStep_annual env input st (o : Obligation.t) :
  Obligation.frequency o = annual ->
  exists d, In d (fst (DeadlineCalculationRule.obligationStep env input st o)) /\
            Deadline.formCode d = Obligation.formCode o /\
            Deadline.dueDate d <> ASAP /\
            Deadline.reminderDays d = [60; 30; 14; 7; 3; 1]%nat.
Proof.
  intro Hfreq. unfold DeadlineCalculationRule.obligationStep. cbv zeta.
  match goal with
  | |- context [DeadlineCalculationRule.annualBranch env input o ?c ?s] =>
      destruct (annualBranch_annual env input o c s Hfreq) as [d [Hd Hprops]]
  end.
  exists d. split; [| exact Hprops].
  apply registrationBranch_keeps, registrationFeeBranch_keeps. exact Hd.
Qed.

Lemma obligations_keep env input (l : list Obligation.t) :
  forall st (d : Deadline.t),
  In d (fst st) ->
  In d (fst (fold_left (DeadlineCalculationRule.obligationStep env input) l st)).
Proof.
  induction l as [| o rest IH]; intros st d H; simpl; [exact H |].
  apply IH. apply obligationStep_keeps. exact H.
Qed.

Lemma insertDeadline_In (x d : Deadline.t) (l : list Deadline.t) :
  In d (DeadlineCalculationRule.insertDeadline x l) <-> d = x \/ In d l.
Proof.
  induction l as [| y rest IH]; simpl.
  - intuition congruence.
  - destruct (DeadlineCalculationRule.compareDeadlines x y <? 0)%Z; simpl.
    + intuition congruence.
    + rewrite IH. intuition congruence.
Qed.

Lemma sortDeadlines_In (d : Deadline.t) (l : list Deadline.t) :
  In d (DeadlineCalculationRule.sortDeadlines l) <-> In d l.
Proof.
  unfold DeadlineCalculationRule.sortDeadlines.
  assert (H : forall acc,
    In d (fold_left (fun sorted x => DeadlineCalculationRule.insertDeadline x sorted) l acc)
    <-> In d acc \/ In d l).
  { induction l as [| x rest IH]; intro acc; simpl.
    - intuition.
    - rewrite IH, insertDeadline_In. intuition congruence. }
  rewrite H. simpl. intuition.
Qed.

(** X29. Every applicable obligation whose frequency is ['annual'], whatever its
    form, receives a deadline with a computed date and the reminder offsets
    of the generic annual branch. *)
Lemma annual_obligation_dated_deadline env input (obligations : list Obligation.t)
    (o : Obligation.t) :
  In o obligations ->
  Obligation.isApplicable o = true ->
  Obligation.frequency o = annual ->
  exists d, In d (DeadlineCalculationRule.execute env input obligations) /\
            Deadline.formCode d = Obligation.formCode o /\
            Deadline.dueDate d <> ASAP /\
            Deadline.reminderDays d = [60; 30; 14; 7; 3; 1]%nat.
Proof.
  intros Hin Happ Hfreq.
  assert (Hf : In o (filter Obligation.isApplicable obligations)).
  { apply filter_In. split; assumption. }
  apply in_split in Hf. destruct Hf as [before [after Hsplit]].
  unfold DeadlineCalculationRule.execute, DeadlineCalculationRule.emitted.
  rewrite Hsplit, fold_left_app. simpl.
  set (st := fold_left (DeadlineCalculationRule.obligationStep env input) before _).
  destruct (obligationStep_annual env input st o Hfreq) as [d [Hd Hprops]].
  exists d. split; [| exact Hprops].
  apply sortDeadlines_In. apply obligations_keep. exact Hd.
Qed.


(** C7. For the registered freelancer of the test suite (tax year 2024) the
    deadline rule emits two deadlines for form 0605: the special one due
    2024-01-31 and one from the generic annual branch due 2025-04-15.  For
    the unregistered freelancer it emits two deadlines for form 1901: the
    ['ASAP'] one and a generic annual one due 2025-04-15 with the reminder
    offsets 60, 30, 14, 7, 3, 1. *)
Theorem registration_forms_generic_annual_deadline :
  (exists d,
     In d (DeadlineCalculationRule.execute utcHost freelancerFlat
             (FilingObligationsRule.execute freelancerFlat)) /\
     Deadline.formCode d = "0605" /\
     Deadline.dueDate d = IsoDate 2025 4 15) /\
  (exists d,
     In d (DeadlineCalculationRule.execute utcHost freelancerFlat
             (FilingObligationsRule.execute freelancerFlat)) /\
     Deadline.formCode d = "0605" /\
     Deadline.dueDate d = IsoDate 2024 1 31) /\
  (exists d,
     In d (DeadlineCalculationRule.execute utcHost unregisteredFreelancer
             (FilingObligationsRule.execute unregisteredFreelancer)) /\
     Deadline.formCode d = "1901" /\
     Deadline.dueDate d = IsoDate 2025 4 15 /\
     Deadline.reminderDays d = [60; 30; 14; 7; 3; 1]%nat) /\
  (exists d,
     In d (DeadlineCalculationRule.execute utcHost unregisteredFreelancer
             (FilingObligationsRule.execute unregisteredFreelancer)) /\
     Deadline.formCode d = "1901" /\
     Deadline.dueDate d = ASAP /\
     Deadline.reminderDays d = []).
Proof.
  repeat split.
  - eexists. split; [| split].
    + vm_compute. do 5 right. left. reflexivity.
    + reflexivity.
    + reflexivity.
  - eexists. split; [| split].
    + vm_compute. left. reflexivity.
    + reflexivity.
    + reflexivity.
  - eexists. split; [| split; [| split]].
    + vm_compute. do 5 right. left. reflexivity.
    + reflexivity.
    + reflexivity.
    + reflexivity.
  - eexists. split; [| split; [| split]].
    + vm_compute. left. reflexivity.
    + reflexivity.
    + reflexivity.
    + reflexivity.
Qed.

(** ** Risk flags *)

Lemma flags_push_inv (st : RiskAssessmentRule.State) (f : string -> RiskFlag.t)
    (x : RiskFlag.t) :
  In x (fst (RiskAssessmentRule.push st f)) -> In x (fst st) \/ exists i, x = f i.
Proof.
  unfold RiskAssessmentRule.push. simpl. intro H. apply in_app_or in H.
  destruct H as [H | [H | []]]; [left; exact H | right; eexists; symmetry; exact H].
Qed.

Ltac raises_tac :=
  intros st x; cbv zeta;
  repeat match goal with
  | |- context [if ?c then _ else _] => destruct c
  end;
  intro Hin;
  repeat match goal with
  | H : In _ (fst (RiskAssessmentRule.push _ _)) |- _ =>
      apply flags_push_inv in H; destruct H as [H | [i H]];
      [| right; rewrite H; simpl; discriminate]
  end; left; assumption.

Lemma registrationRisks_code env input :
  raisesNo "REGIME_NOT_SELECTED" (RiskAssessmentRule.registrationRisks env input).
Proof. unfold RiskAssessmentRule.registrationRisks. raises_tac. Qed.

Lemma thresholdRisks_code env total :
  raisesNo "REGIME_NOT_SELECTED" (RiskAssessmentRule.thresholdRisks env total).
Proof. unfold RiskAssessmentRule.thresholdRisks. raises_tac. Qed.

Lemma withholdingRisks_code env input total :
  raisesNo "REGIME_NOT_SELECTED" (RiskAssessmentRule.withholdingRisks env input total).
Proof. unfold RiskAssessmentRule.withholdingRisks. raises_tac. Qed.

Lemma dataQualityRisks_code input total :
  raisesNo "REGIME_NOT_SELECTED" (RiskAssessmentRule.dataQualityRisks input total).
Proof. unfold RiskAssessmentRule.dataQualityRisks. raises_tac. Qed.

Lemma expenseRisks_code input :
  raisesNo "REGIME_NOT_SELECTED" (RiskAssessmentRule.expenseRisks input).
Proof. unfold RiskAssessmentRule.expenseRisks. raises_tac. Qed.

Lemma regimeRisks_code env input total :
  regimeIs (RuleInput.selectedRegime input) UNDETERMINED = false ->
  raisesNo "REGIME_NOT_SELECTED" (RiskAssessmentRule.regimeRisks env input total).
Proof.
  intro Hsel. unfold RiskAssessmentRule.regimeRisks. rewrite Hsel. raises_tac.
Qed.

Lemma execute_no_regime_flag (env : HostEnv) (input : RuleInput.t) :
  regimeIs (RuleInput.selectedRegime input) UNDETERMINED = false ->
  forall f, In f (RiskAssessmentRule.execute env input) ->
            RiskFlag.code f <> "REGIME_NOT_SELECTED".
Proof.
  intros Hsel f Hin. unfold RiskAssessmentRule.execute in Hin. cbv zeta in Hin.
  apply expenseRisks_code in Hin. destruct Hin as [Hin | Hne]; [| exact Hne].
  apply dataQualityRisks_code in Hin. destruct Hin as [Hin | Hne]; [| exact Hne].
  apply (regimeRisks_code env input _ Hsel) in Hin.
  destruct Hin as [Hin | Hne]; [| exact Hne].
  apply withholdingRisks_code in Hin. destruct Hin as [Hin | Hne]; [| exact Hne].
  apply thresholdRisks_code in Hin. destruct Hin as [Hin | Hne]; [| exact Hne].
  apply registrationRisks_code in Hin. destruct Hin as [[] | Hne]. exact Hne.
Qed.

(** ** The orchestrator *)

Lemma recommendation_concrete (env : HostEnv) (input : RuleInput.t) :
  RegimeComparisonResult.recommendation (RegimeDeterminationRule.execute env input)
  <> UNDETERMINED.
Proof.
  unfold RegimeDeterminationRule.execute.
  destruct (negb _); [simpl; discriminate |].
  destruct (Js.div_gt _ _ _); [simpl; discriminate |].
  destruct (Js.ltb _ _); simpl; discriminate.
Qed.

Lemma effectiveRegime_determined (input : RuleInput.t) (rc : RegimeComparisonResult.t) :
  RegimeComparisonResult.recommendation rc <> UNDETERMINED ->
  regimeIs (RulesEngineService.effectiveRegime input rc) UNDETERMINED = false.
Proof.
  intro Hrec. unfold RulesEngineService.effectiveRegime.
  destruct (regimeIs (RuleInput.selectedRegime input) UNDETERMINED) eqn:E; simpl.
  - destruct (RegimeComparisonResult.recommendation rc); try reflexivity. contradiction.
  - exact E.
Qed.

Lemma runAssessment_riskFlags (env : HostEnv) (self : RulesEngineService.t)
    (input : RuleInput.t) :
  AssessmentOutput.riskFlags (snd (RulesEngineService.runAssessment env self input))
  = RiskAssessmentRule.execute env
      (RuleInput.withSelectedRegime input
         (RulesEngineService.effectiveRegime input
            (RegimeDeterminationRule.execute env input))).
Proof. reflexivity. Qed.

Lemma runAssessment_recommendedRegime (env : HostEnv) (self : RulesEngineService.t)
    (input : RuleInput.t) :
  AssessmentOutput.recommendedRegime (snd (RulesEngineService.runAssessment env self input))
  = RulesEngineService.effectiveRegime input (RegimeDeterminationRule.execute env input).
Proof. reflexivity. Qed.

(** C9. The same rule input gives different assessments on hosts in
    different time zones.  For the registered freelancer of tax year 2026
    the deadlines computed on a UTC host are due on May 15, August 17,
    November 16 and so on; on a host in the zone of Manila every one of them
    is dated a day earlier, the third quarterly return on Sunday,
    November 15.  The other parts of the two assessments agree. *)
Theorem runAssessment_depends_on_host_zone :
  let onUtc :=
    snd (RulesEngineService.runAssessment utcHost (RulesEngineService.mk []) freelancer2026) in
  let onManila :=
    snd (RulesEngineService.runAssessment manilaHost (RulesEngineService.mk [])
           freelancer2026) in
  map deadlineDate (AssessmentOutput.deadlines onUtc)
  = [ ("0605", IsoDate 2026 2 2); ("2551Q", IsoDate 2026 4 27);
      ("1701Q", IsoDate 2026 5 15); ("2551Q", IsoDate 2026 7 27);
      ("1701Q", IsoDate 2026 8 17); ("2551Q", IsoDate 2026 10 26);
      ("1701Q", IsoDate 2026 11 16); ("1701", IsoDate 2027 4 15);
      ("0605", IsoDate 2027 4 15); ("BOOKS", IsoDate 2027 4 15) ] /\
  map deadlineDate (AssessmentOutput.deadlines onManila)
  = [ ("0605", IsoDate 2026 2 1); ("2551Q", IsoDate 2026 4 26);
      ("1701Q", IsoDate 2026 5 14); ("2551Q", IsoDate 2026 7 26);
      ("1701Q", IsoDate 2026 8 16); ("2551Q", IsoDate 2026 10 25);
      ("1701Q", IsoDate 2026 11 15); ("1701", IsoDate 2027 4 14);
      ("0605", IsoDate 2027 4 14); ("BOOKS", IsoDate 2027 4 14) ] /\
  JsDate.getDay (JsDate.days_from_civil 2026 11 15) = 0%Z /\
  AssessmentOutput.recommendedRegime onUtc = AssessmentOutput.recommendedRegime onManila /\
  AssessmentOutput.computedValues onUtc = AssessmentOutput.computedValues onManila /\
  AssessmentOutput.obligations onUtc = AssessmentOutput.obligations onManila /\
  AssessmentOutput.riskFlags onUtc = AssessmentOutput.riskFlags onManila /\
  onUtc <> onManila.
Proof.
  cbv zeta.
  assert (Hutc : map deadlineDate
                   (AssessmentOutput.deadlines
                      (snd (RulesEngineService.runAssessment utcHost
                              (RulesEngineService.mk []) freelancer2026)))
                 = [ ("0605", IsoDate 2026 2 2); ("2551Q", IsoDate 2026 4 27);
                     ("1701Q", IsoDate 2026 5 15); ("2551Q", IsoDate 2026 7 27);
                     ("1701Q", IsoDate 2026 8 17); ("2551Q", IsoDate 2026 10 26);
                     ("1701Q", IsoDate 2026 11 16); ("1701", IsoDate 2027 4 15);
                     ("0605", IsoDate 2027 4 15); ("BOOKS", IsoDate 2027 4 15) ])
    by (vm_compute; reflexivity).
  assert (Hmanila : map deadlineDate
                      (AssessmentOutput.deadlines
                         (snd (RulesEngineService.runAssessment manilaHost
                                 (RulesEngineService.mk []) freelancer2026)))
                    = [ ("0605", IsoDate 2026 2 1); ("2551Q", IsoDate 2026 4 26);
                        ("1701Q", IsoDate 2026 5 14); ("2551Q", IsoDate 2026 7 26);
                        ("1701Q", IsoDate 2026 8 16); ("2551Q", IsoDate 2026 10 25);
                        ("1701Q", IsoDate 2026 11 15); ("1701", IsoDate 2027 4 14);
                        ("0605", IsoDate 2027 4 14); ("BOOKS", IsoDate 2027 4 14) ])
    by (vm_compute; reflexivity).
  split; [exact Hutc |].
  split; [exact Hmanila |].
  split; [vm_compute; reflexivity |].
  split; [vm_compute; reflexivity |].
  split; [vm_compute; reflexivity |].
  split; [vm_compute; reflexivity |].
  split; [vm_compute; reflexivity |].
  intro Heq. rewrite Heq, Hmanila in Hutc. discriminate Hutc.
Qed.

(** C10. No risk flag of an assessment carries the code
    [REGIME_NOT_SELECTED], whatever the selection in the input, and the
    regime the assessment settles on is never [UNDETERMINED]. *)
Theorem runAssessment_never_flags_regime_not_selected
    (env : HostEnv) (self : RulesEngineService.t) (input : RuleInput.t) :
  let out := snd (RulesEngineService.runAssessment env self input) in
  Forall (fun f => RiskFlag.code f <> "REGIME_NOT_SELECTED") (AssessmentOutput.riskFlags out)
  /\ AssessmentOutput.recommendedRegime out <> Some UNDETERMINED.
Proof.
  cbv zeta. rewrite runAssessment_riskFlags, runAssessment_recommendedRegime.
  pose proof (effectiveRegime_determined input (RegimeDeterminationRule.execute env input)
                (recommendation_concrete env input)) as Heff.
  split.
  - apply Forall_forall. intros f Hin.
    apply (execute_no_regime_flag env
             (RuleInput.withSelectedRegime input
                (RulesEngineService.effectiveRegime input
                   (RegimeDeterminationRule.execute env input)))); [exact Heff | exact Hin].
  - intro Heq. rewrite Heq in Heff. discriminate Heff.
Qed.

(** ** The worked amounts on IEEE binary64 *)

Set Warnings "-inexact-float".

(** On binary64 numbers, too, a taxable income of 400,000 is taxed
    22,499.85 and one of 250,000 is taxed 0. *)
Lemma binary64_boundary_values :
  Binary64.applyGraduatedRates 250000 = 0%float /\
  Binary64.applyGraduatedRates 400000 = 22499.85%float /\
  PrimFloat.eqb (Binary64.applyGraduatedRates 400000) 22500 = false.
Proof. repeat split; vm_compute; reflexivity. Qed.

(** The flat-regime tax of the two worked examples is exact on binary64. *)
Lemma binary64_flat_examples :
  fst (Binary64.compute8PercentTax 500000) = 20000%float /\
  fst (Binary64.compute8PercentTax 600000) = 28000%float.
Proof. split; vm_compute; reflexivity. Qed.

Set Warnings "+inexact-float".

(** * Further properties of the rule classes *)

(** ** Sums over income streams and expenses *)

Lemma sum_acc {A : Type} (f : A -> Q) (l : list A) (acc : Q) :
  fold_left (fun a e => a + f e) l acc == acc + Js.sum f l.
Proof.
  unfold Js.sum. revert acc.
  induction l as [| e l IH]; intro acc; simpl.
  - lra.
  - rewrite IH. rewrite (IH (0 + f e)). lra.
Qed.

Lemma sum_cons {A : Type} (f : A -> Q) (e : A) (l : list A) :
  Js.sum f (e :: l) == f e + Js.sum f l.
Proof. unfold Js.sum at 1. simpl. rewrite sum_acc. lra. Qed.

Lemma sum_partition {A : Type} (f : A -> Q) (p : A -> bool) (l : list A) :
  Js.sum f l == Js.sum f (filter p l) + Js.sum f (filter (fun e => negb (p e)) l).
Proof.
  induction l as [| e l IH]; simpl.
  - reflexivity.
  - rewrite sum_cons, IH. destruct (p e); simpl; rewrite sum_cons; lra.
Qed.

Lemma filter_sum_nonneg (p : IncomeStreamData.t -> bool) (input : RuleInput.t) :
  validInput input ->
  0 <= Js.sum IncomeStreamData.grossAmount (filter p (RuleInput.incomeStreams input)).
Proof.
  intros [Hs _]. apply sum_nonneg. apply Forall_forall. intros s Hin.
  apply filter_In in Hin. destruct Hin as [Hin _].
  rewrite Forall_forall in Hs. destruct (Hs s Hin) as [Hg _]. exact Hg.
Qed.

(** X1. For non-negative amounts neither the business income nor the
    employment income exceeds the gross income.  When every gross amount is
    a whole number of pesos and the gross income is within
    [MAX_SAFE_INTEGER], the gross income is split, without remainder, into
    business income and employment income. *)
Theorem grossIncome_splits (input : RuleInput.t) :
  validInput input ->
  let cv := TaxComputationRule.execute input in
  ComputedValues.businessIncome cv <= ComputedValues.grossIncome cv /\
  ComputedValues.employmentIncome cv <= ComputedValues.grossIncome cv /\
  (wholePesos input ->
   ComputedValues.grossIncome cv <= MAX_SAFE_INTEGER ->
   ComputedValues.grossIncome cv
   == ComputedValues.businessIncome cv + ComputedValues.employmentIncome cv).
Proof.
  intro Hvalid. cbv zeta.
  pose proof (filter_sum_nonneg
                (fun stream => isEmployment (IncomeStreamData.incomeType stream))
                input Hvalid) as He.
  pose proof (filter_sum_nonneg
                (fun stream => negb (isEmployment (IncomeStreamData.incomeType stream)))
                input Hvalid) as Hb.
  pose proof (sum_partition IncomeStreamData.grossAmount
                (fun stream => isEmployment (IncomeStreamData.incomeType stream))
                (RuleInput.incomeStreams input)) as Hsplit.
  cbv beta in Hsplit.
  unfold TaxComputationRule.execute.
  destruct (regimeIs (RuleInput.selectedRegime input) EIGHT_PERCENT_FLAT); simpl;
    unfold TaxComputationRule.calculateGrossIncome,
      TaxComputationRule.calculateBusinessIncome,
      TaxComputationRule.calculateEmploymentIncome;
    repeat split; intros; lra.
Qed.

Lemma grossIncome_splits_witness :
  validInput mixedFlat /\
  wholePesos mixedFlat /\
  ComputedValues.grossIncome (TaxComputationRule.execute mixedFlat) == 800000 /\
  ComputedValues.businessIncome (TaxComputationRule.execute mixedFlat) == 300000 /\
  ComputedValues.employmentIncome (TaxComputationRule.execute mixedFlat) == 500000.
Proof.
  assert (Hvalid : validInput mixedFlat).
  { split; repeat constructor; simpl; lra. }
  assert (Hwhole : wholePesos mixedFlat).
  { repeat constructor; simpl; [exists 500000%Z | exists 300000%Z]; reflexivity. }
  assert (Hb : ComputedValues.businessIncome (TaxComputationRule.execute mixedFlat)
               == 300000) by (vm_compute; reflexivity).
  assert (He : ComputedValues.employmentIncome (TaxComputationRule.execute mixedFlat)
               == 500000) by (vm_compute; reflexivity).
  destruct (grossIncome_splits mixedFlat Hvalid) as [_ [_ Hsplit]].
  assert (Hsafe : ComputedValues.grossIncome (TaxComputationRule.execute mixedFlat)
                  <= MAX_SAFE_INTEGER) by (vm_compute; discriminate).
  specialize (Hsplit Hwhole Hsafe). rewrite Hb, He in Hsplit.
  split; [exact Hvalid |].
  split; [exact Hwhole |].
  split; [rewrite Hsplit; reflexivity |].
  split; [exact Hb | exact He].
Defined.

(** ** The bracket loop *)

Ltac leb_cases :=
  repeat match goal with
  | |- context [Js.leb ?a ?b] =>
      let E := fresh "E" in
      destruct (Js.leb a b) eqn:E; [apply leb_le in E | apply leb_gt in E]
  end.

Ltac max_cases :=
  repeat match goal with
  | |- context [Js.Math_max ?a ?b] =>
      let H := fresh "H" in
      destruct (Math_max_cases a b) as [[H ->] | [H ->]]
  end.

(** X2. The graduated tax is 0 up to a taxable income of 250,001 and positive
    above it. *)
Theorem graduated_tax_zero_threshold (t : Q) :
  (t <= 250001 -> TaxComputationRule.applyGraduatedRates t == 0) /\
  (250001 < t -> 0 < TaxComputationRule.applyGraduatedRates t).
Proof.
  unfold TaxComputationRule.applyGraduatedRates, GRADUATED_TAX_BRACKETS_2023. simpl.
  split; intro Ht; leb_cases; max_cases; lra.
Qed.

Lemma applyGraduatedRates_monotone (t1 t2 : Q) :
  t1 <= t2 ->
  TaxComputationRule.applyGraduatedRates t1 <= TaxComputationRule.applyGraduatedRates t2.
Proof.
  intro Hle.
  unfold TaxComputationRule.applyGraduatedRates, GRADUATED_TAX_BRACKETS_2023. simpl.
  leb_cases; max_cases; lra.
Qed.

Lemma applyGraduatedRates_top_rate (t : Q) :
  0 <= t -> TaxComputationRule.applyGraduatedRates t <= 0.35 * t.
Proof.
  intro Hpos.
  unfold TaxComputationRule.applyGraduatedRates, GRADUATED_TAX_BRACKETS_2023. simpl.
  leb_cases; max_cases; lra.
Qed.

(** X3. The graduated tax never decreases when the taxable income rises. *)
Theorem graduated_tax_monotone (t1 t2 : Q) :
  t1 <= t2 ->
  TaxComputationRule.applyGraduatedRates t1 <= TaxComputationRule.applyGraduatedRates t2.
Proof. exact (applyGraduatedRates_monotone t1 t2). Qed.

Lemma graduated_tax_monotone_witness :
  399999 <= 400000 /\
  TaxComputationRule.applyGraduatedRates 399999
  <= TaxComputationRule.applyGraduatedRates 400000.
Proof.
  assert (H : 399999 <= 400000) by lra.
  split; [exact H | exact (graduated_tax_monotone 399999 400000 H)].
Defined.

(** X4. On a taxable income between 0 and [MAX_SAFE_INTEGER] the graduated
    tax stays within the top marginal rate of 35% of that income. *)
Theorem graduated_tax_below_top_rate (t : Q) :
  0 <= t -> t <= MAX_SAFE_INTEGER ->
  TaxComputationRule.applyGraduatedRates t <= 0.35 * t.
Proof. intros Hpos _. exact (applyGraduatedRates_top_rate t Hpos). Qed.

Lemma graduated_tax_below_top_rate_witness :
  0 <= 10000000 /\ 10000000 <= MAX_SAFE_INTEGER /\
  TaxComputationRule.applyGraduatedRates 10000000 <= 0.35 * 10000000.
Proof.
  assert (H : 0 <= 10000000) by lra.
  assert (Hsafe : 10000000 <= MAX_SAFE_INTEGER) by (unfold MAX_SAFE_INTEGER; lra).
  split; [exact H | split; [exact Hsafe |]].
  exact (graduated_tax_below_top_rate 10000000 H Hsafe).
Defined.

(** ** Taxable income and the two regimes *)

Lemma businessIncome_nonneg (input : RuleInput.t) :
  validInput input -> 0 <= TaxComputationRule.calculateBusinessIncome input.
Proof.
  intros [Hs _]. unfold TaxComputationRule.calculateBusinessIncome.
  apply sum_nonneg. apply Forall_forall. intros s Hin.
  apply filter_In in Hin. destruct Hin as [Hin _].
  rewrite Forall_forall in Hs. destruct (Hs s Hin) as [Hg _]. exact Hg.
Qed.

(** X5. For non-negative amounts the taxable income lies between 0 and the
    business income, and outside the flat regime it is at most what the 40%
    standard deduction leaves of the business income,
    [businessIncome - businessIncome * 0.40]: the deduction applied is never
    less than the standard one. *)
Theorem taxableIncome_bounds (input : RuleInput.t) :
  validInput input ->
  let cv := TaxComputationRule.execute input in
  0 <= ComputedValues.taxableIncome cv /\
  ComputedValues.taxableIncome cv <= ComputedValues.businessIncome cv /\
  (RuleInput.selectedRegime input <> Some EIGHT_PERCENT_FLAT ->
   ComputedValues.taxableIncome cv
   <= ComputedValues.businessIncome cv - ComputedValues.businessIncome cv * 0.40).
Proof.
  intros Hvalid. cbv zeta.
  pose proof (businessIncome_nonneg input Hvalid) as Hb.
  unfold TaxComputationRule.execute.
  destruct (regimeIs (RuleInput.selectedRegime input) EIGHT_PERCENT_FLAT) eqn:Eflat; simpl.
  - set (b := TaxComputationRule.calculateBusinessIncome input) in *.
    unfold TAX_THRESHOLDS.PERSONAL_EXEMPTION_THRESHOLD.
    repeat split.
    + apply Math_max_0_nonneg.
    + destruct (Math_max_cases 0 (b - 250000)) as [[H ->] | [H ->]]; lra.
    + intro Hne. exfalso. apply Hne.
      destruct (RuleInput.selectedRegime input) as [[| |]|]; try discriminate Eflat.
      reflexivity.
  - set (b := TaxComputationRule.calculateBusinessIncome input) in *.
    set (d := TaxComputationRule.calculateTotalDeductions input).
    unfold TAX_THRESHOLDS.OSD_RATE, Js.geb.
    destruct (Js.leb d (b * 0.40)) eqn:E; [apply leb_le in E | apply leb_gt in E];
      match goal with
      | |- context [Js.Math_max 0 ?x] =>
          destruct (Math_max_cases 0 x) as [[H ->] | [H ->]]
      end; repeat split; intros; lra.
Qed.

Lemma taxableIncome_bounds_witness :
  validInput graduatedFifteenCentavos /\
  ComputedValues.taxableIncome (TaxComputationRule.execute graduatedFifteenCentavos)
  <= ComputedValues.businessIncome (TaxComputationRule.execute graduatedFifteenCentavos)
     - ComputedValues.businessIncome (TaxComputationRule.execute graduatedFifteenCentavos)
       * 0.40.
Proof.
  assert (Hvalid : validInput graduatedFifteenCentavos).
  { split; repeat constructor; simpl; lra. }
  split; [exact Hvalid |].
  destruct (taxableIncome_bounds graduatedFifteenCentavos Hvalid) as [_ [_ H]].
  apply H. discriminate.
Defined.

(** ** The regime comparison *)

Lemma recommendation_flat_inv (env : HostEnv) (input : RuleInput.t) :
  RegimeComparisonResult.recommendation (RegimeDeterminationRule.execute env input)
  = EIGHT_PERCENT_FLAT ->
  RegimeComparisonResult.eligible8Percent (RegimeDeterminationRule.execute env input) = true /\
  Js.div_gt (RegimeDeterminationRule.calculateTotalDeductions input)
            (RegimeDeterminationRule.calculateBusinessIncome input) 0.4 = false /\
  RegimeDeterminationRule.calculate8PercentTax
    (RegimeDeterminationRule.calculateBusinessIncome input)
  < RegimeDeterminationRule.calculateGraduatedTax
      (RegimeDeterminationRule.calculateBusinessIncome input)
      (RegimeDeterminationRule.calculateTotalDeductions input).
Proof.
  unfold RegimeDeterminationRule.execute.
  set (e := RegimeDeterminationRule.checkEligibility env input).
  destruct (fst e) eqn:E; simpl.
  - destruct (Js.div_gt _ _ _) eqn:Ed; [simpl; discriminate |].
    destruct (Js.ltb _ _) eqn:El; simpl; [| discriminate].
    intros _. repeat split. apply ltb_lt. exact El.
  - discriminate.
Qed.

Lemma flatEstimate_eligible (env : HostEnv) (input : RuleInput.t) :
  RegimeComparisonResult.eligible8Percent (RegimeDeterminationRule.execute env input) = true ->
  flatEstimate (RegimeDeterminationRule.execute env input)
  = RegimeDeterminationRule.calculate8PercentTax
      (RegimeDeterminationRule.calculateBusinessIncome input).
Proof.
  unfold flatEstimate, RegimeDeterminationRule.execute.
  set (e := RegimeDeterminationRule.checkEligibility env input).
  destruct (fst e) eqn:E; simpl.
  - destruct (Js.div_gt _ _ _); [reflexivity |].
    destruct (Js.ltb _ _); reflexivity.
  - discriminate.
Qed.

Lemma graduatedEstimate_eq (env : HostEnv) (input : RuleInput.t) :
  graduatedEstimate (RegimeDeterminationRule.execute env input)
  = RegimeDeterminationRule.calculateGraduatedTax
      (RegimeDeterminationRule.calculateBusinessIncome input)
      (RegimeDeterminationRule.calculateTotalDeductions input).
Proof.
  unfold graduatedEstimate, RegimeDeterminationRule.execute.
  destruct (negb _); [reflexivity |].
  destruct (Js.div_gt _ _ _); [reflexivity |].
  destruct (Js.ltb _ _); reflexivity.
Qed.

(** X6. The flat regime is recommended only to an eligible taxpayer whose flat
    estimate is strictly below the graduated one, and then the business
    income lies above 937,505 and at most at 3,000,000. *)
Theorem flat_recommended_only_when_cheaper (env : HostEnv) (input : RuleInput.t) :
  RegimeComparisonResult.recommendation (RegimeDeterminationRule.execute env input)
  = EIGHT_PERCENT_FLAT ->
  let rc := RegimeDeterminationRule.execute env input in
  RegimeComparisonResult.eligible8Percent rc = true /\
  flatEstimate rc < graduatedEstimate rc /\
  937505 < RegimeDeterminationRule.calculateBusinessIncome input <= 3000000.
Proof.
  intros Hrec. cbv zeta.
  destruct (recommendation_flat_inv env input Hrec) as [Helig [_ Hlt]].
  rewrite (flatEstimate_eligible env input Helig), graduatedEstimate_eq.
  split; [exact Helig | split; [exact Hlt |]].
  rewrite eligible8Percent_eq in Helig. apply andb_true_iff in Helig.
  destruct Helig as [_ Hvat]. rewrite negb_true_iff in Hvat.
  unfold Js.gtb, Js.ltb in Hvat. rewrite negb_false_iff in Hvat. apply leb_le in Hvat.
  unfold TAX_THRESHOLDS.VAT_THRESHOLD in Hvat.
  split; [| exact Hvat].
  set (b := RegimeDeterminationRule.calculateBusinessIncome input) in *.
  set (d := RegimeDeterminationRule.calculateTotalDeductions input) in *.
  apply Qnot_le_lt. intro Hlow. revert Hlt.
  unfold RegimeDeterminationRule.calculate8PercentTax,
    RegimeDeterminationRule.calculateGraduatedTax,
    RegimeDeterminationRule.applyGraduatedRates, GRADUATED_TAX_BRACKETS_2023,
    TAX_THRESHOLDS.OSD_RATE, TAX_THRESHOLDS.PERSONAL_EXEMPTION_THRESHOLD,
    TAX_THRESHOLDS.EIGHT_PERCENT_RATE.
  simpl.
  destruct (Math_max_cases d (b * 0.40)) as [[Hd ->] | [Hd ->]];
    repeat match goal with
    | |- context [Js.Math_max 0 (b - ?x)] =>
        let H := fresh "H" in
        destruct (Math_max_cases 0 (b - x)) as [[H ->] | [H ->]]
    end;
    leb_cases; max_cases; lra.
Qed.

Lemma flat_recommended_only_when_cheaper_witness :
  RegimeComparisonResult.recommendation (RegimeDeterminationRule.execute utcHost undetermined2M)
  = EIGHT_PERCENT_FLAT /\
  flatEstimate (RegimeDeterminationRule.execute utcHost undetermined2M)
  < graduatedEstimate (RegimeDeterminationRule.execute utcHost undetermined2M).
Proof.
  assert (H : RegimeComparisonResult.recommendation
                (RegimeDeterminationRule.execute utcHost undetermined2M)
              = EIGHT_PERCENT_FLAT) by (vm_compute; reflexivity).
  split; [exact H |].
  destruct (flat_recommended_only_when_cheaper utcHost undetermined2M H) as [_ [Hlt _]].
  exact Hlt.
Defined.

Lemma rates_eq (env : HostEnv) (input : RuleInput.t) :
  let b := RegimeDeterminationRule.calculateBusinessIncome input in
  flatRate (RegimeDeterminationRule.execute env input)
  = (if Js.gtb b 0 then RegimeDeterminationRule.calculate8PercentTax b / b else 0) /\
  graduatedRate (RegimeDeterminationRule.execute env input)
  = (if Js.gtb b 0
     then RegimeDeterminationRule.calculateGraduatedTax b
            (RegimeDeterminationRule.calculateTotalDeductions input) / b
     else 0).
Proof.
  cbv zeta. unfold flatRate, graduatedRate, RegimeDeterminationRule.execute.
  destruct (negb _); [split; reflexivity |].
  destruct (Js.div_gt _ _ _); [split; reflexivity |].
  destruct (Js.ltb _ _); split; reflexivity.
Qed.

(** X7. For a business income up to [MAX_SAFE_INTEGER] the effective rates
    reported by the regime comparison are bounded: the flat one lies in
    [0, 0.08) and the graduated one in [0, 0.21], 35% of the 60% left after
    the standard deduction.  For a business income of 0 or less both rates
    are 0: the quotient is not taken. *)
Theorem effective_rates_bounded (env : HostEnv) (input : RuleInput.t) :
  RegimeDeterminationRule.calculateBusinessIncome input <= MAX_SAFE_INTEGER ->
  let rc := RegimeDeterminationRule.execute env input in
  0 <= flatRate rc /\ flatRate rc < 0.08 /\
  0 <= graduatedRate rc /\ graduatedRate rc <= 0.21 /\
  (RegimeDeterminationRule.calculateBusinessIncome input <= 0 ->
   flatRate rc == 0 /\ graduatedRate rc == 0).
Proof.
  intros _. cbv zeta. destruct (rates_eq env input) as [-> ->].
  set (b := RegimeDeterminationRule.calculateBusinessIncome input).
  set (d := RegimeDeterminationRule.calculateTotalDeductions input).
  destruct (Js.gtb b 0) eqn:Eb; [| repeat split; intros; lra].
  apply gtb_lt in Eb.
  assert (Hflat : 0 <= RegimeDeterminationRule.calculate8PercentTax b
                  /\ RegimeDeterminationRule.calculate8PercentTax b < 0.08 * b).
  { unfold RegimeDeterminationRule.calculate8PercentTax,
      TAX_THRESHOLDS.PERSONAL_EXEMPTION_THRESHOLD, TAX_THRESHOLDS.EIGHT_PERCENT_RATE.
    max_cases; lra. }
  assert (Hgrad : 0 <= RegimeDeterminationRule.calculateGraduatedTax b d
                  /\ RegimeDeterminationRule.calculateGraduatedTax b d <= 0.21 * b).
  { unfold RegimeDeterminationRule.calculateGraduatedTax.
    rewrite applyGraduatedRates_shared. split; [apply applyGraduatedRates_nonneg |].
    set (t := Js.Math_max 0 _).
    assert (Ht : 0 <= t /\ t <= 0.6 * b).
    { subst t. unfold TAX_THRESHOLDS.OSD_RATE.
      destruct (Math_max_cases d (b * 0.40)) as [[Hd ->] | [Hd ->]]; max_cases; lra. }
    pose proof (applyGraduatedRates_top_rate t (proj1 Ht)). lra. }
  destruct Hflat as [Hf0 Hf1]. destruct Hgrad as [Hg0 Hg1].
  split; [apply Qle_shift_div_l; lra |].
  split; [apply Qlt_shift_div_r; lra |].
  split; [apply Qle_shift_div_l; lra |].
  split; [apply Qle_shift_div_r; lra |].
  intro Hle. lra.
Qed.

Lemma effective_rates_bounded_witness :
  RegimeDeterminationRule.calculateBusinessIncome undetermined2M <= MAX_SAFE_INTEGER /\
  flatRate (RegimeDeterminationRule.execute utcHost undetermined2M) == 0.07 /\
  flatRate (RegimeDeterminationRule.execute utcHost undetermined2M) < 0.08 /\
  graduatedRate (RegimeDeterminationRule.execute utcHost undetermined2M) <= 0.21.
Proof.
  assert (Hsafe : RegimeDeterminationRule.calculateBusinessIncome undetermined2M
                  <= MAX_SAFE_INTEGER) by (vm_compute; discriminate).
  split; [exact Hsafe |].
  split; [vm_compute; reflexivity |].
  destruct (effective_rates_bounded utcHost undetermined2M Hsafe)
    as [_ [Hflat [_ [Hgrad _]]]].
  split; [exact Hflat | exact Hgrad].
Defined.

(** ** The comparison against the computation *)

Lemma estimatedTax_by_regime (input : RuleInput.t) :
  ComputedValues.estimatedTax (TaxComputationRule.execute input)
  = if regimeIs (RuleInput.selectedRegime input) EIGHT_PERCENT_FLAT
    then RegimeDeterminationRule.calculate8PercentTax
           (RegimeDeterminationRule.calculateBusinessIncome input)
    else RegimeDeterminationRule.calculateGraduatedTax
           (RegimeDeterminationRule.calculateBusinessIncome input)
           (RegimeDeterminationRule.calculateTotalDeductions input).
Proof.
  unfold TaxComputationRule.execute.
  destruct (regimeIs (RuleInput.selectedRegime input) EIGHT_PERCENT_FLAT); reflexivity.
Qed.

(** X8. When the regime is left undetermined, the tax an assessment computes is
    the estimate its regime comparison shows for the regime it recommends. *)
Theorem assessment_tax_is_recommended_estimate
    (env : HostEnv) (self : RulesEngineService.t) (input : RuleInput.t) :
  RuleInput.selectedRegime input = Some UNDETERMINED ->
  let out := snd (RulesEngineService.runAssessment env self input) in
  let rc := AssessmentOutput.regimeComparison out in
  AssessmentOutput.recommendedRegime out = Some (RegimeComparisonResult.recommendation rc) /\
  ComputedValues.estimatedTax (AssessmentOutput.computedValues out)
  = match RegimeComparisonResult.recommendation rc with
    | EIGHT_PERCENT_FLAT => flatEstimate rc
    | _ => graduatedEstimate rc
    end.
Proof.
  intro Hsel. cbv zeta.
  change (AssessmentOutput.regimeComparison
            (snd (RulesEngineService.runAssessment env self input)))
    with (RegimeDeterminationRule.execute env input).
  rewrite runAssessment_recommendedRegime.
  change (AssessmentOutput.computedValues
            (snd (RulesEngineService.runAssessment env self input)))
    with (TaxComputationRule.execute
            (RuleInput.withSelectedRegime input
               (RulesEngineService.effectiveRegime input
                  (RegimeDeterminationRule.execute env input)))).
  unfold RulesEngineService.effectiveRegime. rewrite Hsel. simpl negb. cbv iota.
  split; [reflexivity |].
  rewrite estimatedTax_by_regime. simpl RuleInput.selectedRegime.
  change (RegimeDeterminationRule.calculateBusinessIncome
            (RuleInput.withSelectedRegime input _))
    with (RegimeDeterminationRule.calculateBusinessIncome input).
  change (RegimeDeterminationRule.calculateTotalDeductions
            (RuleInput.withSelectedRegime input _))
    with (RegimeDeterminationRule.calculateTotalDeductions input).
  rewrite graduatedEstimate_eq.
  destruct (RegimeComparisonResult.recommendation (RegimeDeterminationRule.execute env input))
    eqn:Erec; simpl; try reflexivity.
  destruct (recommendation_flat_inv env input Erec) as [Helig _].
  rewrite (flatEstimate_eligible env input Helig). reflexivity.
Qed.

Lemma assessment_tax_is_recommended_estimate_witness :
  RuleInput.selectedRegime undetermined2M = Some UNDETERMINED /\
  AssessmentOutput.recommendedRegime
    (snd (RulesEngineService.runAssessment utcHost (RulesEngineService.mk []) undetermined2M))
  = Some (RegimeComparisonResult.recommendation
            (AssessmentOutput.regimeComparison
               (snd (RulesEngineService.runAssessment utcHost (RulesEngineService.mk [])
                       undetermined2M)))).
Proof.
  split; [reflexivity |].
  destruct (assessment_tax_is_recommended_estimate utcHost (RulesEngineService.mk [])
              undetermined2M eq_refl) as [H _].
  exact H.
Defined.

(** X9. A concrete selection is taken as it is: for a taxpayer who selected the
    flat regime with a business income above 3,000,000 the assessment
    reports [eligible8Percent = false] and recommends graduated rates in its
    comparison, and still settles on the flat regime and computes 8% of the
    income above 250,000. *)
Theorem selection_overrides_eligibility
    (env : HostEnv) (self : RulesEngineService.t) (input : RuleInput.t) :
  RuleInput.selectedRegime input = Some EIGHT_PERCENT_FLAT ->
  3000000 < RegimeDeterminationRule.calculateBusinessIncome input ->
  let out := snd (RulesEngineService.runAssessment env self input) in
  let rc := AssessmentOutput.regimeComparison out in
  RegimeComparisonResult.eligible8Percent rc = false /\
  RegimeComparisonResult.recommendation rc = GRADUATED_RATES /\
  flatEstimate rc = 0 /\
  AssessmentOutput.recommendedRegime out = Some EIGHT_PERCENT_FLAT /\
  ComputedValues.estimatedTax (AssessmentOutput.computedValues out)
  == (RegimeDeterminationRule.calculateBusinessIncome input - 250000) * 0.08.
Proof.
  intros Hsel Habove. cbv zeta.
  change (AssessmentOutput.regimeComparison
            (snd (RulesEngineService.runAssessment env self input)))
    with (RegimeDeterminationRule.execute env input).
  rewrite runAssessment_recommendedRegime.
  change (AssessmentOutput.computedValues
            (snd (RulesEngineService.runAssessment env self input)))
    with (TaxComputationRule.execute
            (RuleInput.withSelectedRegime input
               (RulesEngineService.effectiveRegime input
                  (RegimeDeterminationRule.execute env input)))).
  assert (Helig : RegimeComparisonResult.eligible8Percent
                    (RegimeDeterminationRule.execute env input) = false).
  { rewrite eligible8Percent_eq.
    assert (Hgt : Js.gtb (RegimeDeterminationRule.calculateBusinessIncome input)
                    TAX_THRESHOLDS.VAT_THRESHOLD = true) by (apply gtb_lt; exact Habove).
    rewrite Hgt. apply andb_false_r. }
  split; [exact Helig |].
  split; [apply recommendation_ineligible; exact Helig |].
  split.
  { revert Helig. unfold flatEstimate, RegimeDeterminationRule.execute.
    set (e := RegimeDeterminationRule.checkEligibility env input).
    destruct (fst e); simpl.
    - destruct (Js.div_gt _ _ _); [simpl; discriminate |].
      destruct (Js.ltb _ _); simpl; discriminate.
    - reflexivity. }
  unfold RulesEngineService.effectiveRegime. rewrite Hsel. simpl negb. cbv iota.
  split; [reflexivity |].
  rewrite estimatedTax_by_regime. simpl RuleInput.selectedRegime. simpl regimeIs. cbv iota.
  change (RegimeDeterminationRule.calculateBusinessIncome
            (RuleInput.withSelectedRegime input _))
    with (RegimeDeterminationRule.calculateBusinessIncome input).
  unfold RegimeDeterminationRule.calculate8PercentTax,
    TAX_THRESHOLDS.PERSONAL_EXEMPTION_THRESHOLD, TAX_THRESHOLDS.EIGHT_PERCENT_RATE.
  max_cases; lra.
Qed.

Lemma selection_overrides_eligibility_witness :
  RuleInput.selectedRegime flatAboveVat = Some EIGHT_PERCENT_FLAT /\
  3000000 < RegimeDeterminationRule.calculateBusinessIncome flatAboveVat /\
  AssessmentOutput.recommendedRegime
    (snd (RulesEngineService.runAssessment utcHost (RulesEngineService.mk []) flatAboveVat))
  = Some EIGHT_PERCENT_FLAT.
Proof.
  assert (H : 3000000 < RegimeDeterminationRule.calculateBusinessIncome flatAboveVat)
    by (vm_compute; reflexivity).
  split; [reflexivity | split; [exact H |]].
  destruct (selection_overrides_eligibility utcHost (RulesEngineService.mk [])
              flatAboveVat eq_refl H) as [_ [_ [_ [Hreg _]]]].
  exact Hreg.
Defined.

(** ** Weekend adjustment *)

(** X10. [adjustForWeekend] returns a day from Monday to Friday, never earlier
    than its argument and at most two days later; when it moves the date,
    the result is a Monday. *)
Theorem adjustForWeekend_weekday (date : Z) :
  let adjusted := DeadlineCalculationRule.adjustForWeekend date in
  (1 <= JsDate.getDay adjusted <= 5)%Z /\
  (date <= adjusted <= date + 2)%Z /\
  (adjusted = date \/ JsDate.getDay adjusted = 1%Z).
Proof.
  cbv zeta. unfold DeadlineCalculationRule.adjustForWeekend, JsDate.addDays, JsDate.getDay.
  destruct (Z.eqb_spec ((date + 4) mod 7) 0) as [E0 | E0];
    [| destruct (Z.eqb_spec ((date + 4) mod 7) 6) as [E6 | E6]].
  - repeat split; try right; Z.div_mod_to_equations; lia.
  - repeat split; try right; Z.div_mod_to_equations; lia.
  - repeat split; try (left; reflexivity); Z.div_mod_to_equations; lia.
Qed.

(** ** Calendar dates of the deadlines *)

Lemma civil_round_trip (z : Z) :
  let '(y, m, d) := JsDate.civil_from_days z in JsDate.days_from_civil y m d = z.
Proof.
  unfold JsDate.civil_from_days, JsDate.days_from_civil. cbv zeta.
  remember (z + 719468)%Z as zz eqn:Hzz.
  remember (zz / 146097)%Z as era eqn:Hera.
  remember (zz - era * 146097)%Z as doe eqn:Hdoe_eq.
  assert (Hdoe : (0 <= doe < 146097)%Z) by (subst doe era; Z.div_mod_to_equations; lia).
  remember ((doe - doe / 1460 + doe / 36524 - doe / 146096) / 365)%Z as yoe eqn:Hyoe_eq.
  assert (Hyoe : (0 <= yoe <= 399)%Z) by (subst yoe; Z.div_mod_to_equations; lia).
  remember (doe - (365 * yoe + yoe / 4 - yoe / 100))%Z as doy eqn:Hdoy_eq.
  assert (Hdoy : (0 <= doy <= 365)%Z).
  { subst doy yoe. Z.div_mod_to_equations. lia. }
  clear Hyoe_eq Hera.
  remember ((5 * doy + 2) / 153)%Z as mp eqn:Hmp_eq.
  assert (Hmp : (0 <= mp <= 11)%Z) by (subst mp; Z.div_mod_to_equations; lia).
  destruct (Z.ltb_spec mp 10); destruct (Z.leb_spec (mp + 3) 2);
    destruct (Z.leb_spec (mp - 9) 2); try lia.
  all: subst mp; Z.div_mod_to_equations; lia.
Qed.

Lemma isoDate_dayNumber (env : HostEnv) (local : Z) :
  dueDayNumber (JsDate.isoDate env local)
  = Some ((local * 1440 - tzOffsetMinutes env) / 1440)%Z.
Proof.
  unfold JsDate.isoDate.
  pose proof (civil_round_trip ((local * 1440 - tzOffsetMinutes env) / 1440)) as H.
  destruct (JsDate.civil_from_days _) as [[y m] d]. simpl. rewrite H. reflexivity.
Qed.

Lemma deadlines_push_Forall (P : Deadline.t -> Prop) (st : DeadlineCalculationRule.State)
    (f : string -> Deadline.t) :
  Forall P (fst st) -> (forall i, P (f i)) ->
  Forall P (fst (DeadlineCalculationRule.push st f)).
Proof.
  intros Hst Hf. unfold DeadlineCalculationRule.push. simpl.
  apply Forall_app. split; [exact Hst | constructor; [apply Hf | constructor]].
Qed.

Lemma adjusted_fromAdjustedDay (env : HostEnv) (date : Z) :
  fromAdjustedDay env (JsDate.isoDate env (DeadlineCalculationRule.adjustForWeekend date)).
Proof.
  right. exists (DeadlineCalculationRule.adjustForWeekend date).
  split; [| reflexivity].
  unfold DeadlineCalculationRule.adjustForWeekend, JsDate.addDays, JsDate.getDay.
  destruct (Z.eqb_spec ((date + 4) mod 7) 0) as [E0 | E0];
    [| destruct (Z.eqb_spec ((date + 4) mod 7) 6) as [E6 | E6]];
    Z.div_mod_to_equations; lia.
Qed.

Lemma obligationStep_fromAdjustedDay env input st (o : Obligation.t) :
  Forall (fun d => fromAdjustedDay env (Deadline.dueDate d)) (fst st) ->
  Forall (fun d => fromAdjustedDay env (Deadline.dueDate d))
    (fst (DeadlineCalculationRule.obligationStep env input st o)).
Proof.
  intro Hst. unfold DeadlineCalculationRule.obligationStep. cbv zeta.
  set (config := FILING_DEADLINES (Obligation.formCode o)).
  assert (Hq : Forall (fun d => fromAdjustedDay env (Deadline.dueDate d))
                 (fst (DeadlineCalculationRule.quarterlyBranch env input o config st))).
  { unfold DeadlineCalculationRule.quarterlyBranch.
    destruct (Obligation.frequency o); try exact Hst.
    destruct config as [cfg |]; [| exact Hst].
    assert (Hfold : forall quarters s,
      Forall (fun d => fromAdjustedDay env (Deadline.dueDate d)) (fst s) ->
      Forall (fun d => fromAdjustedDay env (Deadline.dueDate d))
        (fst (fold_left (DeadlineCalculationRule.quarterStep env input o cfg) quarters s))).
    { induction quarters as [| q rest IH]; intros s Hs; simpl; [exact Hs |].
      apply IH. unfold DeadlineCalculationRule.quarterStep.
      destruct (DeadlineCalculationRule.quarterDeadline _ q); [| exact Hs].
      apply deadlines_push_Forall; [exact Hs |].
      intro i. simpl. unfold DeadlineCalculationRule.calculateDueDate.
      apply adjusted_fromAdjustedDay. }
    apply Hfold. exact Hst. }
  assert (Ha : Forall (fun d => fromAdjustedDay env (Deadline.dueDate d))
                 (fst (DeadlineCalculationRule.annualBranch env input o config
                         (DeadlineCalculationRule.quarterlyBranch env input o config st)))).
  { unfold DeadlineCalculationRule.annualBranch. cbv zeta.
    destruct (_ || _); [| exact Hq].
    apply deadlines_push_Forall; [exact Hq |].
    intro i. simpl. unfold DeadlineCalculationRule.calculateDueDate.
    apply adjusted_fromAdjustedDay. }
  assert (Hf : Forall (fun d => fromAdjustedDay env (Deadline.dueDate d))
                 (fst (DeadlineCalculationRule.registrationFeeBranch env input o
                   (DeadlineCalculationRule.annualBranch env input o config
                     (DeadlineCalculationRule.quarterlyBranch env input o config st))))).
  { unfold DeadlineCalculationRule.registrationFeeBranch. cbv zeta.
    destruct (String.eqb _ _); [| exact Ha].
    apply deadlines_push_Forall; [exact Ha |].
    intro i. simpl. apply adjusted_fromAdjustedDay. }
  unfold DeadlineCalculationRule.registrationBranch.
  destruct (String.eqb _ _); [| exact Hf].
  apply deadlines_push_Forall; [exact Hf |].
  intro i. left. reflexivity.
Qed.

Lemma execute_fromAdjustedDay env input (obligations : list Obligation.t) :
  Forall (fun d => fromAdjustedDay env (Deadline.dueDate d))
    (DeadlineCalculationRule.execute env input obligations).
Proof.
  apply Forall_forall. intros d Hin.
  unfold DeadlineCalculationRule.execute in Hin.
  apply (proj1 (sortDeadlines_In _ _)) in Hin.
  revert d Hin. apply Forall_forall.
  unfold DeadlineCalculationRule.emitted.
  assert (Hfold : forall l st,
    Forall (fun d => fromAdjustedDay env (Deadline.dueDate d)) (fst st) ->
    Forall (fun d => fromAdjustedDay env (Deadline.dueDate d))
      (fst (fold_left (DeadlineCalculationRule.obligationStep env input) l st))).
  { induction l as [| o rest IH]; intros st Hst; simpl; [exact Hst |].
    apply IH. apply obligationStep_fromAdjustedDay. exact Hst. }
  apply Hfold. constructor.
Qed.

(** X11. On a host whose zone is UTC or west of it, every deadline carries the
    sentinel or a date from Monday to Friday. *)
Theorem deadline_dates_are_weekdays env input (obligations : list Obligation.t) :
  (-1440 < tzOffsetMinutes env <= 0)%Z ->
  Forall (fun d =>
            match dueDayNumber (Deadline.dueDate d) with
            | Some n => (1 <= JsDate.getDay n <= 5)%Z
            | None => Deadline.dueDate d = ASAP
            end)
    (DeadlineCalculationRule.execute env input obligations).
Proof.
  intro Htz.
  eapply Forall_impl; [| apply execute_fromAdjustedDay].
  intros d [Hasap | [local [Hday Hiso]]]; rewrite ?Hasap, ?Hiso; [reflexivity |].
  rewrite isoDate_dayNumber.
  replace ((local * 1440 - tzOffsetMinutes env) / 1440)%Z with local
    by (Z.div_mod_to_equations; lia).
  exact Hday.
Qed.

Lemma deadline_dates_are_weekdays_witness :
  (-1440 < tzOffsetMinutes utcHost <= 0)%Z /\
  Forall (fun d =>
            match dueDayNumber (Deadline.dueDate d) with
            | Some n => (1 <= JsDate.getDay n <= 5)%Z
            | None => Deadline.dueDate d = ASAP
            end)
    (DeadlineCalculationRule.execute utcHost freelancer2026 [quarterlyReturn]).
Proof.
  assert (H : (-1440 < tzOffsetMinutes utcHost <= 0)%Z) by (simpl; lia).
  split; [exact H |].
  exact (deadline_dates_are_weekdays utcHost freelancer2026 [quarterlyReturn] H).
Defined.

(** X12. On a host east of UTC every dated deadline carries the day before a
    weekend-adjusted local day, so it falls on a day from Sunday to
    Thursday. *)
Theorem deadline_dates_east_of_utc env input (obligations : list Obligation.t) :
  (0 < tzOffsetMinutes env < 1440)%Z ->
  Forall (fun d =>
            match dueDayNumber (Deadline.dueDate d) with
            | Some n => (1 <= JsDate.getDay (n + 1) <= 5)%Z /\ (0 <= JsDate.getDay n <= 4)%Z
            | None => Deadline.dueDate d = ASAP
            end)
    (DeadlineCalculationRule.execute env input obligations).
Proof.
  intro Htz.
  eapply Forall_impl; [| apply execute_fromAdjustedDay].
  intros d [Hasap | [local [Hday Hiso]]]; rewrite ?Hasap, ?Hiso; [reflexivity |].
  rewrite isoDate_dayNumber.
  replace ((local * 1440 - tzOffsetMinutes env) / 1440)%Z with (local - 1)%Z
    by (Z.div_mod_to_equations; lia).
  replace (local - 1 + 1)%Z with local by lia.
  split; [exact Hday |].
  unfold JsDate.getDay in *. Z.div_mod_to_equations. lia.
Qed.

(** Witness: in the zone of Manila the third-quarter deadline of 2026, moved
    from Sunday, November 15 to Monday, is reported as 2026-11-15. *)
Lemma deadline_dates_east_of_utc_witness :
  (0 < tzOffsetMinutes manilaHost < 1440)%Z /\
  map Deadline.dueDate
    (DeadlineCalculationRule.execute manilaHost freelancer2026 [quarterlyReturn])
  = [IsoDate 2026 5 14; IsoDate 2026 8 16; IsoDate 2026 11 15] /\
  Forall (fun d =>
            match dueDayNumber (Deadline.dueDate d) with
            | Some n => (1 <= JsDate.getDay (n + 1) <= 5)%Z /\ (0 <= JsDate.getDay n <= 4)%Z
            | None => Deadline.dueDate d = ASAP
            end)
    (DeadlineCalculationRule.execute manilaHost freelancer2026 [quarterlyReturn]).
Proof.
  assert (H : (0 < tzOffsetMinutes manilaHost < 1440)%Z) by (simpl; lia).
  split; [exact H | split; [vm_compute; reflexivity |]].
  exact (deadline_dates_east_of_utc manilaHost freelancer2026 [quarterlyReturn] H).
Defined.

(** ** Risk flags: which checks fire *)

Ltac codes_step :=
  unfold optional, RiskAssessmentRule.push; simpl;
  rewrite ?map_app; simpl; rewrite <- ?app_assoc; simpl; rewrite ?app_nil_r;
  reflexivity.

Lemma registrationRisks_codes env input st :
  map flagKind (fst (RiskAssessmentRule.registrationRisks env input st))
  = (map flagKind (fst st)
     ++ optional (RegistrationStatus_eqb (RuleInput.registrationStatus input) NOT_REGISTERED
                  && Js.gtb (grossReceipts input) 0) ("UNREG_WITH_INCOME", CPA_REVIEW_REQUIRED)
     ++ optional (RegistrationStatus_eqb (RuleInput.registrationStatus input) NEEDS_UPDATE)
          ("REG_NEEDS_UPDATE", WARNING))%list.
Proof.
  unfold RiskAssessmentRule.registrationRisks, grossReceipts. cbv zeta.
  destruct (RegistrationStatus_eqb _ NOT_REGISTERED);
    destruct (RegistrationStatus_eqb _ NEEDS_UPDATE);
    try destruct (Js.gtb _ 0); codes_step.
Qed.

Lemma thresholdRisks_codes env total st :
  map flagKind (fst (RiskAssessmentRule.thresholdRisks env total st))
  = (map flagKind (fst st)
     ++ optional (Js.geb total (TAX_THRESHOLDS.VAT_THRESHOLD * 0.8)
                  && Js.ltb total TAX_THRESHOLDS.VAT_THRESHOLD) ("APPROACHING_VAT_THRESHOLD", WARNING)
     ++ optional (Js.gtb total TAX_THRESHOLDS.VAT_THRESHOLD) ("EXCEEDS_VAT_THRESHOLD", CPA_REVIEW_REQUIRED))%list.
Proof.
  unfold RiskAssessmentRule.thresholdRisks. cbv zeta.
  destruct (Js.geb _ _ && Js.ltb _ _); destruct (Js.gtb _ _); codes_step.
Qed.

Lemma withholdingRisks_codes env input st :
  map flagKind
    (fst (RiskAssessmentRule.withholdingRisks env input (grossReceipts input) st))
  = (map flagKind (fst st)
     ++ optional (0 <? List.length
                    (filter (fun s => negb (IncomeStreamData.form2307Received s))
                       (filter IncomeStreamData.hasWithholding
                          (RuleInput.incomeStreams input))))%nat ("MISSING_2307", WARNING)
     ++ optional (Js.gtb (if Js.gtb (grossReceipts input) 0
                          then withheldTotal input / grossReceipts input else 0) 0.15
                  && Js.gtb (withheldTotal input) 50000) ("HIGH_WITHHOLDING", INFO))%list.
Proof.
  unfold RiskAssessmentRule.withholdingRisks, withheldTotal. cbv zeta.
  destruct (0 <? _)%nat; destruct (Js.gtb _ 0.15 && Js.gtb _ 50000); codes_step.
Qed.

Lemma regimeRisks_codes env input st :
  map flagKind
    (fst (RiskAssessmentRule.regimeRisks env input (grossReceipts input) st))
  = (map flagKind (fst st)
     ++ optional (regimeIs (RuleInput.selectedRegime input) UNDETERMINED)
          ("REGIME_NOT_SELECTED", WARNING)
     ++ optional (regimeIs (RuleInput.selectedRegime input) EIGHT_PERCENT_FLAT
                  && Js.gtb (if Js.gtb (grossReceipts input) 0
                             then deductibleTotal input / grossReceipts input else 0) 0.5)
          ("8PCT_HIGH_EXPENSES", INFO))%list.
Proof.
  unfold RiskAssessmentRule.regimeRisks, deductibleTotal. cbv zeta.
  destruct (regimeIs _ UNDETERMINED); destruct (regimeIs _ EIGHT_PERCENT_FLAT);
    try destruct (Js.gtb _ 0.5); codes_step.
Qed.

Lemma dataQualityRisks_codes input st :
  map flagKind (fst (RiskAssessmentRule.dataQualityRisks input (grossReceipts input) st))
  = (map flagKind (fst st)
     ++ optional (List.length (RuleInput.incomeStreams input) =? 0)%nat ("NO_INCOME_RECORDED", WARNING)
     ++ optional (UserType_eqb (RuleInput.userType input) MIXED_INCOME
                  && negb (RuleInput.hasEmploymentIncome input)
                  && negb (Js.some (fun s => isEmployment (IncomeStreamData.incomeType s))
                             (RuleInput.incomeStreams input))) ("MIXED_NO_EMPLOYMENT", WARNING)
     ++ optional (Js.gtb (grossReceipts input) 500000
                  && negb (Js.some (fun s => IncomeStreamData.form2307Received s
                                             || IncomeStreamData.hasWithholding s)
                             (RuleInput.incomeStreams input))) ("LARGE_INCOME_NO_DOCS", INFO))%list.
Proof.
  unfold RiskAssessmentRule.dataQualityRisks. cbv zeta.
  destruct (_ =? 0)%nat; destruct (UserType_eqb _ _ && _ && _);
    destruct (Js.gtb _ 500000); try destruct (negb (Js.some _ _)); codes_step.
Qed.

Lemma expenseRisks_codes input st :
  map flagKind (fst (RiskAssessmentRule.expenseRisks input st))
  = (map flagKind (fst st)
     ++ optional (regimeIs (RuleInput.selectedRegime input) GRADUATED_RATES
                  && (0 <? List.length (RuleInput.expenses input))%nat)
          ("EXPENSE_DOCS_REMINDER", INFO))%list.
Proof.
  unfold RiskAssessmentRule.expenseRisks.
  destruct (regimeIs _ _ && _); codes_step.
Qed.

Lemma triggered_cons {A : Type} (c : bool) (x : A) (checks : list (bool * A)) :
  triggered ((c, x) :: checks) = (optional c x ++ triggered checks)%list.
Proof. unfold triggered, optional. simpl. destruct c; reflexivity. Qed.

Lemma triggered_In {A : Type} (x : A) (checks : list (bool * A)) :
  In x (triggered checks) <-> In (true, x) checks.
Proof.
  unfold triggered. rewrite in_map_iff. split.
  - intros [[c y] [Hy Hin]]. apply filter_In in Hin. destruct Hin as [Hin Hc].
    simpl in Hy, Hc. subst. exact Hin.
  - intro Hin. exists (true, x). split; [reflexivity |].
    apply filter_In. split; [exact Hin | reflexivity].
Qed.

Lemma execute_kinds (env : HostEnv) (input : RuleInput.t) :
  map flagKind (RiskAssessmentRule.execute env input) = triggered (riskChecks input).
Proof.
  unfold RiskAssessmentRule.execute. cbv zeta. fold (grossReceipts input).
  rewrite expenseRisks_codes, dataQualityRisks_codes, regimeRisks_codes,
    withholdingRisks_codes, thresholdRisks_codes, registrationRisks_codes.
  unfold riskChecks. cbv zeta. rewrite !triggered_cons.
  simpl map. rewrite <- ?app_assoc. unfold triggered. simpl. rewrite ?app_nil_r.
  reflexivity.
Qed.

Lemma flag_triggered (env : HostEnv) (input : RuleInput.t) (f : RiskFlag.t) :
  In f (RiskAssessmentRule.execute env input) ->
  In (true, flagKind f) (riskChecks input).
Proof.
  intro Hin. apply triggered_In. rewrite <- (execute_kinds env).
  apply in_map. exact Hin.
Qed.

Ltac check_cases H :=
  unfold riskChecks in H; cbv zeta in H; simpl in H;
  repeat match goal with
  | H' : _ \/ _ |- _ => destruct H' as [H' | H']
  end; try contradiction.

(** X13. The approaching-threshold warning and the exceeded-threshold flag never
    occur in the same assessment. *)
Theorem vat_flags_exclusive (env : HostEnv) (input : RuleInput.t) :
  let codes := map RiskFlag.code (RiskAssessmentRule.execute env input) in
  ~ (In "APPROACHING_VAT_THRESHOLD" codes /\ In "EXCEEDS_VAT_THRESHOLD" codes).
Proof.
  cbv zeta. intros [Happ Hexc].
  apply in_map_iff in Happ. destruct Happ as [fa [Hca Hina]].
  apply in_map_iff in Hexc. destruct Hexc as [fe [Hce Hine]].
  apply (flag_triggered env) in Hina. apply (flag_triggered env) in Hine.
  unfold flagKind in Hina, Hine. rewrite Hca in Hina. rewrite Hce in Hine.
  check_cases Hina; try discriminate.
  check_cases Hine; try discriminate.
  injection Hina as Ha _. injection Hine as He _.
  apply andb_true_iff in Ha. destruct Ha as [_ Ha].
  apply ltb_lt in Ha. apply gtb_lt in He. lra.
Qed.

(** X14. Every check raises at most one flag: the codes of the flags of an
    assessment are pairwise distinct. *)
Theorem risk_codes_distinct (env : HostEnv) (input : RuleInput.t) :
  NoDup (map RiskFlag.code (RiskAssessmentRule.execute env input)).
Proof.
  replace (map RiskFlag.code (RiskAssessmentRule.execute env input))
    with (map fst (map flagKind (RiskAssessmentRule.execute env input)))
    by (rewrite map_map; reflexivity).
  rewrite execute_kinds.
  assert (Hnd : NoDup (map fst (map snd (riskChecks input)))).
  { unfold riskChecks. cbv zeta. simpl map.
    repeat (constructor; [simpl; intuition discriminate |]). constructor. }
  revert Hnd. generalize (riskChecks input). intros checks.
  induction checks as [| [c x] rest IH]; simpl; intro Hnd.
  - constructor.
  - inversion Hnd as [| ? ? Hnotin Hrest]; subst.
    rewrite triggered_cons. destruct c; simpl; [| apply IH; exact Hrest].
    constructor; [| apply IH; exact Hrest].
    intro Hin. apply Hnotin.
    apply in_map_iff in Hin. destruct Hin as [y [Hy Hin]].
    apply triggered_In in Hin.
    apply in_map_iff. exists y. split; [exact Hy |].
    apply in_map_iff. exists (true, y). split; [reflexivity | exact Hin].
Qed.

(** X15. The severity of a flag follows from its code: the flags that require a
    CPA review are exactly those coded [UNREG_WITH_INCOME] and
    [EXCEEDS_VAT_THRESHOLD], and no flag has severity [NONE]. *)
Theorem risk_severity_by_code (env : HostEnv) (input : RuleInput.t) :
  Forall (fun f =>
            RiskFlag.level f <> NONE /\
            (RiskFlag.level f = CPA_REVIEW_REQUIRED <->
             RiskFlag.code f = "UNREG_WITH_INCOME"
             \/ RiskFlag.code f = "EXCEEDS_VAT_THRESHOLD"))
    (RiskAssessmentRule.execute env input).
Proof.
  apply Forall_forall. intros f Hin. apply (flag_triggered env) in Hin.
  unfold flagKind in Hin.
  check_cases Hin; injection Hin as _ Hcode Hlevel;
    rewrite <- Hcode, <- Hlevel;
    (split; [discriminate | split; [intro H; try discriminate H; auto
                                   | intros [H | H]; try discriminate H; reflexivity]]).
Qed.

(** ** Identifiers handed out by the [nextId] closures *)

Lemma to_uint_nonnil (n : nat) : Nat.to_uint n <> Decimal.Nil.
Proof.
  intro H. pose proof (DecimalNat.Unsigned.of_to n) as Hn. rewrite H in Hn.
  simpl in Hn. subst n. discriminate H.
Qed.

Lemma string_of_nat_inj (n m : nat) : Js.string_of_nat n = Js.string_of_nat m -> n = m.
Proof.
  unfold Js.string_of_nat. intro H.
  apply (f_equal NilZero.uint_of_string) in H.
  rewrite !NilZero.usu in H by apply to_uint_nonnil.
  injection H as H. apply DecimalNat.Unsigned.to_uint_inj. exact H.
Qed.

Lemma append_inj_l (p s1 s2 : string) : (p ++ s1 = p ++ s2)%string -> s1 = s2.
Proof.
  induction p as [| c p IH]; simpl; intro H; [exact H |].
  injection H as H. apply IH. exact H.
Qed.

Lemma idsFrom_NoDup (prefix : string) (start count : nat) :
  NoDup (idsFrom prefix start count).
Proof.
  unfold idsFrom. apply Finite.Injective_map_NoDup; [| apply seq_NoDup].
  intros n m H. unfold Js.cat in H. simpl in H.
  apply append_inj_l in H. apply string_of_nat_inj. exact H.
Qed.

Lemma idsFrom_app (prefix : string) (start a b : nat) :
  idsFrom prefix start (a + b)
  = (idsFrom prefix start a ++ idsFrom prefix (start + a) b)%list.
Proof. unfold idsFrom. rewrite seq_app, map_app. reflexivity. Qed.

Lemma extends_refl {A : Type} (prefix : string) (idOf : A -> string) (st : list A * nat) :
  extendsNumbered prefix idOf st st.
Proof.
  exists []. simpl. rewrite app_nil_r, Nat.add_0_r. repeat split.
Qed.

Lemma extends_trans {A : Type} (prefix : string) (idOf : A -> string)
    (st1 st2 st3 : list A * nat) :
  extendsNumbered prefix idOf st1 st2 -> extendsNumbered prefix idOf st2 st3 ->
  extendsNumbered prefix idOf st1 st3.
Proof.
  intros [a [Ha1 [Ha2 Ha3]]] [b [Hb1 [Hb2 Hb3]]].
  exists (a ++ b)%list. rewrite Hb1, Ha1, Hb2, Ha2.
  rewrite <- app_assoc, length_app, map_app, idsFrom_app, Ha3, Hb3, Ha2.
  repeat split. symmetry. apply Nat.add_assoc.
Qed.

Lemma extends_from_start {A : Type} (prefix : string) (idOf : A -> string)
    (st : list A * nat) :
  extendsNumbered prefix idOf ([], 1%nat) st ->
  map idOf (fst st) = idsFrom prefix 1 (List.length (fst st)) /\
  NoDup (map idOf (fst st)).
Proof.
  intros [added [H1 [_ H3]]]. simpl in H1, H3. rewrite H1.
  split; [exact H3 | rewrite H3; apply idsFrom_NoDup].
Qed.

Lemma flags_push_extends (st : RiskAssessmentRule.State) (f : string -> RiskFlag.t) :
  (forall i, RiskFlag.id (f i) = i) ->
  extendsNumbered "RISK-" RiskFlag.id st (RiskAssessmentRule.push st f).
Proof.
  intro Hid. eexists [_]. unfold RiskAssessmentRule.push. simpl.
  repeat split; [symmetry; apply Nat.add_1_r | rewrite Hid; reflexivity].
Qed.

Ltac flags_extend :=
  cbv zeta;
  repeat match goal with
  | |- context [if ?c then _ else _] => destruct c
  end;
  repeat first
    [ apply extends_refl
    | eapply extends_trans; [| apply flags_push_extends; intro; reflexivity] ].

Lemma registrationRisks_extends env input st :
  extendsNumbered "RISK-" RiskFlag.id st (RiskAssessmentRule.registrationRisks env input st).
Proof. unfold RiskAssessmentRule.registrationRisks. flags_extend. Qed.

Lemma thresholdRisks_extends env total st :
  extendsNumbered "RISK-" RiskFlag.id st (RiskAssessmentRule.thresholdRisks env total st).
Proof. unfold RiskAssessmentRule.thresholdRisks. flags_extend. Qed.

Lemma withholdingRisks_extends env input total st :
  extendsNumbered "RISK-" RiskFlag.id st
    (RiskAssessmentRule.withholdingRisks env input total st).
Proof. unfold RiskAssessmentRule.withholdingRisks. flags_extend. Qed.

Lemma regimeRisks_extends env input total st :
  extendsNumbered "RISK-" RiskFlag.id st (RiskAssessmentRule.regimeRisks env input total st).
Proof. unfold RiskAssessmentRule.regimeRisks. flags_extend. Qed.

Lemma dataQualityRisks_extends input total st :
  extendsNumbered "RISK-" RiskFlag.id st (RiskAssessmentRule.dataQualityRisks input total st).
Proof. unfold RiskAssessmentRule.dataQualityRisks. flags_extend. Qed.

Lemma expenseRisks_extends input st :
  extendsNumbered "RISK-" RiskFlag.id st (RiskAssessmentRule.expenseRisks input st).
Proof. unfold RiskAssessmentRule.expenseRisks. flags_extend. Qed.

Lemma riskFlags_extend env input :
  exists st, RiskAssessmentRule.execute env input = fst st /\
             extendsNumbered "RISK-" RiskFlag.id ([], 1%nat) st.
Proof.
  unfold RiskAssessmentRule.execute. cbv zeta. eexists. split; [reflexivity |].
  eapply extends_trans; [| apply expenseRisks_extends].
  eapply extends_trans; [| apply dataQualityRisks_extends].
  eapply extends_trans; [| apply regimeRisks_extends].
  eapply extends_trans; [| apply withholdingRisks_extends].
  eapply extends_trans; [| apply thresholdRisks_extends].
  apply registrationRisks_extends.
Qed.

Lemma riskFlag_ids_aux (env : HostEnv) (input : RuleInput.t) :
  map RiskFlag.id (RiskAssessmentRule.execute env input)
  = idsFrom "RISK-" 1 (List.length (RiskAssessmentRule.execute env input)) /\
  NoDup (map RiskFlag.id (RiskAssessmentRule.execute env input)).
Proof.
  destruct (riskFlags_extend env input) as [st [-> Hext]].
  apply (extends_from_start "RISK-" RiskFlag.id st Hext).
Qed.

(** X16. The identifiers of the risk flags are [RISK-1], [RISK-2], ... in the
    order of the list, each used once. *)
Theorem risk_ids_numbered (env : HostEnv) (input : RuleInput.t) :
  let flags := RiskAssessmentRule.execute env input in
  map RiskFlag.id flags = idsFrom "RISK-" 1 (List.length flags) /\
  NoDup (map RiskFlag.id flags).
Proof.
  exact (riskFlag_ids_aux env input).
Qed.

(** X17. An unregistered taxpayer with positive business income always gets, as
    the first flag, [RISK-1] coded [UNREG_WITH_INCOME] with severity
    [CPA_REVIEW_REQUIRED]. *)
Theorem unregistered_with_income_flagged (env : HostEnv) (input : RuleInput.t) :
  RuleInput.registrationStatus input = NOT_REGISTERED ->
  0 < grossReceipts input ->
  exists flag rest,
    RiskAssessmentRule.execute env input = flag :: rest /\
    RiskFlag.id flag = "RISK-1" /\
    RiskFlag.code flag = "UNREG_WITH_INCOME" /\
    RiskFlag.level flag = CPA_REVIEW_REQUIRED.
Proof.
  intros Hreg Hpos.
  pose proof (execute_kinds env input) as Hkinds.
  destruct (riskFlag_ids_aux env input) as [Hids _].
  unfold riskChecks in Hkinds. cbv zeta in Hkinds.
  rewrite triggered_cons in Hkinds.
  rewrite Hreg in Hkinds at 1.
  assert (Hgt : Js.gtb (grossReceipts input) 0 = true) by (apply gtb_lt; exact Hpos).
  rewrite Hgt in Hkinds at 1. simpl optional in Hkinds.
  destruct (RiskAssessmentRule.execute env input) as [| flag rest]; [discriminate Hkinds |].
  exists flag, rest. simpl in Hkinds.
  unfold idsFrom in Hids. simpl List.length in Hids. simpl seq in Hids.
  simpl map in Hids.
  unfold flagKind in Hkinds.
  injection Hkinds; intros. injection Hids; intros.
  repeat split; assumption.
Qed.

Lemma unregistered_with_income_flagged_witness :
  RuleInput.registrationStatus unregisteredWithIncome = NOT_REGISTERED /\
  0 < grossReceipts unregisteredWithIncome /\
  exists flag rest,
    RiskAssessmentRule.execute utcHost unregisteredWithIncome = flag :: rest /\
    RiskFlag.id flag = "RISK-1" /\
    RiskFlag.code flag = "UNREG_WITH_INCOME" /\
    RiskFlag.level flag = CPA_REVIEW_REQUIRED.
Proof.
  assert (H : 0 < grossReceipts unregisteredWithIncome) by (vm_compute; reflexivity).
  split; [reflexivity | split; [exact H |]].
  exact (unregistered_with_income_flagged utcHost unregisteredWithIncome eq_refl H).
Defined.

(** ** Filing obligations: which records are emitted *)

Ltac kinds_step :=
  unfold optional, FilingObligationsRule.push; simpl;
  rewrite ?map_app; simpl; rewrite <- ?app_assoc; simpl; rewrite ?app_nil_r;
  reflexivity.

Lemma incomeTax_kinds input st :
  map obligationKind (fst (FilingObligationsRule.incomeTaxObligations input st))
  = (map obligationKind (fst st)
     ++ optional (FilingObligationsRule.requiresQuarterlyIncomeTax input)
          ("1701Q", quarterly, true)
     ++ [("1701", annual, true)])%list.
Proof.
  unfold FilingObligationsRule.incomeTaxObligations. cbv zeta.
  destruct (FilingObligationsRule.requiresQuarterlyIncomeTax input); kinds_step.
Qed.

Lemma percentageTax_kinds input st :
  map obligationKind (fst (FilingObligationsRule.percentageTaxObligations input st))
  = (map obligationKind (fst st)
     ++ optional (FilingObligationsRule.requiresPercentageTax input)
          ("2551Q", quarterly, true)
     ++ optional (negb (FilingObligationsRule.requiresPercentageTax input)
                  && regimeIs (RuleInput.selectedRegime input) EIGHT_PERCENT_FLAT)
          ("2551Q", quarterly, false))%list.
Proof.
  unfold FilingObligationsRule.percentageTaxObligations.
  destruct (FilingObligationsRule.requiresPercentageTax input);
    destruct (regimeIs _ EIGHT_PERCENT_FLAT); kinds_step.
Qed.

Lemma registration_kinds input st :
  map obligationKind (fst (FilingObligationsRule.registrationObligations input st))
  = (map obligationKind (fst st)
     ++ optional (RegistrationStatus_eqb (RuleInput.registrationStatus input) NOT_REGISTERED)
          ("1901", annual, true)
     ++ optional (RegistrationStatus_eqb (RuleInput.registrationStatus input) REGISTERED)
          ("0605", annual, true))%list.
Proof.
  unfold FilingObligationsRule.registrationObligations. cbv zeta.
  destruct (RegistrationStatus_eqb _ NOT_REGISTERED);
    destruct (RegistrationStatus_eqb _ REGISTERED); kinds_step.
Qed.

Lemma withholding_kinds input st :
  map obligationKind (fst (FilingObligationsRule.withholdingObligations input st))
  = (map obligationKind (fst st)
     ++ optional (Js.some IncomeStreamData.hasWithholding (RuleInput.incomeStreams input))
          ("2307", quarterly, true))%list.
Proof.
  unfold FilingObligationsRule.withholdingObligations. cbv zeta.
  destruct (Js.some _ _); kinds_step.
Qed.

Lemma employment_kinds input st :
  map obligationKind (fst (FilingObligationsRule.employmentObligations input st))
  = (map obligationKind (fst st)
     ++ optional (RuleInput.hasEmploymentIncome input) ("2316", annual, true))%list.
Proof.
  unfold FilingObligationsRule.employmentObligations.
  destruct (RuleInput.hasEmploymentIncome input); kinds_step.
Qed.

Lemma books_kinds input st :
  map obligationKind (fst (FilingObligationsRule.booksObligations input st))
  = (map obligationKind (fst st)
     ++ optional (negb (UserType_eqb (RuleInput.userType input) MIXED_INCOME)
                  || Js.some (fun s => negb (isEmployment (IncomeStreamData.incomeType s)))
                       (RuleInput.incomeStreams input))
          ("BOOKS", annual, true))%list.
Proof.
  unfold FilingObligationsRule.booksObligations.
  destruct (_ || _); kinds_step.
Qed.

Lemma obligations_kinds (input : RuleInput.t) :
  map obligationKind (FilingObligationsRule.execute input)
  = triggered (obligationRules input).
Proof.
  unfold FilingObligationsRule.execute. cbv zeta.
  rewrite books_kinds, employment_kinds, withholding_kinds, registration_kinds,
    percentageTax_kinds, incomeTax_kinds.
  unfold obligationRules. cbv zeta. rewrite !triggered_cons.
  simpl map. rewrite <- ?app_assoc. unfold triggered. simpl. rewrite ?app_nil_r.
  reflexivity.
Qed.

Lemma obligation_triggered (input : RuleInput.t) (o : Obligation.t) :
  In o (FilingObligationsRule.execute input) ->
  In (true, obligationKind o) (obligationRules input).
Proof.
  intro Hin. apply triggered_In. rewrite <- obligations_kinds.
  apply in_map. exact Hin.
Qed.

Ltac rule_cases H :=
  unfold obligationRules in H; cbv zeta in H; simpl in H;
  repeat match goal with
  | H' : _ \/ _ |- _ => destruct H' as [H' | H']
  end; try contradiction.

Lemma requiresQuarterlyIncomeTax_always (input : RuleInput.t) :
  FilingObligationsRule.requiresQuarterlyIncomeTax input = true.
Proof.
  unfold FilingObligationsRule.requiresQuarterlyIncomeTax.
  destruct (RuleInput.userType input); reflexivity.
Qed.

Lemma obligations_push_extends (st : FilingObligationsRule.State)
    (f : string -> Obligation.t) :
  (forall i, Obligation.id (f i) = i) ->
  extendsNumbered "OBL-" Obligation.id st (FilingObligationsRule.push st f).
Proof.
  intro Hid. eexists [_]. unfold FilingObligationsRule.push. simpl.
  repeat split; [symmetry; apply Nat.add_1_r | rewrite Hid; reflexivity].
Qed.

Ltac obligations_extend :=
  cbv zeta;
  repeat match goal with
  | |- context [if ?c then _ else _] => destruct c
  end;
  repeat first
    [ apply extends_refl
    | eapply extends_trans; [| apply obligations_push_extends; intro; reflexivity] ].

Lemma incomeTax_extends input st :
  extendsNumbered "OBL-" Obligation.id st (FilingObligationsRule.incomeTaxObligations input st).
Proof. unfold FilingObligationsRule.incomeTaxObligations. obligations_extend. Qed.

Lemma percentageTax_extends input st :
  extendsNumbered "OBL-" Obligation.id st
    (FilingObligationsRule.percentageTaxObligations input st).
Proof. unfold FilingObligationsRule.percentageTaxObligations. obligations_extend. Qed.

Lemma registration_extends input st :
  extendsNumbered "OBL-" Obligation.id st
    (FilingObligationsRule.registrationObligations input st).
Proof. unfold FilingObligationsRule.registrationObligations. obligations_extend. Qed.

Lemma withholding_extends input st :
  extendsNumbered "OBL-" Obligation.id st
    (FilingObligationsRule.withholdingObligations input st).
Proof. unfold FilingObligationsRule.withholdingObligations. obligations_extend. Qed.

Lemma employment_extends input st :
  extendsNumbered "OBL-" Obligation.id st
    (FilingObligationsRule.employmentObligations input st).
Proof. unfold FilingObligationsRule.employmentObligations. obligations_extend. Qed.

Lemma books_extends input st :
  extendsNumbered "OBL-" Obligation.id st (FilingObligationsRule.booksObligations input st).
Proof. unfold FilingObligationsRule.booksObligations. obligations_extend. Qed.

Lemma obligations_extend_all input :
  exists st, FilingObligationsRule.execute input = fst st /\
             extendsNumbered "OBL-" Obligation.id ([], 1%nat) st.
Proof.
  unfold FilingObligationsRule.execute. cbv zeta. eexists. split; [reflexivity |].
  eapply extends_trans; [| apply books_extends].
  eapply extends_trans; [| apply employment_extends].
  eapply extends_trans; [| apply withholding_extends].
  eapply extends_trans; [| apply registration_extends].
  eapply extends_trans; [| apply percentageTax_extends].
  apply incomeTax_extends.
Qed.

Lemma obligation_ids_aux (input : RuleInput.t) :
  map Obligation.id (FilingObligationsRule.execute input)
  = idsFrom "OBL-" 1 (List.length (FilingObligationsRule.execute input)) /\
  NoDup (map Obligation.id (FilingObligationsRule.execute input)).
Proof.
  destruct (obligations_extend_all input) as [st [-> Hext]].
  apply (extends_from_start "OBL-" Obligation.id st Hext).
Qed.

(** X18. The identifiers of the obligations are [OBL-1], [OBL-2], ... in the
    order of the list, each used once. *)
Theorem obligation_ids_numbered (input : RuleInput.t) :
  let obligations := FilingObligationsRule.execute input in
  map Obligation.id obligations = idsFrom "OBL-" 1 (List.length obligations) /\
  NoDup (map Obligation.id obligations).
Proof. exact (obligation_ids_aux input). Qed.

(** X19. Every taxpayer gets the two income tax returns first: [OBL-1] is the
    applicable quarterly form 1701Q and [OBL-2] the applicable annual form
    1701. *)
Theorem income_tax_returns_first (input : RuleInput.t) :
  exists o1 o2 rest,
    FilingObligationsRule.execute input = o1 :: o2 :: rest /\
    Obligation.id o1 = "OBL-1" /\ obligationKind o1 = ("1701Q", quarterly, true) /\
    Obligation.id o2 = "OBL-2" /\ obligationKind o2 = ("1701", annual, true).
Proof.
  pose proof (obligations_kinds input) as Hkinds.
  destruct (obligation_ids_aux input) as [Hids _].
  unfold obligationRules in Hkinds. cbv zeta in Hkinds.
  rewrite requiresQuarterlyIncomeTax_always in Hkinds.
  rewrite !triggered_cons in Hkinds. simpl optional in Hkinds.
  destruct (FilingObligationsRule.execute input) as [| o1 [| o2 rest]];
    try discriminate Hkinds.
  exists o1, o2, rest.
  unfold idsFrom in Hids. simpl List.length in Hids. simpl seq in Hids. simpl map in Hids.
  simpl map in Hkinds. simpl app in Hkinds.
  injection Hkinds; intros. injection Hids; intros.
  unfold obligationKind.
  repeat split; try assumption; congruence.
Qed.

(** X20. No form is listed twice among the obligations, the registration form
    1901 and the registration fee form 0605 never occur together, and the
    only record that can be marked not applicable is the one for form
    2551Q. *)
Theorem obligation_forms_distinct (input : RuleInput.t) :
  let obligations := FilingObligationsRule.execute input in
  NoDup (map Obligation.formCode obligations) /\
  ~ (In "1901" (map Obligation.formCode obligations)
     /\ In "0605" (map Obligation.formCode obligations)) /\
  Forall (fun o => Obligation.isApplicable o = false -> Obligation.formCode o = "2551Q")
    obligations.
Proof.
  cbv zeta. split; [| split].
  - replace (map Obligation.formCode (FilingObligationsRule.execute input))
      with (map (fun k => fst (fst k))
              (map obligationKind (FilingObligationsRule.execute input)))
      by (rewrite map_map; reflexivity).
    rewrite obligations_kinds. unfold obligationRules. cbv zeta.
    rewrite !triggered_cons. unfold triggered. simpl filter. simpl map at 2.
    rewrite app_nil_r.
    destruct (FilingObligationsRule.requiresQuarterlyIncomeTax input);
      destruct (FilingObligationsRule.requiresPercentageTax input);
      destruct (regimeIs _ _);
      destruct (RuleInput.registrationStatus input);
      destruct (Js.some IncomeStreamData.hasWithholding _);
      destruct (RuleInput.hasEmploymentIncome input);
      destruct (_ || _); simpl;
      repeat (constructor; [simpl; intuition discriminate |]); constructor.
  - intros [H1901 H0605].
    apply in_map_iff in H1901. destruct H1901 as [o1 [Hc1 Hin1]].
    apply in_map_iff in H0605. destruct H0605 as [o2 [Hc2 Hin2]].
    apply obligation_triggered in Hin1. apply obligation_triggered in Hin2.
    unfold obligationKind in Hin1, Hin2. rewrite Hc1 in Hin1. rewrite Hc2 in Hin2.
    rule_cases Hin1; try discriminate. rule_cases Hin2; try discriminate.
    injection Hin1 as Hn _ _. injection Hin2 as Hr _ _.
    destruct (RuleInput.registrationStatus input); discriminate.
  - apply Forall_forall. intros o Hin Hfalse.
    apply obligation_triggered in Hin. unfold obligationKind in Hin.
    rewrite Hfalse in Hin.
    rule_cases Hin; try discriminate; injection Hin; intros; congruence.
Qed.

(** ** Deadlines: where they come from *)

Lemma obligationStep_origin env input obligations st (o : Obligation.t) :
  In o obligations -> Obligation.isApplicable o = true ->
  Forall (originatesFrom obligations) (fst st) ->
  Forall (originatesFrom obligations)
    (fst (DeadlineCalculationRule.obligationStep env input st o)).
Proof.
  intros Hin Happ Hst. unfold DeadlineCalculationRule.obligationStep. cbv zeta.
  set (config := FILING_DEADLINES (Obligation.formCode o)).
  assert (Hq : Forall (originatesFrom obligations)
                 (fst (DeadlineCalculationRule.quarterlyBranch env input o config st))).
  { unfold DeadlineCalculationRule.quarterlyBranch.
    destruct (Obligation.frequency o) eqn:Efreq; try exact Hst.
    destruct config as [cfg |] eqn:Ecfg; [| exact Hst].
    assert (Hfold : forall quarters s,
      Forall (originatesFrom obligations) (fst s) ->
      Forall (originatesFrom obligations)
        (fst (fold_left (DeadlineCalculationRule.quarterStep env input o cfg) quarters s))).
    { induction quarters as [| q rest IH]; intros s Hs; simpl; [exact Hs |].
      apply IH. unfold DeadlineCalculationRule.quarterStep.
      destruct (DeadlineCalculationRule.quarterDeadline _ q); [| exact Hs].
      apply deadlines_push_Forall; [exact Hs |].
      intro i. exists o. repeat split; try assumption.
      unfold hasDeadlineBranch. cbv zeta. fold config. rewrite Ecfg, Efreq. reflexivity. }
    apply Hfold. exact Hst. }
  assert (Ha : Forall (originatesFrom obligations)
                 (fst (DeadlineCalculationRule.annualBranch env input o config
                         (DeadlineCalculationRule.quarterlyBranch env input o config st)))).
  { unfold DeadlineCalculationRule.annualBranch. cbv zeta.
    destruct (_ || _) eqn:Eann; [| exact Hq].
    apply deadlines_push_Forall; [exact Hq |].
    intro i. exists o. repeat split; try assumption.
    unfold hasDeadlineBranch. cbv zeta. fold config.
    apply orb_true_iff in Eann. destruct Eann as [Eann | Eann].
    - rewrite Eann. rewrite orb_true_r. reflexivity.
    - destruct config as [cfg |]; [| discriminate Eann].
      rewrite Eann. rewrite !orb_true_r. reflexivity. }
  assert (Hf : Forall (originatesFrom obligations)
                 (fst (DeadlineCalculationRule.registrationFeeBranch env input o
                   (DeadlineCalculationRule.annualBranch env input o config
                     (DeadlineCalculationRule.quarterlyBranch env input o config st))))).
  { unfold DeadlineCalculationRule.registrationFeeBranch. cbv zeta.
    destruct (String.eqb (Obligation.formCode o) "0605") eqn:Efee; [| exact Ha].
    apply deadlines_push_Forall; [exact Ha |].
    intro i. exists o. repeat split; try assumption.
    - simpl. symmetry. apply String.eqb_eq. exact Efee.
    - unfold hasDeadlineBranch. cbv zeta. rewrite Efee. rewrite !orb_true_r. reflexivity. }
  unfold DeadlineCalculationRule.registrationBranch.
  destruct (String.eqb (Obligation.formCode o) "1901") eqn:Ereg; [| exact Hf].
  apply deadlines_push_Forall; [exact Hf |].
  intro i. exists o. repeat split; try assumption.
  - simpl. symmetry. apply String.eqb_eq. exact Ereg.
  - unfold hasDeadlineBranch. cbv zeta. rewrite Ereg. rewrite !orb_true_r. reflexivity.
Qed.

Lemma deadlines_origin env input (obligations : list Obligation.t) :
  Forall (originatesFrom obligations)
    (DeadlineCalculationRule.execute env input obligations).
Proof.
  apply Forall_forall. intros d Hin.
  unfold DeadlineCalculationRule.execute in Hin.
  apply (proj1 (sortDeadlines_In _ _)) in Hin.
  revert d Hin. apply Forall_forall.
  unfold DeadlineCalculationRule.emitted.
  assert (Hfold : forall l st,
    (forall o, In o l -> In o obligations /\ Obligation.isApplicable o = true) ->
    Forall (originatesFrom obligations) (fst st) ->
    Forall (originatesFrom obligations)
      (fst (fold_left (DeadlineCalculationRule.obligationStep env input) l st))).
  { induction l as [| o rest IH]; intros st Hl Hst; simpl; [exact Hst |].
    apply IH; [intros o' Ho'; apply Hl; right; exact Ho' |].
    destruct (Hl o (or_introl eq_refl)) as [Hin Happ].
    apply obligationStep_origin; assumption. }
  apply Hfold; [| constructor].
  intros o Ho. apply filter_In in Ho. exact Ho.
Qed.

(** X21. Every deadline goes back to an applicable obligation of the list it was
    computed from, whose identifier and form it carries; an obligation that
    is not applicable, or for which the loop body has no branch, yields no
    deadline. *)
Theorem deadlines_from_applicable_obligations env input (obligations : list Obligation.t) :
  Forall (originatesFrom obligations)
    (DeadlineCalculationRule.execute env input obligations).
Proof. exact (deadlines_origin env input obligations). Qed.

(** X22. In the pipeline no deadline is computed for the withholding certificate
    form 2307: its obligation is quarterly and the deadline tables have no
    entry for it. *)
Theorem no_deadline_for_form_2307 (env : HostEnv) (input : RuleInput.t) :
  Forall (fun d => Deadline.formCode d <> "2307")
    (DeadlineCalculationRule.execute env input (FilingObligationsRule.execute input)).
Proof.
  eapply Forall_impl; [| apply deadlines_origin].
  intros d [o [Hin [_ [_ [Hcode Hbranch]]]]] Hd.
  rewrite Hd in Hcode. apply obligation_triggered in Hin.
  unfold obligationKind in Hin. rewrite <- Hcode in Hin.
  unfold hasDeadlineBranch in Hbranch. cbv zeta in Hbranch. rewrite <- Hcode in Hbranch.
  rule_cases Hin; try discriminate.
  injection Hin as _ Hfreq _. rewrite <- Hfreq in Hbranch. discriminate Hbranch.
Qed.

(** X23. In the pipeline under the flat regime no deadline is computed for the
    percentage tax form 2551Q. *)
Theorem flat_regime_no_percentage_tax_deadline (env : HostEnv) (input : RuleInput.t) :
  RuleInput.selectedRegime input = Some EIGHT_PERCENT_FLAT ->
  Forall (fun d => Deadline.formCode d <> "2551Q")
    (DeadlineCalculationRule.execute env input (FilingObligationsRule.execute input)).
Proof.
  intro Hflat.
  eapply Forall_impl; [| apply deadlines_origin].
  intros d [o [Hin [Happ [_ [Hcode _]]]]] Hd.
  rewrite Hd in Hcode. apply obligation_triggered in Hin.
  unfold obligationKind in Hin. rewrite <- Hcode, Happ in Hin.
  unfold obligationRules in Hin. cbv zeta in Hin.
  rewrite (requiresPercentageTax_flat input Hflat) in Hin.
  simpl in Hin.
  repeat match goal with
  | H' : _ \/ _ |- _ => destruct H' as [H' | H']
  end; try contradiction; discriminate.
Qed.

Lemma flat_regime_no_percentage_tax_deadline_witness :
  RuleInput.selectedRegime flatWithWithholding = Some EIGHT_PERCENT_FLAT /\
  Forall (fun d => Deadline.formCode d <> "2551Q")
    (DeadlineCalculationRule.execute utcHost flatWithWithholding
       (FilingObligationsRule.execute flatWithWithholding)).
Proof.
  split; [reflexivity |].
  exact (flat_regime_no_percentage_tax_deadline utcHost flatWithWithholding eq_refl).
Defined.

(** ** Deadlines: order and identifiers *)

Lemma dueLe_trans (a b c : Deadline.t) : dueLe a b -> dueLe b c -> dueLe a c.
Proof.
  unfold dueLe.
  destruct (Deadline.dueDate a), (Deadline.dueDate b), (Deadline.dueDate c);
    simpl; intros; try tauto; lia.
Qed.

Lemma compare_neg_dueLe (x y : Deadline.t) :
  (DeadlineCalculationRule.compareDeadlines x y < 0)%Z -> dueLe x y.
Proof.
  unfold DeadlineCalculationRule.compareDeadlines, dueLe.
  destruct (Deadline.dueDate x), (Deadline.dueDate y); simpl; intros; try tauto; lia.
Qed.

Lemma compare_nonneg_dueLe (x y : Deadline.t) :
  (0 <= DeadlineCalculationRule.compareDeadlines x y)%Z -> dueLe y x.
Proof.
  unfold DeadlineCalculationRule.compareDeadlines, dueLe.
  destruct (Deadline.dueDate x), (Deadline.dueDate y); simpl; intros; try tauto; lia.
Qed.

Lemma insertDeadline_sorted (x : Deadline.t) (l : list Deadline.t) :
  StronglySorted dueLe l -> StronglySorted dueLe (DeadlineCalculationRule.insertDeadline x l).
Proof.
  induction 1 as [| y rest Hsorted IH Hall]; simpl.
  - repeat constructor.
  - destruct (Z.ltb_spec (DeadlineCalculationRule.compareDeadlines x y) 0) as [Hlt | Hge].
    + constructor; [constructor; assumption |].
      constructor; [apply compare_neg_dueLe; exact Hlt |].
      eapply Forall_impl; [| exact Hall].
      intros z Hz. eapply dueLe_trans; [apply compare_neg_dueLe; exact Hlt | exact Hz].
    + constructor; [exact IH |].
      apply Forall_forall. intros z Hz. apply insertDeadline_In in Hz.
      destruct Hz as [-> | Hz].
      * apply compare_nonneg_dueLe. exact Hge.
      * rewrite Forall_forall in Hall. apply Hall. exact Hz.
Qed.

Lemma insertDeadline_perm (x : Deadline.t) (l : list Deadline.t) :
  Permutation (x :: l) (DeadlineCalculationRule.insertDeadline x l).
Proof.
  induction l as [| y rest IH]; simpl.
  - apply Permutation_refl.
  - destruct (DeadlineCalculationRule.compareDeadlines x y <? 0)%Z.
    + apply Permutation_refl.
    + eapply Permutation_trans; [apply perm_swap |]. apply perm_skip. exact IH.
Qed.

Lemma sortDeadlines_spec (l : list Deadline.t) :
  StronglySorted dueLe (DeadlineCalculationRule.sortDeadlines l) /\
  Permutation l (DeadlineCalculationRule.sortDeadlines l).
Proof.
  unfold DeadlineCalculationRule.sortDeadlines.
  assert (H : forall acc,
    StronglySorted dueLe acc ->
    StronglySorted dueLe
      (fold_left (fun sorted x => DeadlineCalculationRule.insertDeadline x sorted) l acc) /\
    Permutation (l ++ acc)
      (fold_left (fun sorted x => DeadlineCalculationRule.insertDeadline x sorted) l acc)).
  { induction l as [| x rest IH]; intros acc Hacc; simpl.
    - split; [exact Hacc | apply Permutation_refl].
    - destruct (IH (DeadlineCalculationRule.insertDeadline x acc)
                  (insertDeadline_sorted x acc Hacc)) as [Hs Hp].
      split; [exact Hs |].
      eapply Permutation_trans; [| exact Hp].
      eapply Permutation_trans; [apply Permutation_middle |].
      apply Permutation_app_head. apply insertDeadline_perm. }
  destruct (H [] (SSorted_nil dueLe)) as [Hs Hp].
  rewrite app_nil_r in Hp. split; assumption.
Qed.

(** X24. The deadlines come out sorted, every ['ASAP'] entry before every dated
    one and the dated ones by ascending date, and the sort neither drops nor
    repeats a deadline. *)
Theorem deadlines_sorted env input (obligations : list Obligation.t) :
  StronglySorted dueLe (DeadlineCalculationRule.execute env input obligations) /\
  Permutation (DeadlineCalculationRule.emitted env input obligations)
    (DeadlineCalculationRule.execute env input obligations).
Proof. unfold DeadlineCalculationRule.execute. apply sortDeadlines_spec. Qed.

Lemma deadlines_push_extends (st : DeadlineCalculationRule.State)
    (f : string -> Deadline.t) :
  (forall i, Deadline.id (f i) = i) ->
  extendsNumbered "DL-" Deadline.id st (DeadlineCalculationRule.push st f).
Proof.
  intro Hid. eexists [_]. unfold DeadlineCalculationRule.push. simpl.
  repeat split; [symmetry; apply Nat.add_1_r | rewrite Hid; reflexivity].
Qed.

Lemma quarterlyBranch_extends env input (o : Obligation.t) config st :
  extendsNumbered "DL-" Deadline.id st
    (DeadlineCalculationRule.quarterlyBranch env input o config st).
Proof.
  unfold DeadlineCalculationRule.quarterlyBranch.
  destruct (Obligation.frequency o); try apply extends_refl.
  destruct config as [cfg |]; [| apply extends_refl].
  generalize ["Q1"; "Q2"; "Q3"]. intro quarters. revert st.
  induction quarters as [| q rest IH]; intro st; simpl; [apply extends_refl |].
  eapply extends_trans; [| apply IH].
  unfold DeadlineCalculationRule.quarterStep.
  destruct (DeadlineCalculationRule.quarterDeadline _ q); [| apply extends_refl].
  apply deadlines_push_extends. intro i. reflexivity.
Qed.

Lemma annualBranch_extends env input (o : Obligation.t) config st :
  extendsNumbered "DL-" Deadline.id st
    (DeadlineCalculationRule.annualBranch env input o config st).
Proof.
  unfold DeadlineCalculationRule.annualBranch. cbv zeta.
  destruct (_ || _); [| apply extends_refl].
  apply deadlines_push_extends. intro i. reflexivity.
Qed.

Lemma registrationFeeBranch_extends env input (o : Obligation.t) st :
  extendsNumbered "DL-" Deadline.id st
    (DeadlineCalculationRule.registrationFeeBranch env input o st).
Proof.
  unfold DeadlineCalculationRule.registrationFeeBranch. cbv zeta.
  destruct (String.eqb _ _); [| apply extends_refl].
  apply deadlines_push_extends. intro i. reflexivity.
Qed.

Lemma registrationBranch_extends (o : Obligation.t) st :
  extendsNumbered "DL-" Deadline.id st (DeadlineCalculationRule.registrationBranch o st).
Proof.
  unfold DeadlineCalculationRule.registrationBranch.
  destruct (String.eqb _ _); [| apply extends_refl].
  apply deadlines_push_extends. intro i. reflexivity.
Qed.

Lemma obligationStep_extends env input st (o : Obligation.t) :
  extendsNumbered "DL-" Deadline.id st
    (DeadlineCalculationRule.obligationStep env input st o).
Proof.
  unfold DeadlineCalculationRule.obligationStep. cbv zeta.
  eapply extends_trans; [| apply registrationBranch_extends].
  eapply extends_trans; [| apply registrationFeeBranch_extends].
  eapply extends_trans; [| apply annualBranch_extends].
  apply quarterlyBranch_extends.
Qed.

Lemma emitted_extends env input (obligations : list Obligation.t) :
  exists st, DeadlineCalculationRule.emitted env input obligations = fst st /\
             extendsNumbered "DL-" Deadline.id ([], 1%nat) st.
Proof.
  unfold DeadlineCalculationRule.emitted. eexists. split; [reflexivity |].
  generalize (filter Obligation.isApplicable obligations). intro l.
  generalize (@nil Deadline.t, 1%nat). intro st0.
  assert (H : forall l st, extendsNumbered "DL-" Deadline.id st
                (fold_left (DeadlineCalculationRule.obligationStep env input) l st)).
  { clear. induction l as [| o rest IH]; intro st; simpl; [apply extends_refl |].
    eapply extends_trans; [apply obligationStep_extends | apply IH]. }
  apply H.
Qed.

(** X25. The deadlines are numbered [DL-1], [DL-2], ... in the order in which
    the loop emits them; after the sort every identifier still occurs
    exactly once. *)
Theorem deadline_ids_numbered env input (obligations : list Obligation.t) :
  let emitted := DeadlineCalculationRule.emitted env input obligations in
  map Deadline.id emitted = idsFrom "DL-" 1 (List.length emitted) /\
  NoDup (map Deadline.id (DeadlineCalculationRule.execute env input obligations)).
Proof.
  cbv zeta.
  destruct (sortDeadlines_spec (DeadlineCalculationRule.emitted env input obligations))
    as [_ Hperm].
  destruct (emitted_extends env input obligations) as [st [Hst Hext]].
  destruct (extends_from_start "DL-" Deadline.id st Hext) as [Hids Hnd].
  rewrite <- Hst in Hids, Hnd.
  split; [exact Hids |].
  eapply Permutation_NoDup; [| exact Hnd].
  apply Permutation_map. exact Hperm.
Qed.

(** ** Data completeness *)

(** X26. The completeness score is 100 less 10 for each missing field and 5 for
    each warning; it is never below 75, so neither the clamp to [0, 100]
    nor the rounding changes it. *)
Theorem completeness_score (input : RuleInput.t) :
  let c := RulesEngineService.assessCompleteness input in
  Completeness.score c
  == 100 - 10 * inject_Z (Z.of_nat (List.length (Completeness.missingFields c)))
     - 5 * inject_Z (Z.of_nat (List.length (Completeness.warnings c))) /\
  75 <= Completeness.score c <= 100.
Proof.
  cbv zeta. unfold RulesEngineService.assessCompleteness. cbv zeta.
  destruct (Js.some _ (RuleInput.incomeStreams input)) eqn:Esome;
    destruct (RuleInput.incomeStreams input) as [| s rest]; try discriminate Esome;
    destruct (RuleInput.tin input) as [[| ch t] |];
    destruct (regimeIs (RuleInput.selectedRegime input) UNDETERMINED);
    vm_compute; repeat split; discriminate.
Qed.

(** ** Withholding credits *)

Lemma or0_falsy (x : option Q) : Js.truthy x = false -> Js.or0 x == 0.
Proof.
  destruct x as [v |]; simpl; intro H; [| reflexivity].
  apply negb_false_iff in H. rewrite H. reflexivity.
Qed.

(** X27. The credits applied against the tax are the amounts withheld on every
    stream flagged as having withholding, whether or not the form 2307 for
    it was received: the same total the risk checks work with. *)
Theorem credits_ignore_missing_certificates (input : RuleInput.t) :
  ComputedValues.creditsApplied (TaxComputationRule.execute input) == withheldTotal input.
Proof.
  assert (Hc : ComputedValues.creditsApplied (TaxComputationRule.execute input)
               = TaxComputationRule.calculateWithholdingCredits input).
  { unfold TaxComputationRule.execute.
    destruct (regimeIs (RuleInput.selectedRegime input) EIGHT_PERCENT_FLAT); reflexivity. }
  rewrite Hc. unfold TaxComputationRule.calculateWithholdingCredits, withheldTotal.
  induction (RuleInput.incomeStreams input) as [| s rest IH]; simpl.
  - reflexivity.
  - destruct (IncomeStreamData.hasWithholding s); simpl; [| exact IH].
    destruct (Js.truthy (IncomeStreamData.withheldAmount s)) eqn:Et.
    + rewrite !sum_cons, IH. reflexivity.
    + rewrite sum_cons, IH, (or0_falsy _ Et). lra.
Qed.

(** ** The first deadline of an unregistered taxpayer *)

Lemma registrationBranch_asap (o : Obligation.t) st :
  Obligation.formCode o = "1901" ->
  exists d, In d (fst (DeadlineCalculationRule.registrationBranch o st)) /\
            Deadline.dueDate d = ASAP.
Proof.
  intro Hcode. unfold DeadlineCalculationRule.registrationBranch. rewrite Hcode. simpl.
  eexists. split; [apply in_or_app; right; left; reflexivity | reflexivity].
Qed.

Lemma registration_obligation_asap env input (obligations : list Obligation.t)
    (o : Obligation.t) :
  In o obligations -> Obligation.isApplicable o = true ->
  Obligation.formCode o = "1901" ->
  exists d rest,
    DeadlineCalculationRule.execute env input obligations = d :: rest /\
    Deadline.dueDate d = ASAP.
Proof.
  intros Hin Happ Hcode.
  assert (Hex : exists d, In d (DeadlineCalculationRule.execute env input obligations)
                          /\ Deadline.dueDate d = ASAP).
  { assert (Hf : In o (filter Obligation.isApplicable obligations)).
    { apply filter_In. split; assumption. }
    apply in_split in Hf. destruct Hf as [before [after Hsplit]].
    unfold DeadlineCalculationRule.execute, DeadlineCalculationRule.emitted.
    rewrite Hsplit, fold_left_app. simpl.
    unfold DeadlineCalculationRule.obligationStep at 2. cbv zeta.
    match goal with
    | |- context [DeadlineCalculationRule.registrationBranch o ?s] =>
        destruct (registrationBranch_asap o s Hcode) as [d [Hd Hasap]]
    end.
    exists d. split; [| exact Hasap].
    apply sortDeadlines_In. apply obligations_keep. exact Hd. }
  destruct Hex as [d [Hd Hasap]].
  destruct (sortDeadlines_spec (DeadlineCalculationRule.emitted env input obligations))
    as [Hsorted _].
  fold (DeadlineCalculationRule.execute env input obligations) in Hsorted.
  destruct (DeadlineCalculationRule.execute env input obligations) as [| h rest];
    [contradiction |].
  exists h, rest. split; [reflexivity |].
  destruct Hd as [-> | Hd]; [exact Hasap |].
  apply StronglySorted_inv in Hsorted. destruct Hsorted as [_ Hall].
  rewrite Forall_forall in Hall. specialize (Hall d Hd).
  unfold dueLe in Hall. rewrite Hasap in Hall.
  destruct (Deadline.dueDate h); [reflexivity | contradiction].
Qed.

(** X28. For an unregistered taxpayer the first deadline of the assessment is an
    ['ASAP'] entry: the registration comes before every dated filing. *)
Theorem unregistered_first_deadline_asap
    (env : HostEnv) (self : RulesEngineService.t) (input : RuleInput.t) :
  RuleInput.registrationStatus input = NOT_REGISTERED ->
  exists d rest,
    AssessmentOutput.deadlines (snd (RulesEngineService.runAssessment env self input))
    = d :: rest /\
    Deadline.dueDate d = ASAP.
Proof.
  intro Hreg.
  set (effective := RuleInput.withSelectedRegime input
                      (RulesEngineService.effectiveRegime input
                         (RegimeDeterminationRule.execute env input))).
  change (AssessmentOutput.deadlines (snd (RulesEngineService.runAssessment env self input)))
    with (DeadlineCalculationRule.execute env effective
            (FilingObligationsRule.execute effective)).
  assert (Hk : In ("1901", annual, true)
                 (map obligationKind (FilingObligationsRule.execute effective))).
  { rewrite obligations_kinds. apply triggered_In.
    unfold obligationRules. cbv zeta.
    change (RuleInput.registrationStatus effective)
      with (RuleInput.registrationStatus input).
    rewrite Hreg. simpl. do 4 right. left. reflexivity. }
  apply in_map_iff in Hk. destruct Hk as [o [Hkind Hin]].
  unfold obligationKind in Hkind. injection Hkind as Hcode _ Happ.
  exact (registration_obligation_asap env effective _ o Hin Happ Hcode).
Qed.

Lemma unregistered_first_deadline_asap_witness :
  RuleInput.registrationStatus unregisteredWithIncome = NOT_REGISTERED /\
  exists d rest,
    AssessmentOutput.deadlines
      (snd (RulesEngineService.runAssessment utcHost (RulesEngineService.mk [])
              unregisteredWithIncome))
    = d :: rest /\
    Deadline.dueDate d = ASAP.
Proof.
  split; [reflexivity |].
  exact (unregistered_first_deadline_asap utcHost (RulesEngineService.mk [])
           unregisteredWithIncome eq_refl).
Defined.

(** ** The annual branch of the deadline rule *)

Lemma annual_obligation_dated_deadline_witness :
  In registrationObligation [registrationObligation] /\
  exists d, In d (DeadlineCalculationRule.execute utcHost unregisteredFreelancer
                    [registrationObligation]) /\
            Deadline.formCode d = "1901" /\
            Deadline.dueDate d <> ASAP /\
            Deadline.reminderDays d = [60; 30; 14; 7; 3; 1]%nat.
Proof.
  assert (Hin : In registrationObligation [registrationObligation])
    by (left; reflexivity).
  split; [exact Hin |].
  exact (annual_obligation_dated_deadline utcHost unregisteredFreelancer
           [registrationObligation] registrationObligation Hin eq_refl eq_refl).
Defined.
